(** * Multi-tenant material inventory: the stock-ledger engine

    A shallow embedding of the Express/Prisma back end:
    - [prisma/migrations/.../migration.sql]  the tables and their constraints,
    - [src/middleware/tenant-auth.js]        identity resolution and the role check,
    - [src/routes.js]                        the middleware chain of each endpoint,
    - [src/controllers/material.controller.js] the material and movement handlers.

    Conventions of the model.
    - The relational store is a record of tables; every table is a list of rows
      in insertion order, so [createdAt] order is list order.  A handler is a
      function from the request and the store to a response and a store.
    - A single Prisma query is atomic; it either returns a value and a new
      store or throws a [PrismaError] and leaves the store as it was.
    - Primary keys are TEXT values drawn by the ORM; here they are naturals and
      a new key is the successor of the largest key of the table.  The only
      property used is that a new key does not occur in the table.
    - JavaScript numbers ([currentStock], [quantity]) are IEEE 754 doubles,
      and the columns that hold them are DOUBLE PRECISION.  The first part of
      the development idealises them as exact rationals: its statements
      involve at most one addition or subtraction of a handler, or equate a
      stored value with the result of the handler's own operations, and read
      the same with the rounded operations.  Whatever depends on the outcome
      of several arithmetic steps (the ledger invariants, the audit of the
      snapshots, the sums of the analytics summary) is stated in [Binary64],
      where the ledger handlers are embedded once more over binary64 values,
      with rounding, infinities and NaN.  The exact sum invariant of the
      idealisation ([ledger_consistent]) is the yardstick for overlapping
      requests; it does not carry over to doubles, where an addition may
      round.
    - A string is held as its UTF-8 bytes; a length is counted in UTF-16 code
      units, as [String.prototype.length] does.
    - The store-maintained columns [createdAt] and [updatedAt] are not
      represented; no handler reads or writes them except for ordering.
    - Listing, analytics and tenant provisioning take no part in the ledger;
      they are modelled after the ledger, in "The rest of the API". *)

From Stdlib Require Import List String Ascii Bool Arith Lia QArith Lqa.
From Stdlib Require Import Floats.
Import ListNotations.

Set Implicit Arguments.

Local Open Scope string_scope.
Local Open Scope nat_scope.
Local Open Scope list_scope.

(** ** Data model (migration.sql) *)

Definition Id := nat.
Definition Timestamp := nat.

Inductive TenantPlan := FREE | PRO.
Inductive UserRole := ADMIN | USER.
Inductive TransactionType := IN | OUT.

Definition TenantPlan_eqb (a b : TenantPlan) : bool :=
  match a, b with FREE, FREE | PRO, PRO => true | _, _ => false end.

Definition UserRole_eqb (a b : UserRole) : bool :=
  match a, b with ADMIN, ADMIN | USER, USER => true | _, _ => false end.

Module Tenant.
Record t := mk { id : Id; name : string; plan : TenantPlan }.
End Tenant.

Module User.
Record t := mk { id : Id; tenantId : Id; email : string; name : string;
                 role : UserRole }.
End User.

Module Material.
Record t := mk { id : Id; tenantId : Id; name : string; unit : string;
                 currentStock : Q; deletedAt : option Timestamp }.

Definition live (m : t) : bool :=
  match deletedAt m with None => true | Some _ => false end.
End Material.

Module Transaction.
Record t := mk { id : Id; tenantId : Id; materialId : Id;
                 type : TransactionType; quantity : Q;
                 preTransactionStock : Q }.
End Transaction.

Record DB := mkDB {
  tenants : list Tenant.t;
  users : list User.t;
  materials : list Material.t;
  transactions : list Transaction.t
}.

(** ** The store: Prisma queries used by the handlers *)

Inductive PrismaError :=
| P2002   (* unique constraint failed *)
| P2003   (* foreign key constraint failed *)
| P2025.  (* record to update not found *)

Inductive Result (A : Type) :=
| Ok (a : A) (db' : DB)
| Throw (e : PrismaError).
Arguments Throw {A} e.

Definition Query (A : Type) := DB -> Result A.

Definition freshId (used : list Id) : Id := S (list_max used).

Module prisma.

Definition tenant_findUnique (id : Id) (db : DB) : option Tenant.t :=
  find (fun t => Tenant.id t =? id) (tenants db).

(** [prisma.user.findFirst({ where: { id, tenantId } })] *)
Definition user_findFirst (id tenantId : Id) (db : DB) : option User.t :=
  find (fun u => (User.id u =? id) && (User.tenantId u =? tenantId)) (users db).

(** [where: { tenantId, deletedAt: null }] *)
Definition material_count (tenantId : Id) (db : DB) : nat :=
  List.length (filter (fun m => (Material.tenantId m =? tenantId) && Material.live m)
                 (materials db)).

(** [where: { id, tenantId, deletedAt: null }] *)
Definition material_findFirst (id tenantId : Id) (db : DB) : option Material.t :=
  find (fun m => (Material.id m =? id) && (Material.tenantId m =? tenantId)
                 && Material.live m)
       (materials db).

(** [prisma.material.create({ data: { tenantId, name, unit, currentStock } })].
    The row needs an existing tenant (foreign key) and a [(tenantId, name)]
    pair that no row has, soft-deleted rows included (unique index). *)
Definition material_create (tenantId : Id) (name unit : string) (currentStock : Q)
  : Query Material.t := fun db =>
  if negb (existsb (fun t => Tenant.id t =? tenantId) (tenants db)) then Throw P2003
  else if existsb (fun m => (Material.tenantId m =? tenantId)
                            && String.eqb (Material.name m) name) (materials db)
  then Throw P2002
  else
    let row := Material.mk (freshId (map Material.id (materials db)))
                           tenantId name unit currentStock None in
    Ok row (mkDB (tenants db) (users db) (materials db ++ [row]) (transactions db)).

(** The [data] argument of [prisma.material.update]. *)
Inductive MaterialData :=
  | data_currentStock (newStock : Q)
  | data_deletedAt (date : Timestamp).

Definition assign (d : MaterialData) (m : Material.t) : Material.t :=
  match d with
  | data_currentStock newStock =>
      Material.mk (Material.id m) (Material.tenantId m) (Material.name m)
                  (Material.unit m) newStock (Material.deletedAt m)
  | data_deletedAt date =>
      Material.mk (Material.id m) (Material.tenantId m) (Material.name m)
                  (Material.unit m) (Material.currentStock m) (Some date)
  end.

Definition update_rows (id : Id) (d : MaterialData) (rows : list Material.t)
  : list Material.t :=
  map (fun x => if Material.id x =? id then assign d x else x) rows.

(** [prisma.material.update({ where: { id }, data })] *)
Definition material_update (id : Id) (d : MaterialData) : Query Material.t := fun db =>
  match find (fun m => Material.id m =? id) (materials db) with
  | None => Throw P2025
  | Some m =>
      Ok (assign d m)
         (mkDB (tenants db) (users db) (update_rows id d (materials db))
               (transactions db))
  end.

(** [prisma.transaction.create({ data: { tenantId, materialId, type,
    quantity, preTransactionStock } })] *)
Definition transaction_create (tenantId materialId : Id) (type : TransactionType)
           (quantity preTransactionStock : Q) : Query Transaction.t := fun db =>
  if negb (existsb (fun t => Tenant.id t =? tenantId) (tenants db)) then Throw P2003
  else if negb (existsb (fun m => Material.id m =? materialId) (materials db))
  then Throw P2003
  else
    let row := Transaction.mk (freshId (map Transaction.id (transactions db)))
                              tenantId materialId type quantity preTransactionStock in
    Ok row (mkDB (tenants db) (users db) (materials db) (transactions db ++ [row])).

(** [prisma.$transaction([q1, q2])]: the two queries run in order inside one
    database transaction; when either throws, nothing is committed. *)
Definition transaction2 {A B : Type} (q1 : Query A) (q2 : Query B) : Query (A * B) :=
  fun db =>
    match q1 db with
    | Throw e => Throw e
    | Ok a db1 =>
        match q2 db1 with
        | Throw e => Throw e
        | Ok b db2 => Ok (a, b) db2
        end
    end.

(** [include: { transactions: { orderBy: { createdAt: 'desc' }, take: 10 } }] *)
Definition transactions_of (materialId : Id) (db : DB) : list Transaction.t :=
  filter (fun t => Transaction.materialId t =? materialId) (transactions db).

Definition recent_transactions (materialId : Id) (db : DB) : list Transaction.t :=
  firstn 10 (rev (transactions_of materialId db)).

End prisma.

(** ** Requests and responses (Express) *)

(** A value of a JSON body, as far as the zod schemas tell values apart. *)
Inductive JsValue :=
| JUndefined
| JString (s : string)
| JNumber (q : Q)
| JOther.

Definition Body := list (string * JsValue).

Definition field (key : string) (b : Body) : JsValue :=
  match find (fun kv => String.eqb (fst kv) key) b with
  | Some kv => snd kv
  | None => JUndefined
  end.

(** [now] is the value [new Date()] yields while the request is served. *)
Record Request := mkRequest {
  header_tenant_id : option Id;
  header_user_id : option Id;
  params_id : Id;
  body : Body;
  now : Timestamp
}.

(** [req.tenant] and [req.user], attached by [tenantAuthMiddleware]. *)
Record Context := mkContext { tenant : Tenant.t; user : User.t }.

(** The [message] (or [details]) member of an error body.  A template
    literal is a constructor whose arguments are its interpolated values. *)
Inductive Message :=
| NoMessage
| ValidationDetails
| PlanLimitMessage (max : nat)
| ConflictMessage (name : string)
| NotFoundOrForeignMessage
| NotFoundOrDeletedMessage
| InsufficientStockMessage (preTransactionStock : Q) (unit : string) (quantity : Q)
| ForbiddenMessage (requiredRole : UserRole)
| MissingHeadersMessage
| TenantNotFoundMessage
| UserDeniedMessage.

Inductive Json :=
| ErrorJson (error : string) (message : Message)
| MaterialJson (material : Material.t)
| MaterialWithTransactionsJson (material : Material.t)
                               (transactions : list Transaction.t)
| MovementJson (id : Id) (currentStock : Q) (transaction : Transaction.t)
| SoftDeletedJson (name : string) (id : Id) (deletedAt : option Timestamp).

Record Response := mkResponse { status : nat; json : Json }.

Definition Controller := Context -> Request -> DB -> Response * DB.

(** The [error] member of a response body, when it is an error body. *)
Definition error_kind (r : Response) : option string :=
  match json r with
  | ErrorJson error _ => Some error
  | _ => None
  end.

(** ** Validation schemas (zod) *)

Definition Qltb (x y : Q) : bool := negb (Qle_bool y x).

(** A string of a body is held as its UTF-8 bytes.  [s.length] counts UTF-16
    code units: one for a code point of one, two or three bytes, two (a
    surrogate pair) for a code point of four bytes.  A byte contributes the
    units of the code point it starts, and a continuation byte none. *)
Definition utf16_units (c : ascii) : nat :=
  let n := nat_of_ascii c in
  if n <? 128 then 1
  else if n <? 192 then 0
  else if n <? 240 then 1
  else 2.

Fixpoint js_length (s : string) : nat :=
  match s with
  | EmptyString => 0
  | String c rest => utf16_units c + js_length rest
  end.

(** [z.string().min(lo).max(hi)] *)
Definition z_string (lo hi : nat) (v : JsValue) : option string :=
  match v with
  | JString s => if (lo <=? js_length s) && (js_length s <=? hi)
                 then Some s else None
  | _ => None
  end.

(** [z.nativeEnum(TransactionType)] *)
Definition z_TransactionType (v : JsValue) : option TransactionType :=
  match v with
  | JString s => if String.eqb s "IN" then Some IN
                 else if String.eqb s "OUT" then Some OUT else None
  | _ => None
  end.

(** [z.number().positive()] *)
Definition z_number_positive (v : JsValue) : option Q :=
  match v with
  | JNumber q => if Qltb 0 q then Some q else None
  | _ => None
  end.

Definition createMaterialSchema (b : Body) : option (string * string) :=
  match z_string 1 100 (field "name" b), z_string 1 20 (field "unit" b) with
  | Some name, Some unit => Some (name, unit)
  | _, _ => None
  end.

Definition createTransactionSchema (b : Body) : option (TransactionType * Q) :=
  match z_TransactionType (field "type" b), z_number_positive (field "quantity" b) with
  | Some type, Some quantity => Some (type, quantity)
  | _, _ => None
  end.

(** ** Middleware (tenant-auth.js) *)

Definition tenantAuthMiddleware (req : Request) (db : DB) : Response + Context :=
  match header_tenant_id req, header_user_id req with
  | Some tenantId, Some userId =>
      match prisma.tenant_findUnique tenantId db with
      | None => inl (mkResponse 404 (ErrorJson "Tenant Not Found" TenantNotFoundMessage))
      | Some tenant =>
          match prisma.user_findFirst userId tenantId db with
          | None => inl (mkResponse 403 (ErrorJson "User Access Denied" UserDeniedMessage))
          | Some user => inr (mkContext tenant user)
          end
      end
  | _, _ => inl (mkResponse 401 (ErrorJson "Authentication Required" MissingHeadersMessage))
  end.

(** [None] stands for the call of [next()]. *)
Definition roleCheckMiddleware (requiredRole : UserRole) (ctx : Context)
  : option Response :=
  let userRole := User.role (user ctx) in
  if UserRole_eqb requiredRole ADMIN && negb (UserRole_eqb userRole ADMIN)
  then Some (mkResponse 403 (ErrorJson "Authorization Required"
                                       (ForbiddenMessage requiredRole)))
  else None.

(** ** Controllers (material.controller.js) *)

Definition MAX_FREE_MATERIALS : nat := 5.

Definition createMaterial : Controller := fun ctx req db =>
  let tenantId := Tenant.id (tenant ctx) in
  let tenantPlan := Tenant.plan (tenant ctx) in
  match createMaterialSchema (body req) with
  | None => (mkResponse 400 (ErrorJson "Validation Error" ValidationDetails), db)
  | Some (name, unit) =>
      if TenantPlan_eqb tenantPlan FREE
         && (MAX_FREE_MATERIALS <=? prisma.material_count tenantId db)
      then (mkResponse 403 (ErrorJson "Plan Limit Exceeded"
                                      (PlanLimitMessage MAX_FREE_MATERIALS)), db)
      else
        match prisma.material_create tenantId name unit 0 db with
        | Ok newMaterial db' => (mkResponse 201 (MaterialJson newMaterial), db')
        | Throw P2002 => (mkResponse 409 (ErrorJson "Conflict" (ConflictMessage name)), db)
        | Throw _ => (mkResponse 500 (ErrorJson "Internal Server Error" NoMessage), db)
        end
  end.

Definition getMaterialById : Controller := fun ctx req db =>
  let tenantId := Tenant.id (tenant ctx) in
  let materialId := params_id req in
  match prisma.material_findFirst materialId tenantId db with
  | None => (mkResponse 404 (ErrorJson "Not Found" NotFoundOrForeignMessage), db)
  | Some material =>
      (mkResponse 200 (MaterialWithTransactionsJson
                         material
                         (prisma.recent_transactions (Material.id material) db)), db)
  end.

(** What [createTransaction] holds between its two awaited store calls. *)
Record Movement := mkMovement {
  mv_tenantId : Id;
  mv_materialId : Id;
  mv_type : TransactionType;
  mv_quantity : Q;
  mv_preTransactionStock : Q;
  mv_newStock : Q
}.

(** Lines 148-182: validation, [await prisma.material.findFirst], and the
    computation of [newStock] from the row that was read. *)
Definition createTransaction_read (ctx : Context) (req : Request) (db : DB)
  : Response + Movement :=
  let tenantId := Tenant.id (tenant ctx) in
  let materialId := params_id req in
  match createTransactionSchema (body req) with
  | None => inl (mkResponse 400 (ErrorJson "Validation Error" ValidationDetails))
  | Some (type, quantity) =>
      match prisma.material_findFirst materialId tenantId db with
      | None => inl (mkResponse 404 (ErrorJson "Not Found" NotFoundOrForeignMessage))
      | Some material =>
          let preTransactionStock := Material.currentStock material in
          match type with
          | IN =>
              inr (mkMovement tenantId materialId type quantity preTransactionStock
                              (preTransactionStock + quantity)%Q)
          | OUT =>
              if Qltb preTransactionStock quantity
              then inl (mkResponse 400
                          (ErrorJson "Insufficient Stock"
                             (InsufficientStockMessage preTransactionStock
                                                       (Material.unit material)
                                                       quantity)))
              else inr (mkMovement tenantId materialId type quantity preTransactionStock
                                   (preTransactionStock - quantity)%Q)
          end
      end
  end.

(** Lines 184-210: [await prisma.$transaction([update, create])], the 201
    response, and the [catch] clause. *)
Definition createTransaction_write (mv : Movement) (db : DB) : Response * DB :=
  match prisma.transaction2
          (prisma.material_update (mv_materialId mv)
                                  (prisma.data_currentStock (mv_newStock mv)))
          (prisma.transaction_create (mv_tenantId mv) (mv_materialId mv) (mv_type mv)
                                     (mv_quantity mv) (mv_preTransactionStock mv))
          db with
  | Ok (updatedMaterial, newTransaction) db' =>
      (mkResponse 201 (MovementJson (Material.id updatedMaterial)
                                    (Material.currentStock updatedMaterial)
                                    newTransaction), db')
  | Throw _ => (mkResponse 500 (ErrorJson "Internal Server Error" NoMessage), db)
  end.

(** A request served with no other request in between. *)
Definition createTransaction : Controller := fun ctx req db =>
  match createTransaction_read ctx req db with
  | inl response => (response, db)
  | inr mv => createTransaction_write mv db
  end.

Definition softDeleteMaterial : Controller := fun ctx req db =>
  let tenantId := Tenant.id (tenant ctx) in
  let materialId := params_id req in
  match prisma.material_findFirst materialId tenantId db with
  | None => (mkResponse 404 (ErrorJson "Not Found" NotFoundOrDeletedMessage), db)
  | Some material =>
      match prisma.material_update materialId (prisma.data_deletedAt (now req)) db with
      | Ok softDeletedMaterial db' =>
          (mkResponse 200 (SoftDeletedJson (Material.name softDeletedMaterial)
                                           (Material.id softDeletedMaterial)
                                           (Material.deletedAt softDeletedMaterial)), db')
      | Throw _ => (mkResponse 500 (ErrorJson "Internal Server Error" NoMessage), db)
      end
  end.

(** ** Routes (routes.js) *)

Inductive Endpoint :=
| POST_materials
| GET_materials_id
| DELETE_materials_id
| POST_materials_id_transactions.

(** The stack of an endpoint after [tenantAuthMiddleware], which opens every
    one of these routes: the role checks and the controller. *)
Definition router (e : Endpoint) : list (Context -> option Response) * Controller :=
  match e with
  | POST_materials => ([roleCheckMiddleware ADMIN], createMaterial)
  | GET_materials_id => ([], getMaterialById)
  | DELETE_materials_id => ([roleCheckMiddleware ADMIN], softDeleteMaterial)
  | POST_materials_id_transactions => ([], createTransaction)
  end.

Fixpoint run_middleware (stack : list (Context -> option Response)) (ctx : Context)
  : option Response :=
  match stack with
  | [] => None
  | mw :: rest =>
      match mw ctx with
      | Some response => Some response
      | None => run_middleware rest ctx
      end
  end.

Definition handle (e : Endpoint) (req : Request) (db : DB) : Response * DB :=
  match tenantAuthMiddleware req db with
  | inl response => (response, db)
  | inr ctx =>
      match run_middleware (fst (router e)) ctx with
      | Some response => (response, db)
      | None => snd (router e) ctx req db
      end
  end.

(** ** The ledger of a material *)

Definition signed (t : Transaction.t) : Q :=
  match Transaction.type t with
  | IN => Transaction.quantity t
  | OUT => - Transaction.quantity t
  end.

Definition ledgerSum (l : list Transaction.t) : Q :=
  fold_right (fun t acc => signed t + acc)%Q 0%Q l.

(** The transaction history of a material: every row that names it. *)
Definition history (db : DB) (materialId : Id) : list Transaction.t :=
  prisma.transactions_of materialId db.

(** ** Sequences of operations *)

Inductive Operation :=
| op_createMaterial (ctx : Context) (req : Request)
| op_createTransaction (ctx : Context) (req : Request)
| op_softDeleteMaterial (ctx : Context) (req : Request).

Definition perform (op : Operation) (db : DB) : Response * DB :=
  match op with
  | op_createMaterial ctx req => createMaterial ctx req db
  | op_createTransaction ctx req => createTransaction ctx req db
  | op_softDeleteMaterial ctx req => softDeleteMaterial ctx req db
  end.

Definition run_operations (ops : list Operation) (db : DB) : DB :=
  fold_left (fun db op => snd (perform op db)) ops db.

(** The stores that a sequence of operations produces from a store without
    materials and transactions. *)
Inductive reachable : DB -> Prop :=
| reachable_empty (ts : list Tenant.t) (us : list User.t) :
    reachable (mkDB ts us [] [])
| reachable_perform (db : DB) (op : Operation) :
    reachable db -> reachable (snd (perform op db)).

(** ** Overlapping requests

    A handler runs without interruption between two awaited store calls, and
    the store serves one call at a time.  A movement request is therefore a
    task of two steps, and a schedule names the task whose pending store call
    is served next. *)

Inductive Task :=
| Arrived (ctx : Context) (req : Request)
| Holding (mv : Movement)
| Replied (response : Response).

Definition advance (t : Task) (db : DB) : Task * DB :=
  match t with
  | Arrived ctx req =>
      match createTransaction_read ctx req db with
      | inl response => (Replied response, db)
      | inr mv => (Holding mv, db)
      end
  | Holding mv =>
      let (response, db') := createTransaction_write mv db in (Replied response, db')
  | Replied response => (Replied response, db)
  end.

Fixpoint replace_nth {A : Type} (i : nat) (a : A) (l : list A) : list A :=
  match l, i with
  | [], _ => []
  | _ :: rest, O => a :: rest
  | x :: rest, S j => x :: replace_nth j a rest
  end.

Definition serve (c : list Task * DB) (i : nat) : list Task * DB :=
  match nth_error (fst c) i with
  | None => c
  | Some t => let (t', db') := advance t (snd c) in (replace_nth i t' (fst c), db')
  end.

Definition run_schedule (schedule : list nat) (c : list Task * DB) : list Task * DB :=
  fold_left serve schedule c.

(** The stock of the live material [id] of tenant [tenantId], if there is one. *)
Definition stock_of (id tenantId : Id) (db : DB) : option Q :=
  option_map Material.currentStock (prisma.material_findFirst id tenantId db).

(** ** The stores a successful handler leaves behind *)

(** The row that [createTransaction] inserts for a movement. *)
Definition movement_row (mv : Movement) (db : DB) : Transaction.t :=
  Transaction.mk (freshId (map Transaction.id (transactions db)))
                 (mv_tenantId mv) (mv_materialId mv) (mv_type mv)
                 (mv_quantity mv) (mv_preTransactionStock mv).

(** The store after the batch of a movement is committed. *)
Definition movement_store (mv : Movement) (db : DB) : DB :=
  mkDB (tenants db) (users db)
       (prisma.update_rows (mv_materialId mv)
                           (prisma.data_currentStock (mv_newStock mv)) (materials db))
       (transactions db ++ [movement_row mv db]).

(** The store after material [id] is marked as deleted at [date]. *)
Definition deleted_store (id : Id) (date : Timestamp) (db : DB) : DB :=
  mkDB (tenants db) (users db)
       (prisma.update_rows id (prisma.data_deletedAt date) (materials db))
       (transactions db).

(** [post] of the specification: the stock a movement leads to. *)
Definition post_stock (type : TransactionType) (pre quantity : Q) : Q :=
  match type with
  | IN => pre + quantity
  | OUT => pre - quantity
  end.

(** No live material of tenant [tenantId] has key [id]: there is no such row,
    or it belongs to another tenant, or it is soft-deleted. *)
Definition not_available (id tenantId : Id) (db : DB) : Prop :=
  forall m, In m (materials db) -> Material.id m = id ->
            Material.tenantId m <> tenantId \/ Material.deletedAt m <> None.

(** Every transaction names a material of the store (foreign key). *)
Definition referential (db : DB) : Prop :=
  forall t, In t (transactions db) ->
            In (Transaction.materialId t) (map Material.id (materials db)).

(** Invariants I1 and I2 of the ledger. *)
Definition ledger_consistent (db : DB) : Prop :=
  forall m, In m (materials db) ->
            (Material.currentStock m == ledgerSum (history db (Material.id m)))%Q
            /\ (0 <= Material.currentStock m)%Q.

(** ** Request bodies *)

Definition TransactionType_name (type : TransactionType) : string :=
  match type with IN => "IN" | OUT => "OUT" end.

(** The body of the request is a movement of [quantity] units of kind [type]. *)
Definition movement_request (req : Request) (type : TransactionType) (quantity : Q)
  : Prop :=
  field "type" (body req) = JString (TransactionType_name type)
  /\ field "quantity" (body req) = JNumber quantity.

Definition movement_body (type : TransactionType) (quantity : Q) : Body :=
  [("type", JString (TransactionType_name type)); ("quantity", JNumber quantity)].

Definition material_body (name unit : string) : Body :=
  [("name", JString name); ("unit", JString unit)].

(** ** The plan limit as section 4 states it *)

(** A request that has passed identity resolution and validation: a FREE
    tenant is denied at the ceiling and served below it, and a PRO tenant is
    never denied for the limit. *)
Definition plan_limit_claim (ctx : Context) (req : Request) (db : DB) : Prop :=
  tenantAuthMiddleware req db = inr ctx ->
  createMaterialSchema (body req) <> None ->
  let count := prisma.material_count (Tenant.id (tenant ctx)) db in
  (Tenant.plan (tenant ctx) = FREE ->
   (MAX_FREE_MATERIALS <= count ->
    error_kind (fst (createMaterial ctx req db)) = Some "Plan Limit Exceeded"
    /\ snd (createMaterial ctx req db) = db)
   /\ (count < MAX_FREE_MATERIALS ->
       status (fst (createMaterial ctx req db)) = 201
       /\ exists m, materials (snd (createMaterial ctx req db)) = materials db ++ [m]))
  /\ (Tenant.plan (tenant ctx) = PRO ->
      error_kind (fst (createMaterial ctx req db)) <> Some "Plan Limit Exceeded").

(** ** A sample tenant *)

Definition acme : Tenant.t := Tenant.mk 1 "acme" FREE.
Definition alice : User.t := User.mk 1 1 "alice@acme.test" "alice" ADMIN.
Definition bob : User.t := User.mk 2 1 "bob@acme.test" "bob" USER.

Definition as_alice : Context := mkContext acme alice.
Definition as_bob : Context := mkContext acme bob.

Definition acme_empty : DB := mkDB [acme] [alice; bob] [] [].

(** A request of user [userId] of tenant 1 on material [id]. *)
Definition request (userId id : Id) (b : Body) : Request :=
  mkRequest (Some 1) (Some userId) id b 42.

Definition steel : Material.t := Material.mk 1 1 "steel" "kg" 100 None.

(** Tenant 1 holds 100 kg of steel, received in one movement. *)
Definition acme_steel : DB :=
  mkDB [acme] [alice; bob] [steel] [Transaction.mk 1 1 1 IN 100 0].

(** Five materials were created, and the first one was soft-deleted. *)
Definition acme_after_delete : DB :=
  let create name db := snd (handle POST_materials (request 1 0 (material_body name "kg")) db) in
  let db5 := create "m5" (create "m4" (create "m3" (create "m2" (create "m1" acme_empty)))) in
  snd (handle DELETE_materials_id (request 1 1 []) db5).

(** Two opposing movements of 30 kg of steel that arrive together. *)
Definition opposing_movements : list Task :=
  [Arrived as_bob (request 2 1 (movement_body IN 30));
   Arrived as_alice (request 1 1 (movement_body OUT 30))].

(** * The rest of the API

    The handlers that the ledger does not go through: the catalogue listing
    ([listMaterials]), the analytics summary ([getAnalyticsSummary]) and
    tenant provisioning ([createTenant]), with the routes that serve them.
    Two library behaviours are parameters of the model: the case-insensitive
    string comparison of the database ([Collation]) and the e-mail syntax
    check of zod ([z_email]). *)

(** ** Replies *)

(** [Plain] carries a response of the shapes above; the other constructors
    are the bodies that only these handlers send. *)
Inductive Reply :=
| Plain (response : Response)
| ErrorReply (status : nat) (error : string) (message : string)
| MaterialsReply (materials : list Material.t)
| SummaryReply (tenantId : Id) (materialCount : nat)
               (totalQuantityIn totalQuantityOut netStockMovement : Q)
| TenantReply (tenantId adminUserId : Id) (name : string) (plan : TenantPlan).

Definition internal_error : Response :=
  mkResponse 500 (ErrorJson "Internal Server Error" NoMessage).

(** ** Catalogue listing (material.controller.js, listMaterials) *)

(** A member of [req.query]: absent, a string, or an array or object. *)
Inductive QueryValue :=
| QAbsent
| QString (s : string)
| QOther.

Record MaterialQuery := mkQuery { query_name : QueryValue; query_unit : QueryValue }.

Record Collation := mkCollation {
  contains_insensitive : string -> string -> bool;   (* column value, pattern *)
  equals_insensitive : string -> string -> bool
}.

(** A member of [whereClause].  [if (name)] skips an absent or empty value;
    a value that is not a string makes the query invalid. *)
Inductive Filter :=
| NoFilter
| StringFilter (s : string)
| InvalidFilter.

Definition where_member (v : QueryValue) : Filter :=
  match v with
  | QAbsent => NoFilter
  | QString EmptyString => NoFilter
  | QString s => StringFilter s
  | QOther => InvalidFilter
  end.

Definition passes (test : string -> string -> bool) (f : Filter) (value : string)
  : bool :=
  match f with
  | StringFilter s => test value s
  | _ => true
  end.

(** The rows that [whereClause] selects. *)
Definition selected (col : Collation) (tenantId : Id) (name unit : Filter)
           (m : Material.t) : bool :=
  (Material.tenantId m =? tenantId) && Material.live m
  && passes (contains_insensitive col) name (Material.name m)
  && passes (equals_insensitive col) unit (Material.unit m).

(** [prisma.material.findMany({ where, orderBy: { createdAt: 'desc' } })];
    [None] when the query is rejected. *)
Definition material_findMany (col : Collation) (tenantId : Id) (name unit : Filter)
           (db : DB) : option (list Material.t) :=
  match name, unit with
  | InvalidFilter, _ | _, InvalidFilter => None
  | _, _ => Some (rev (filter (selected col tenantId name unit) (materials db)))
  end.

Definition listMaterials (col : Collation) (query : MaterialQuery)
           (ctx : Context) (req : Request) (db : DB) : Reply * DB :=
  let tenantId := Tenant.id (tenant ctx) in
  match material_findMany col tenantId (where_member (query_name query))
                          (where_member (query_unit query)) db with
  | Some materials => (MaterialsReply materials, db)
  | None => (Plain internal_error, db)
  end.

Definition no_filter : MaterialQuery := mkQuery QAbsent QAbsent.

(** A collation for runs: ASCII letters compare without case. *)
Definition lower_ascii (c : ascii) : ascii :=
  let n := nat_of_ascii c in
  if (65 <=? n) && (n <=? 90) then ascii_of_nat (n + 32) else c.

Fixpoint lower (s : string) : string :=
  match s with
  | EmptyString => EmptyString
  | String c rest => String (lower_ascii c) (lower rest)
  end.

Fixpoint is_substring (pattern s : string) : bool :=
  String.prefix pattern s
  || match s with
     | EmptyString => false
     | String _ rest => is_substring pattern rest
     end.

Definition ascii_collation : Collation :=
  mkCollation (fun value pattern => is_substring (lower pattern) (lower value))
              (fun value other => String.eqb (lower value) (lower other)).

(** ** Analytics summary (analytics.controller.js, getAnalyticsSummary) *)

Definition TransactionType_eqb (a b : TransactionType) : bool :=
  match a, b with IN, IN | OUT, OUT => true | _, _ => false end.

(** [prisma.transaction.aggregate({ _sum: { quantity: true },
    where: { tenantId, type } })]; the sum of no row is [null]. *)
Definition transaction_aggregate_sum (tenantId : Id) (type : TransactionType)
           (db : DB) : option Q :=
  match filter (fun t => (Transaction.tenantId t =? tenantId)
                         && TransactionType_eqb (Transaction.type t) type)
               (transactions db) with
  | [] => None
  | rows => Some (fold_right (fun t acc => Transaction.quantity t + acc)%Q 0%Q rows)
  end.

(** [value || 0] *)
Definition or_zero (value : option Q) : Q :=
  match value with
  | None => 0%Q
  | Some q => if Qeq_bool q 0 then 0%Q else q
  end.

Definition getAnalyticsSummary (ctx : Context) (req : Request) (db : DB)
  : Reply * DB :=
  let tenantId := Tenant.id (tenant ctx) in
  let tenantPlan := Tenant.plan (tenant ctx) in
  if negb (TenantPlan_eqb tenantPlan PRO)
  then (ErrorReply 403 "Plan Restricted"
          "Analytics Summary is a PRO-plan feature. Upgrade your tenant to access this endpoint.",
        db)
  else
    let materialCount := prisma.material_count tenantId db in
    let totalQuantityIn := or_zero (transaction_aggregate_sum tenantId IN db) in
    let totalQuantityOut := or_zero (transaction_aggregate_sum tenantId OUT db) in
    (SummaryReply tenantId materialCount totalQuantityIn totalQuantityOut
                  (totalQuantityIn - totalQuantityOut)%Q,
     db).

(** ** Tenant provisioning (tenant.controller.js, createTenant) *)

(** [req.body], and its member [admin] when that is an object. *)
Record TenantBody := mkTenantBody { fields : Body; admin : option Body }.

(** [z.string().min(lo)] *)
Definition z_string_min (lo : nat) (v : JsValue) : option string :=
  match v with
  | JString s => if lo <=? js_length s then Some s else None
  | _ => None
  end.

(** [z.nativeEnum(TenantPlan).default(TenantPlan.FREE)] *)
Definition z_TenantPlan_default (v : JsValue) : option TenantPlan :=
  match v with
  | JUndefined => Some FREE
  | JString s => if String.eqb s "FREE" then Some FREE
                 else if String.eqb s "PRO" then Some PRO else None
  | _ => None
  end.

Definition tenantSchema (b : Body) : option (string * TenantPlan) :=
  match z_string_min 3 (field "name" b), z_TenantPlan_default (field "plan" b) with
  | Some name, Some plan => Some (name, plan)
  | _, _ => None
  end.

(** [z.string().email()] is [z_email] on strings. *)
Definition userSchema (z_email : string -> bool) (b : option Body)
  : option (string * string) :=
  match b with
  | None => None
  | Some b =>
      match field "email" b, z_string_min 3 (field "name" b) with
      | JString email, Some name => if z_email email then Some (email, name) else None
      | _, _ => None
      end
  end.

(** [prisma.tenant.create({ data: { name, plan, users: { create: { email,
    name, role: 'ADMIN' } } }, include: { users: true } })]: both rows are
    inserted in one transaction.  [inl target] is a P2002 error with
    [meta.target = target]: the tenant name is unique, and so is the e-mail
    address over all users. *)
Definition tenant_create (name : string) (plan : TenantPlan) (email userName : string)
           (db : DB) : list string + (Tenant.t * User.t * DB) :=
  if existsb (fun t => String.eqb (Tenant.name t) name) (tenants db)
  then inl ["name"]
  else if existsb (fun u => String.eqb (User.email u) email) (users db)
  then inl ["email"]
  else
    let newTenant := Tenant.mk (freshId (map Tenant.id (tenants db))) name plan in
    let adminUser := User.mk (freshId (map User.id (users db))) (Tenant.id newTenant)
                             email userName ADMIN in
    inr (newTenant, adminUser,
         mkDB (tenants db ++ [newTenant]) (users db ++ [adminUser])
              (materials db) (transactions db)).

(** The [message] of the 409 answer, chosen from [error.meta.target]. *)
Definition conflict_message (target : list string) : string :=
  if existsb (String.eqb "name") target
  then "The tenant name already exists. Please choose a different name."
  else if existsb (String.eqb "email") target
  then "The admin email address provided is already in use globally. Please use a unique email."
  else String.append "Conflict on unique field(s): "
                     (String.append (String.concat ", " target) ".").

Definition createTenant (z_email : string -> bool) (b : TenantBody) (db : DB)
  : Reply * DB :=
  match tenantSchema (fields b) with
  | None => (Plain (mkResponse 400 (ErrorJson "Validation Error" ValidationDetails)), db)
  | Some (name, plan) =>
      match userSchema z_email (admin b) with
      | None => (Plain (mkResponse 400 (ErrorJson "Validation Error" ValidationDetails)),
                 db)
      | Some (email, userName) =>
          match tenant_create name plan email userName db with
          | inr (newTenant, adminUser, db') =>
              (TenantReply (Tenant.id newTenant) (User.id adminUser)
                           (Tenant.name newTenant) (Tenant.plan newTenant), db')
          | inl target => (ErrorReply 409 "Conflict" (conflict_message target), db)
          end
      end
  end.

(** ** The whole router (routes.js) *)

Record Environment := mkEnvironment {
  collation : Collation;
  z_email : string -> bool
}.

Inductive ApiRequest :=
| api_tenants (b : TenantBody)                       (* POST /tenants *)
| api_materials (e : Endpoint) (req : Request)       (* the four routes of [router] *)
| api_list (query : MaterialQuery) (req : Request)   (* GET /materials *)
| api_analytics (req : Request).                     (* GET /analytics/summary *)

(** A route whose stack is [tenantAuthMiddleware] and the controller. *)
Definition scoped (controller : Context -> Request -> DB -> Reply * DB)
           (req : Request) (db : DB) : Reply * DB :=
  match tenantAuthMiddleware req db with
  | inl response => (Plain response, db)
  | inr ctx => controller ctx req db
  end.

Definition api (env : Environment) (r : ApiRequest) (db : DB) : Reply * DB :=
  match r with
  | api_tenants b => createTenant (z_email env) b db
  | api_materials e req => (Plain (fst (handle e req db)), snd (handle e req db))
  | api_list query req => scoped (listMaterials (collation env) query) req db
  | api_analytics req => scoped getAnalyticsSummary req db
  end.

Definition empty_store : DB := mkDB [] [] [] [].

(** The stores that sequences of requests produce from the empty database. *)
Inductive api_reachable (env : Environment) : DB -> Prop :=
| api_reachable_start : api_reachable env empty_store
| api_reachable_next (db : DB) (r : ApiRequest) :
    api_reachable env db -> api_reachable env (snd (api env r db)).

Definition run_api (env : Environment) (rs : list ApiRequest) (db : DB) : DB :=
  fold_left (fun db r => snd (api env r db)) rs db.

(** ** Well-formedness of a store *)

Definition unique_material_ids (db : DB) : Prop :=
  NoDup (map Material.id (materials db)).

Definition unique_material_names (db : DB) : Prop :=
  NoDup (map (fun m => (Material.tenantId m, Material.name m)) (materials db)).

(** Every transaction names a material of its own tenant and moves a positive
    quantity. *)
Definition transactions_sound (db : DB) : Prop :=
  forall t, In t (transactions db) ->
            (0 < Transaction.quantity t)%Q
            /\ exists m, In m (materials db)
                         /\ Material.id m = Transaction.materialId t
                         /\ Material.tenantId m = Transaction.tenantId t.

(** [l] replays from the stock [acc]: every row records the stock that the
    rows before it add up to, and that stock is not negative. *)
Fixpoint replays (acc : Q) (l : list Transaction.t) : Prop :=
  match l with
  | [] => True
  | t :: rest =>
      (Transaction.preTransactionStock t == acc)%Q
      /\ (0 <= Transaction.preTransactionStock t)%Q
      /\ replays (acc + signed t)%Q rest
  end.

Definition audited (db : DB) : Prop :=
  forall i, replays 0%Q (history db i).

(** The stock of all materials of a tenant, soft-deleted ones included. *)
Definition stock_sum (tid : Id) (rows : list Material.t) : Q :=
  fold_right (fun m acc => Material.currentStock m + acc)%Q 0%Q
             (filter (fun m => Material.tenantId m =? tid) rows).

Definition total_stock (tenantId : Id) (db : DB) : Q :=
  stock_sum tenantId (materials db).

Definition tenant_ledger (tenantId : Id) (db : DB) : list Transaction.t :=
  filter (fun t => Transaction.tenantId t =? tenantId) (transactions db).

(** For every tenant the stock it holds is the net sum of its transactions. *)
Definition tenant_totals (db : DB) : Prop :=
  forall tenantId,
    (total_stock tenantId db == ledgerSum (tenant_ledger tenantId db))%Q.

Record ledger_sound (db : DB) : Prop := mkLedgerSound {
  sound_referential : referential db;
  sound_consistent : ledger_consistent db;
  sound_material_ids : unique_material_ids db;
  sound_material_names : unique_material_names db;
  sound_transaction_ids : NoDup (map Transaction.id (transactions db));
  sound_transactions : transactions_sound db;
  sound_audited : audited db;
  sound_totals : tenant_totals db
}.

Definition operation_tenant (op : Operation) : Id :=
  match op with
  | op_createMaterial ctx _ | op_createTransaction ctx _
  | op_softDeleteMaterial ctx _ => Tenant.id (tenant ctx)
  end.

Record catalogue_sound (db : DB) : Prop := mkCatalogueSound {
  tenant_ids_unique : NoDup (map Tenant.id (tenants db));
  user_ids_unique : NoDup (map User.id (users db));
  users_have_tenant :
    forall u, In u (users db) -> In (User.tenantId u) (map Tenant.id (tenants db));
  materials_have_tenant :
    forall m, In m (materials db) ->
              In (Material.tenantId m) (map Tenant.id (tenants db))
}.

(** A FREE tenant holds at most [MAX_FREE_MATERIALS] live materials. *)
Definition within_free_limit (db : DB) : Prop :=
  forall tenantId t,
    prisma.tenant_findUnique tenantId db = Some t -> Tenant.plan t = FREE ->
    prisma.material_count tenantId db <= MAX_FREE_MATERIALS.

(** The history replayed in the order of insertion from an empty stock, each
    step with the operation of the handler ([post_stock]). *)
Definition replay (l : list Transaction.t) : Q :=
  fold_left (fun stock t =>
               post_stock (Transaction.type t) stock (Transaction.quantity t))
            l 0%Q.

(** [l] records its own replay from the stock [stock]: the snapshot of every
    row is the stock that the rows before it lead to. *)
Fixpoint recorded (stock : Q) (l : list Transaction.t) : Prop :=
  match l with
  | [] => True
  | t :: rest =>
      Transaction.preTransactionStock t = stock
      /\ recorded (post_stock (Transaction.type t) stock (Transaction.quantity t)) rest
  end.


(** ** More sample data *)

Definition sample_env : Environment :=
  mkEnvironment ascii_collation (fun s => is_substring "@" s).

Definition globex : Tenant.t := Tenant.mk 2 "globex" PRO.
Definition carol : User.t := User.mk 3 2 "carol@globex.test" "carol" ADMIN.

(** Two tenants; acme holds steel (100 kg) and a soft-deleted material, globex
    holds copper after an IN of 8 and an OUT of 3. *)
Definition two_tenants : DB :=
  mkDB [acme; globex] [alice; bob; carol]
       [steel;
        Material.mk 2 1 "Scrap Iron" "kg" 0 (Some 7);
        Material.mk 3 2 "copper" "t" 5 None]
       [Transaction.mk 1 1 1 IN 100 0;
        Transaction.mk 2 2 3 IN 8 0;
        Transaction.mk 3 2 3 OUT 3 8].

Definition acme_admin_body : TenantBody :=
  mkTenantBody [("name", JString "acme")]
               (Some [("email", JString "alice@acme.test"); ("name", JString "alice")]).

(** A tenant is provisioned, its admin creates steel and receives 100 kg. *)
Definition api_sample : DB :=
  run_api sample_env
          [api_tenants acme_admin_body;
           api_materials POST_materials (request 1 0 (material_body "steel" "kg"));
           api_materials POST_materials_id_transactions
                         (request 1 1 (movement_body IN 100))]
          empty_store.

(** * The ledger in double precision

    The handlers of the ledger once more, with JavaScript numbers as what
    they are: IEEE 754 binary64 values ([float]), added, subtracted and
    compared with the rounding and the special values of the standard.  The
    column type of [currentStock], [quantity] and [preTransactionStock] is
    DOUBLE PRECISION, and [JSON.parse] yields a binary64 value for a number
    of a body.  Everything that is not a number is as above. *)

Module Binary64.

Module Material.
Record t := mk { id : Id; tenantId : Id; name : string; unit : string;
                 currentStock : float; deletedAt : option Timestamp }.

Definition live (m : t) : bool :=
  match deletedAt m with None => true | Some _ => false end.
End Material.

Module Transaction.
Record t := mk { id : Id; tenantId : Id; materialId : Id;
                 type : TransactionType; quantity : float;
                 preTransactionStock : float }.
End Transaction.

Record DB := mkDB {
  tenants : list Tenant.t;
  users : list User.t;
  materials : list Material.t;
  transactions : list Transaction.t
}.

Inductive Result (A : Type) :=
| Ok (a : A) (db' : DB)
| Throw (e : PrismaError).
Arguments Throw {A} e.

Definition Query (A : Type) := DB -> Result A.

Module prisma.

(** [where: { tenantId, deletedAt: null }] *)
Definition material_count (tenantId : Id) (db : DB) : nat :=
  List.length (filter (fun m => (Material.tenantId m =? tenantId) && Material.live m)
                      (materials db)).

(** [where: { id, tenantId, deletedAt: null }] *)
Definition material_findFirst (id tenantId : Id) (db : DB) : option Material.t :=
  find (fun m => (Material.id m =? id) && (Material.tenantId m =? tenantId)
                 && Material.live m)
       (materials db).

(** [prisma.material.create({ data: { tenantId, name, unit, currentStock } })] *)
Definition material_create (tenantId : Id) (name unit : string) (currentStock : float)
  : Query Material.t := fun db =>
  if negb (existsb (fun t => Tenant.id t =? tenantId) (tenants db)) then Throw P2003
  else if existsb (fun m => (Material.tenantId m =? tenantId)
                            && String.eqb (Material.name m) name) (materials db)
  then Throw P2002
  else
    let row := Material.mk (freshId (map Material.id (materials db)))
                           tenantId name unit currentStock None in
    Ok row (mkDB (tenants db) (users db) (materials db ++ [row]) (transactions db)).

(** The [data] argument of [prisma.material.update]. *)
Inductive MaterialData :=
| data_currentStock (newStock : float)
| data_deletedAt (date : Timestamp).

Definition assign (d : MaterialData) (m : Material.t) : Material.t :=
  match d with
  | data_currentStock newStock =>
      Material.mk (Material.id m) (Material.tenantId m) (Material.name m)
                  (Material.unit m) newStock (Material.deletedAt m)
  | data_deletedAt date =>
      Material.mk (Material.id m) (Material.tenantId m) (Material.name m)
                  (Material.unit m) (Material.currentStock m) (Some date)
  end.

Definition update_rows (id : Id) (d : MaterialData) (rows : list Material.t)
  : list Material.t :=
  map (fun x => if Material.id x =? id then assign d x else x) rows.

(** [prisma.material.update({ where: { id }, data })] *)
Definition material_update (id : Id) (d : MaterialData) : Query Material.t := fun db =>
  match find (fun m => Material.id m =? id) (materials db) with
  | None => Throw P2025
  | Some m =>
      Ok (assign d m)
         (mkDB (tenants db) (users db) (update_rows id d (materials db))
               (transactions db))
  end.

(** [prisma.transaction.create({ data: { tenantId, materialId, type,
    quantity, preTransactionStock } })] *)
Definition transaction_create (tenantId materialId : Id) (type : TransactionType)
           (quantity preTransactionStock : float) : Query Transaction.t := fun db =>
  if negb (existsb (fun t => Tenant.id t =? tenantId) (tenants db)) then Throw P2003
  else if negb (existsb (fun m => Material.id m =? materialId) (materials db))
  then Throw P2003
  else
    let row := Transaction.mk (freshId (map Transaction.id (transactions db)))
                              tenantId materialId type quantity preTransactionStock in
    Ok row (mkDB (tenants db) (users db) (materials db) (transactions db ++ [row])).

(** [prisma.$transaction([q1, q2])] *)
Definition transaction2 {A B : Type} (q1 : Query A) (q2 : Query B) : Query (A * B) :=
  fun db =>
    match q1 db with
    | Throw e => Throw e
    | Ok a db1 =>
        match q2 db1 with
        | Throw e => Throw e
        | Ok b db2 => Ok (a, b) db2
        end
    end.

Definition transactions_of (materialId : Id) (db : DB) : list Transaction.t :=
  filter (fun t => Transaction.materialId t =? materialId) (transactions db).

End prisma.

(** A value of a JSON body; a number is the binary64 value of its literal. *)
Inductive JsValue :=
| JUndefined
| JString (s : string)
| JNumber (x : float)
| JOther.

Definition Body := list (string * JsValue).

Definition field (key : string) (b : Body) : JsValue :=
  match find (fun kv => String.eqb (fst kv) key) b with
  | Some kv => snd kv
  | None => JUndefined
  end.

Record Request := mkRequest {
  header_tenant_id : option Id;
  header_user_id : option Id;
  params_id : Id;
  body : Body;
  now : Timestamp
}.

Inductive Message :=
| NoMessage
| ValidationDetails
| PlanLimitMessage (max : nat)
| ConflictMessage (name : string)
| NotFoundOrForeignMessage
| NotFoundOrDeletedMessage
| PlanRestrictedMessage
| InsufficientStockMessage (preTransactionStock : float) (unit : string)
                           (quantity : float).

Inductive Json :=
| ErrorJson (error : string) (message : Message)
| MaterialJson (material : Material.t)
| MovementJson (id : Id) (currentStock : float) (transaction : Transaction.t)
| SoftDeletedJson (name : string) (id : Id) (deletedAt : option Timestamp)
| SummaryJson (tenantId : Id) (materialCount : nat)
              (totalQuantityIn totalQuantityOut netStockMovement : float).

Record Response := mkResponse { status : nat; json : Json }.

Definition Controller := Context -> Request -> DB -> Response * DB.

(** [z.string().min(lo).max(hi)] *)
Definition z_string (lo hi : nat) (v : JsValue) : option string :=
  match v with
  | JString s => if (lo <=? js_length s) && (js_length s <=? hi)
                 then Some s else None
  | _ => None
  end.

(** [z.nativeEnum(TransactionType)] *)
Definition z_TransactionType (v : JsValue) : option TransactionType :=
  match v with
  | JString s => if String.eqb s "IN" then Some IN
                 else if String.eqb s "OUT" then Some OUT else None
  | _ => None
  end.

(** [z.number().positive()]: NaN is not a number for zod, and [0 < x] fails
    for NaN as well.  Infinity, which [JSON.parse] yields for a literal such
    as [1e999], passes here; a zod version that refuses it serves fewer
    requests than the model does. *)
Definition z_number_positive (v : JsValue) : option float :=
  match v with
  | JNumber x => if (0 <? x)%float then Some x else None
  | _ => None
  end.

Definition createMaterialSchema (b : Body) : option (string * string) :=
  match z_string 1 100 (field "name" b), z_string 1 20 (field "unit" b) with
  | Some name, Some unit => Some (name, unit)
  | _, _ => None
  end.

Definition createTransactionSchema (b : Body) : option (TransactionType * float) :=
  match z_TransactionType (field "type" b), z_number_positive (field "quantity" b) with
  | Some type, Some quantity => Some (type, quantity)
  | _, _ => None
  end.

Definition createMaterial : Controller := fun ctx req db =>
  let tenantId := Tenant.id (tenant ctx) in
  let tenantPlan := Tenant.plan (tenant ctx) in
  match createMaterialSchema (body req) with
  | None => (mkResponse 400 (ErrorJson "Validation Error" ValidationDetails), db)
  | Some (name, unit) =>
      if TenantPlan_eqb tenantPlan FREE
         && (MAX_FREE_MATERIALS <=? prisma.material_count tenantId db)
      then (mkResponse 403 (ErrorJson "Plan Limit Exceeded"
                                      (PlanLimitMessage MAX_FREE_MATERIALS)), db)
      else
        match prisma.material_create tenantId name unit 0%float db with
        | Ok newMaterial db' => (mkResponse 201 (MaterialJson newMaterial), db')
        | Throw P2002 => (mkResponse 409 (ErrorJson "Conflict" (ConflictMessage name)), db)
        | Throw _ => (mkResponse 500 (ErrorJson "Internal Server Error" NoMessage), db)
        end
  end.

Record Movement := mkMovement {
  mv_tenantId : Id;
  mv_materialId : Id;
  mv_type : TransactionType;
  mv_quantity : float;
  mv_preTransactionStock : float;
  mv_newStock : float
}.

(** Lines 148-182, with [+], [-] and [<] of binary64. *)
Definition createTransaction_read (ctx : Context) (req : Request) (db : DB)
  : Response + Movement :=
  let tenantId := Tenant.id (tenant ctx) in
  let materialId := params_id req in
  match createTransactionSchema (body req) with
  | None => inl (mkResponse 400 (ErrorJson "Validation Error" ValidationDetails))
  | Some (type, quantity) =>
      match prisma.material_findFirst materialId tenantId db with
      | None => inl (mkResponse 404 (ErrorJson "Not Found" NotFoundOrForeignMessage))
      | Some material =>
          let preTransactionStock := Material.currentStock material in
          match type with
          | IN =>
              inr (mkMovement tenantId materialId type quantity preTransactionStock
                              (preTransactionStock + quantity)%float)
          | OUT =>
              if (preTransactionStock <? quantity)%float
              then inl (mkResponse 400
                          (ErrorJson "Insufficient Stock"
                             (InsufficientStockMessage preTransactionStock
                                                       (Material.unit material)
                                                       quantity)))
              else inr (mkMovement tenantId materialId type quantity preTransactionStock
                                   (preTransactionStock - quantity)%float)
          end
      end
  end.

(** Lines 184-210. *)
Definition createTransaction_write (mv : Movement) (db : DB) : Response * DB :=
  match prisma.transaction2
          (prisma.material_update (mv_materialId mv)
                                  (prisma.data_currentStock (mv_newStock mv)))
          (prisma.transaction_create (mv_tenantId mv) (mv_materialId mv) (mv_type mv)
                                     (mv_quantity mv) (mv_preTransactionStock mv))
          db with
  | Ok (updatedMaterial, newTransaction) db' =>
      (mkResponse 201 (MovementJson (Material.id updatedMaterial)
                                    (Material.currentStock updatedMaterial)
                                    newTransaction), db')
  | Throw _ => (mkResponse 500 (ErrorJson "Internal Server Error" NoMessage), db)
  end.

Definition createTransaction : Controller := fun ctx req db =>
  match createTransaction_read ctx req db with
  | inl response => (response, db)
  | inr mv => createTransaction_write mv db
  end.

Definition softDeleteMaterial : Controller := fun ctx req db =>
  let tenantId := Tenant.id (tenant ctx) in
  let materialId := params_id req in
  match prisma.material_findFirst materialId tenantId db with
  | None => (mkResponse 404 (ErrorJson "Not Found" NotFoundOrDeletedMessage), db)
  | Some material =>
      match prisma.material_update materialId (prisma.data_deletedAt (now req)) db with
      | Ok softDeletedMaterial db' =>
          (mkResponse 200 (SoftDeletedJson (Material.name softDeletedMaterial)
                                           (Material.id softDeletedMaterial)
                                           (Material.deletedAt softDeletedMaterial)), db')
      | Throw _ => (mkResponse 500 (ErrorJson "Internal Server Error" NoMessage), db)
      end
  end.

(** ** Analytics summary (analytics.controller.js) *)

(** [prisma.transaction.aggregate({ _sum: { quantity: true },
    where: { tenantId, type } })].  The store computes SUM over a DOUBLE
    PRECISION column in binary64; the order in which it adds the rows, and so
    the rounding of the result, is the executor's, hence [float8_sum] is a
    parameter.  The sum of no row is [null]. *)
Definition transaction_aggregate_sum (float8_sum : list float -> float)
           (tenantId : Id) (type : TransactionType) (db : DB) : option float :=
  match filter (fun t => (Transaction.tenantId t =? tenantId)
                         && TransactionType_eqb (Transaction.type t) type)
               (transactions db) with
  | [] => None
  | rows => Some (float8_sum (map Transaction.quantity rows))
  end.

(** [sum || 0]: [null], both zeros and NaN are falsy. *)
Definition or_zero (sum : option float) : float :=
  match sum with
  | None => 0%float
  | Some x => if (x =? 0)%float || is_nan x then 0%float else x
  end.

Definition getAnalyticsSummary (float8_sum : list float -> float) : Controller :=
  fun ctx req db =>
  let tenantId := Tenant.id (tenant ctx) in
  let tenantPlan := Tenant.plan (tenant ctx) in
  if negb (TenantPlan_eqb tenantPlan PRO)
  then (mkResponse 403 (ErrorJson "Plan Restricted" PlanRestrictedMessage), db)
  else
    let materialCount := prisma.material_count tenantId db in
    let totalQuantityIn :=
      or_zero (transaction_aggregate_sum float8_sum tenantId IN db) in
    let totalQuantityOut :=
      or_zero (transaction_aggregate_sum float8_sum tenantId OUT db) in
    (mkResponse 200 (SummaryJson tenantId materialCount
                                 totalQuantityIn totalQuantityOut
                                 (totalQuantityIn - totalQuantityOut)%float),
     db).


(** ** Sequences of operations *)

Inductive Operation :=
| op_createMaterial (ctx : Context) (req : Request)
| op_createTransaction (ctx : Context) (req : Request)
| op_softDeleteMaterial (ctx : Context) (req : Request).

Definition perform (op : Operation) (db : DB) : Response * DB :=
  match op with
  | op_createMaterial ctx req => createMaterial ctx req db
  | op_createTransaction ctx req => createTransaction ctx req db
  | op_softDeleteMaterial ctx req => softDeleteMaterial ctx req db
  end.

Definition run_operations (ops : list Operation) (db : DB) : DB :=
  fold_left (fun db op => snd (perform op db)) ops db.

Inductive reachable : DB -> Prop :=
| reachable_empty (ts : list Tenant.t) (us : list User.t) :
    reachable (mkDB ts us [] [])
| reachable_perform (db : DB) (op : Operation) :
    reachable db -> reachable (snd (perform op db)).

(** ** The ledger of a material *)

Definition history (db : DB) (materialId : Id) : list Transaction.t :=
  prisma.transactions_of materialId db.

(** The stock after a movement, as [createTransaction] computes it. *)
Definition post_stock (type : TransactionType) (pre quantity : float) : float :=
  match type with
  | IN => (pre + quantity)%float
  | OUT => (pre - quantity)%float
  end.

(** The history replayed in the order of insertion from an empty stock, each
    step with one rounded addition or subtraction. *)
Definition replay (l : list Transaction.t) : float :=
  fold_left (fun stock t =>
               post_stock (Transaction.type t) stock (Transaction.quantity t))
            l 0%float.

(** [l] records its own replay from the stock [stock]. *)
Fixpoint recorded (stock : float) (l : list Transaction.t) : Prop :=
  match l with
  | [] => True
  | t :: rest =>
      Transaction.preTransactionStock t = stock
      /\ recorded (post_stock (Transaction.type t) stock (Transaction.quantity t)) rest
  end.

(** [x < 0] is false: [x] is a zero, a positive number, positive infinity or
    NaN. *)
Definition not_negative (x : float) : Prop := (x <? 0)%float = false.

(** The same on the specification of binary64 ([SpecFloat]). *)
Definition sf_not_negative (x : spec_float) : Prop :=
  SFltb x (S754_zero false) = false.

Definition sf_positive (x : spec_float) : Prop :=
  SFltb (S754_zero false) x = true.

(** The real number that a finite binary64 value stands for. *)
Definition value (x : float) : option Q :=
  match Prim2SF x with
  | S754_zero _ => Some 0%Q
  | S754_finite s m e =>
      Some ((if s then - inject_Z (Zpos m) else inject_Z (Zpos m)) * Qpower 2 e)%Q
  | _ => None
  end.

(** No step of the replay of [l] from [stock] rounds: the value of each result
    is the exact sum or difference of the values of its operands. *)
Fixpoint exact_replay (stock : float) (l : list Transaction.t) : Prop :=
  match l with
  | [] => True
  | t :: rest =>
      let next := post_stock (Transaction.type t) stock (Transaction.quantity t) in
      match value stock, value (Transaction.quantity t), value next with
      | Some s, Some q, Some n =>
          match Transaction.type t with
          | IN => (n == s + q)%Q
          | OUT => (n == s - q)%Q
          end
      | _, _, _ => False
      end
      /\ exact_replay next rest
  end.

Definition signed_value (t : Transaction.t) : Q :=
  match value (Transaction.quantity t) with
  | Some q => match Transaction.type t with IN => q | OUT => - q end
  | None => 0
  end.

(** The net sum of the signed quantities of a history, as a real number. *)
Definition net_sum (l : list Transaction.t) : Q :=
  fold_right (fun t acc => signed_value t + acc)%Q 0%Q l.

(** Invariants I1 and I2 as section 3 states them: in a store that a sequence
    of operations produces the stock of every material is the net sum of its
    history, and is not negative. *)
Definition ledger_claim (db : DB) : Prop :=
  reachable db ->
  forall m, In m (materials db) ->
            match value (Material.currentStock m) with
            | Some stock => (stock == net_sum (history db (Material.id m)))%Q
            | None => False
            end
            /\ not_negative (Material.currentStock m).

Definition referential (db : DB) : Prop :=
  forall t, In t (transactions db) ->
            In (Transaction.materialId t) (map Material.id (materials db)).

(** What holds of the ledger in every reachable store. *)
Record ledger_sound (db : DB) : Prop := mkLedgerSound {
  sound_referential : referential db;
  sound_replay :
    forall m, In m (materials db) ->
              Material.currentStock m = replay (history db (Material.id m));
  sound_stock : forall m, In m (materials db) -> not_negative (Material.currentStock m);
  sound_recorded : forall i, recorded 0%float (history db i);
  sound_snapshots :
    forall t, In t (transactions db) -> not_negative (Transaction.preTransactionStock t)
}.

(** What a handler of the ledger does to the store. *)
Inductive Effect (db : DB) : DB -> Prop :=
| effect_none : Effect db db
| effect_created (row : Material.t) :
    Material.id row = freshId (map Material.id (materials db)) ->
    Material.currentStock row = 0%float ->
    Effect db (mkDB (tenants db) (users db) (materials db ++ [row]) (transactions db))
| effect_moved (m : Material.t) (row : Transaction.t) :
    In m (materials db) ->
    Transaction.materialId row = Material.id m ->
    Transaction.preTransactionStock row = Material.currentStock m ->
    (0 <? Transaction.quantity row)%float = true ->
    (Transaction.type row = OUT ->
     (Material.currentStock m <? Transaction.quantity row)%float = false) ->
    Effect db (mkDB (tenants db) (users db)
                    (prisma.update_rows
                       (Material.id m)
                       (prisma.data_currentStock
                          (post_stock (Transaction.type row) (Material.currentStock m)
                                      (Transaction.quantity row)))
                       (materials db))
                    (transactions db ++ [row]))
| effect_deleted (id : Id) (date : Timestamp) :
    Effect db (mkDB (tenants db) (users db)
                    (prisma.update_rows id (prisma.data_deletedAt date) (materials db))
                    (transactions db)).

(** ** Sample data *)

Definition movement_body (type : TransactionType) (quantity : float) : Body :=
  [("type", JString (TransactionType_name type)); ("quantity", JNumber quantity)].

Definition material_body (name unit : string) : Body :=
  [("name", JString name); ("unit", JString unit)].

Definition request (userId id : Id) (b : Body) : Request :=
  mkRequest (Some 1) (Some userId) id b 42.

(** 2^53, the first integer whose successor is not a binary64 value. *)
Definition two_53 : float := 9007199254740992%float.

(** Steel is created, 2^53 kg are received, then 1 kg more. *)
Definition rounding_run : list Operation :=
  [op_createMaterial as_alice (request 1 0 (material_body "steel" "kg"));
   op_createTransaction as_bob (request 2 1 (movement_body IN two_53));
   op_createTransaction as_bob (request 2 1 (movement_body IN 1%float))].

Definition after_rounding : DB :=
  run_operations rounding_run (mkDB [acme] [alice; bob] [] []).

(** Steel is created, 100 kg are received and 30 kg are issued. *)
Definition plain_run : list Operation :=
  [op_createMaterial as_alice (request 1 0 (material_body "steel" "kg"));
   op_createTransaction as_bob (request 2 1 (movement_body IN 100%float));
   op_createTransaction as_bob (request 2 1 (movement_body OUT 30%float))].

Definition after_plain : DB :=
  run_operations plain_run (mkDB [acme] [alice; bob] [] []).

(** Globex, a PRO tenant, creates copper, receives 2^53 t, issues them and
    receives 1 t. *)
Definition as_carol : Context := mkContext globex carol.



End Binary64.

(** * Properties *)

(** ** Arithmetic and list facts *)

Lemma Qltb_true (x y : Q) : Qltb x y = true <-> (x < y)%Q.
Proof.
  unfold Qltb. rewrite negb_true_iff. split; intro H.
  - apply Qnot_le_lt. intro Hle. apply Qle_bool_iff in Hle. congruence.
  - destruct (Qle_bool y x) eqn:E; [|reflexivity].
    apply Qle_bool_iff in E. exfalso. apply (Qlt_not_le _ _ H E).
Qed.

Lemma Qltb_false (x y : Q) : Qltb x y = false <-> (y <= x)%Q.
Proof.
  unfold Qltb. rewrite negb_false_iff. apply Qle_bool_iff.
Qed.

Lemma list_max_bound (l : list nat) (x : nat) : In x l -> x <= list_max l.
Proof.
  induction l as [|y l IH]; simpl; [tauto|].
  intros [->|Hin]; [|specialize (IH Hin)]; lia.
Qed.

Lemma freshId_not_in (used : list Id) : ~ In (freshId used) used.
Proof.
  intro Hin. apply list_max_bound in Hin. unfold freshId in Hin. lia.
Qed.

Lemma ledgerSum_app (l1 l2 : list Transaction.t) :
  (ledgerSum (l1 ++ l2) == ledgerSum l1 + ledgerSum l2)%Q.
Proof.
  induction l1 as [|t l1 IH]; simpl.
  - ring.
  - rewrite IH. ring.
Qed.

Lemma existsb_id_In (i : Id) (ms : list Material.t) :
  existsb (fun m => Material.id m =? i) ms = true <-> In i (map Material.id ms).
Proof.
  rewrite existsb_exists, in_map_iff. split.
  - intros [m [Hin Heq]]. apply Nat.eqb_eq in Heq. eauto.
  - intros [m [Heq Hin]]. exists m. split; [assumption|]. now apply Nat.eqb_eq.
Qed.

(** ** The store calls *)

Lemma material_findFirst_Some (i tid : Id) (db : DB) (m : Material.t) :
  prisma.material_findFirst i tid db = Some m ->
  In m (materials db) /\ Material.id m = i /\ Material.tenantId m = tid
  /\ Material.deletedAt m = None.
Proof.
  unfold prisma.material_findFirst. intro H. apply find_some in H.
  destruct H as [Hin Hb]. rewrite !andb_true_iff in Hb.
  destruct Hb as [[Hi Ht] Hl]. apply Nat.eqb_eq in Hi, Ht.
  unfold Material.live in Hl. destruct (Material.deletedAt m); [discriminate|].
  auto.
Qed.

Lemma material_findFirst_None (i tid : Id) (db : DB) :
  prisma.material_findFirst i tid db = None <->
  (forall m, In m (materials db) -> Material.id m = i ->
             Material.tenantId m <> tid \/ Material.deletedAt m <> None).
Proof.
  unfold prisma.material_findFirst. split.
  - intros H m Hin Hid. pose proof (find_none _ _ H m Hin) as Hb. simpl in Hb.
    rewrite Hid, Nat.eqb_refl in Hb. simpl in Hb.
    destruct (Material.tenantId m =? tid) eqn:Et.
    + right. unfold Material.live in Hb. simpl in Hb.
      destruct (Material.deletedAt m); [discriminate|discriminate].
    + left. now apply Nat.eqb_neq.
  - intro H. destruct (find _ _) as [m|] eqn:E; [|reflexivity].
    apply find_some in E. destruct E as [Hin Hb]. rewrite !andb_true_iff in Hb.
    destruct Hb as [[Hi Ht] Hl]. apply Nat.eqb_eq in Hi, Ht.
    destruct (H m Hin Hi) as [Hne|Hne]; [contradiction|].
    unfold Material.live in Hl. destruct (Material.deletedAt m); [discriminate|].
    now elim Hne.
Qed.

Lemma assign_id (d : prisma.MaterialData) (m : Material.t) :
  Material.id (prisma.assign d m) = Material.id m.
Proof. destruct d; reflexivity. Qed.

Lemma createTransactionSchema_positive (b : Body) (ty : TransactionType) (q : Q) :
  createTransactionSchema b = Some (ty, q) -> (0 < q)%Q.
Proof.
  unfold createTransactionSchema, z_number_positive.
  destruct (z_TransactionType _); [|discriminate].
  destruct (field "quantity" b); try discriminate.
  destruct (Qltb 0 q0) eqn:E; [|discriminate].
  intro H. injection H as _ <-. now apply Qltb_true.
Qed.

Lemma update_rows_ids (i : Id) (d : prisma.MaterialData) (rows : list Material.t) :
  map Material.id (prisma.update_rows i d rows) = map Material.id rows.
Proof.
  unfold prisma.update_rows. rewrite map_map. apply map_ext. intro m.
  destruct (Material.id m =? i); [apply assign_id|reflexivity].
Qed.

Lemma update_rows_In (i : Id) (d : prisma.MaterialData) (rows : list Material.t)
      (m' : Material.t) :
  In m' (prisma.update_rows i d rows) ->
  exists m, In m rows /\
            ((Material.id m = i /\ m' = prisma.assign d m)
             \/ (Material.id m <> i /\ m' = m)).
Proof.
  unfold prisma.update_rows. rewrite in_map_iff. intros [m [Heq Hin]].
  exists m. split; [assumption|].
  destruct (Material.id m =? i) eqn:E.
  - left. apply Nat.eqb_eq in E. auto.
  - right. apply Nat.eqb_neq in E. auto.
Qed.

(** ** The movement handler, step by step *)

Lemma createTransaction_read_inr (ctx : Context) (req : Request) (db : DB)
      (mv : Movement) :
  createTransaction_read ctx req db = inr mv ->
  exists type quantity material,
    createTransactionSchema (body req) = Some (type, quantity)
    /\ prisma.material_findFirst (params_id req) (Tenant.id (tenant ctx)) db
       = Some material
    /\ (type = OUT -> quantity <= Material.currentStock material)%Q
    /\ mv = mkMovement (Tenant.id (tenant ctx)) (params_id req) type quantity
                       (Material.currentStock material)
                       (post_stock type (Material.currentStock material) quantity).
Proof.
  unfold createTransaction_read.
  destruct (createTransactionSchema (body req)) as [[type quantity]|]; [|discriminate].
  destruct (prisma.material_findFirst _ _ db) as [material|]; [|discriminate].
  destruct type.
  - intro H. injection H as <-. exists IN, quantity, material.
    repeat split; try reflexivity. discriminate.
  - destruct (Qltb _ _) eqn:E; [discriminate|].
    intro H. injection H as <-. exists OUT, quantity, material.
    repeat split; try reflexivity. intros _. now apply Qltb_false.
Qed.

Lemma createTransaction_write_commit (mv : Movement) (db : DB) :
  existsb (fun t => Tenant.id t =? mv_tenantId mv) (tenants db) = true ->
  In (mv_materialId mv) (map Material.id (materials db)) ->
  createTransaction_write mv db
  = (mkResponse 201 (MovementJson (mv_materialId mv) (mv_newStock mv)
                                  (movement_row mv db)),
     movement_store mv db).
Proof.
  intros Ht Hm.
  unfold createTransaction_write, prisma.transaction2, prisma.material_update.
  destruct (find _ (materials db)) as [m|] eqn:Ef.
  - apply find_some in Ef. destruct Ef as [_ Hid]. apply Nat.eqb_eq in Hid.
    unfold prisma.transaction_create. simpl.
    rewrite Ht. simpl.
    assert (He : existsb (fun m0 => Material.id m0 =? mv_materialId mv)
                   (prisma.update_rows (mv_materialId mv)
                      (prisma.data_currentStock (mv_newStock mv)) (materials db))
                 = true).
    { apply existsb_id_In. now rewrite update_rows_ids. }
    rewrite He. simpl. rewrite Hid. reflexivity.
  - exfalso. apply existsb_id_In in Hm. apply existsb_exists in Hm.
    destruct Hm as [m [Hin Hb]]. pose proof (find_none _ _ Ef m Hin) as Hn.
    simpl in Hn. congruence.
Qed.

Lemma createTransaction_write_cases (mv : Movement) (db : DB) :
  snd (createTransaction_write mv db) = db
  \/ snd (createTransaction_write mv db) = movement_store mv db.
Proof.
  unfold createTransaction_write, prisma.transaction2, prisma.material_update.
  destruct (find _ (materials db)) as [m|]; [|now left].
  unfold prisma.transaction_create. simpl.
  destruct (negb (existsb _ (tenants db))); [now left|].
  destruct (negb (existsb _ _)); [now left|].
  right. reflexivity.
Qed.

Lemma createTransaction_cases (ctx : Context) (req : Request) (db : DB) :
  snd (createTransaction ctx req db) = db
  \/ exists mv, createTransaction_read ctx req db = inr mv
                /\ snd (createTransaction ctx req db) = movement_store mv db.
Proof.
  unfold createTransaction.
  destruct (createTransaction_read ctx req db) as [r|mv] eqn:E; [now left|].
  destruct (createTransaction_write_cases mv db) as [H|H]; [now left|].
  right. exists mv. auto.
Qed.

Lemma createMaterial_cases (ctx : Context) (req : Request) (db : DB) :
  snd (createMaterial ctx req db) = db
  \/ exists name unit,
       let row := Material.mk (freshId (map Material.id (materials db)))
                              (Tenant.id (tenant ctx)) name unit 0 None in
       createMaterial ctx req db
       = (mkResponse 201 (MaterialJson row),
          mkDB (tenants db) (users db) (materials db ++ [row]) (transactions db)).
Proof.
  unfold createMaterial.
  destruct (createMaterialSchema (body req)) as [[name unit]|]; [|now left].
  destruct (_ && _); [now left|].
  unfold prisma.material_create.
  destruct (negb _); [now left|].
  destruct (existsb _ (materials db)); [now left|].
  right. exists name, unit. reflexivity.
Qed.

Lemma softDeleteMaterial_cases (ctx : Context) (req : Request) (db : DB) :
  snd (softDeleteMaterial ctx req db) = db
  \/ snd (softDeleteMaterial ctx req db) = deleted_store (params_id req) (now req) db.
Proof.
  unfold softDeleteMaterial.
  destruct (prisma.material_findFirst _ _ db); [|now left].
  unfold prisma.material_update.
  destruct (find _ (materials db)); [|now left].
  right. reflexivity.
Qed.

(** ** Preservation of the ledger invariants *)

Lemma history_movement_store (mv : Movement) (db : DB) (i : Id) :
  history (movement_store mv db) i
  = history db i ++ (if mv_materialId mv =? i then [movement_row mv db] else []).
Proof.
  unfold history, prisma.transactions_of. simpl.
  rewrite filter_app. simpl. reflexivity.
Qed.

Lemma referential_createMaterial (ctx : Context) (req : Request) (db : DB) :
  referential db -> referential (snd (createMaterial ctx req db)).
Proof.
  intro Href. destruct (createMaterial_cases ctx req db) as [->|[name [unit H]]];
    [assumption|].
  simpl in H. rewrite H. simpl. intros t Hin. simpl in *.
  rewrite map_app. apply in_or_app. left. now apply Href.
Qed.

Lemma referential_createTransaction (ctx : Context) (req : Request) (db : DB) :
  referential db -> referential (snd (createTransaction ctx req db)).
Proof.
  intro Href. destruct (createTransaction_cases ctx req db) as [->|[mv [Hr ->]]];
    [assumption|].
  apply createTransaction_read_inr in Hr.
  destruct Hr as [type [quantity [material [_ [Hf [_ ->]]]]]].
  apply material_findFirst_Some in Hf. destruct Hf as [Hin [Hid _]].
  intros t Ht. simpl in *. rewrite update_rows_ids.
  apply in_app_or in Ht. destruct Ht as [Ht|[<-|[]]].
  - now apply Href.
  - simpl. rewrite <- Hid. now apply in_map.
Qed.

Lemma referential_softDeleteMaterial (ctx : Context) (req : Request) (db : DB) :
  referential db -> referential (snd (softDeleteMaterial ctx req db)).
Proof.
  intro Href. destruct (softDeleteMaterial_cases ctx req db) as [->| ->];
    [assumption|].
  intros t Ht. simpl in *. rewrite update_rows_ids. now apply Href.
Qed.

Lemma reachable_referential (db : DB) : reachable db -> referential db.
Proof.
  induction 1 as [ts us|db op _ IH].
  - intros t [].
  - destruct op; simpl.
    + now apply referential_createMaterial.
    + now apply referential_createTransaction.
    + now apply referential_softDeleteMaterial.
Qed.

Lemma fresh_material_history (db : DB) :
  referential db ->
  history db (freshId (map Material.id (materials db))) = [].
Proof.
  unfold referential, history, prisma.transactions_of.
  generalize (map Material.id (materials db)) as ids.
  induction (transactions db) as [|t l IH]; intros ids Href; [reflexivity|].
  simpl. destruct (Transaction.materialId t =? _) eqn:E.
  - exfalso. apply Nat.eqb_eq in E. apply (freshId_not_in ids).
    rewrite <- E. apply Href. now left.
  - apply IH. intros t' Hin. apply Href. now right.
Qed.

Lemma consistent_createMaterial (ctx : Context) (req : Request) (db : DB) :
  referential db -> ledger_consistent db ->
  ledger_consistent (snd (createMaterial ctx req db)).
Proof.
  intros Href Hc. destruct (createMaterial_cases ctx req db) as [->|[name [unit H]]];
    [assumption|].
  simpl in H. rewrite H. intros m Hin. simpl in Hin.
  apply in_app_or in Hin. destruct Hin as [Hin|[<-|[]]].
  - apply (Hc m Hin).
  - simpl. unfold history, prisma.transactions_of. simpl.
    pose proof (fresh_material_history Href) as Hh.
    unfold history, prisma.transactions_of in Hh. rewrite Hh. simpl.
    split; [reflexivity|apply Qle_refl].
Qed.

Lemma consistent_createTransaction (ctx : Context) (req : Request) (db : DB) :
  ledger_consistent db -> ledger_consistent (snd (createTransaction ctx req db)).
Proof.
  intro Hc. destruct (createTransaction_cases ctx req db) as [->|[mv [Hr ->]]];
    [assumption|].
  apply createTransaction_read_inr in Hr.
  destruct Hr as [type [quantity [material [Hs [Hf [Hout ->]]]]]].
  apply createTransactionSchema_positive in Hs.
  apply material_findFirst_Some in Hf. destruct Hf as [Hin [Hid _]].
  destruct (Hc material Hin) as [Hsum Hpos]. rewrite Hid in Hsum.
  intros m' Hin'. simpl in Hin'. apply update_rows_In in Hin'.
  destruct Hin' as [m [Hm [[Hi ->]|[Hi ->]]]].
  - rewrite history_movement_store. simpl. rewrite Hi, Nat.eqb_refl.
    rewrite ledgerSum_app, <- Hsum.
    destruct type; unfold movement_row; simpl; unfold signed; simpl.
    + split; [ring|]. lra.
    + specialize (Hout eq_refl). split; [ring|]. lra.
  - rewrite history_movement_store. simpl.
    assert (E : (params_id req =? Material.id m) = false).
    { apply Nat.eqb_neq. congruence. }
    rewrite E, app_nil_r. apply (Hc m Hm).
Qed.

Lemma consistent_softDeleteMaterial (ctx : Context) (req : Request) (db : DB) :
  ledger_consistent db -> ledger_consistent (snd (softDeleteMaterial ctx req db)).
Proof.
  intro Hc. destruct (softDeleteMaterial_cases ctx req db) as [->| ->];
    [assumption|].
  intros m' Hin'. simpl in Hin'. apply update_rows_In in Hin'.
  destruct Hin' as [m [Hm [[Hi ->]|[Hi ->]]]]; apply (Hc m Hm).
Qed.

Lemma reachable_consistent (db : DB) : reachable db -> ledger_consistent db.
Proof.
  induction 1 as [ts us|db op Hr IH].
  - intros m [].
  - destruct op; simpl.
    + apply consistent_createMaterial; [now apply reachable_referential|assumption].
    + now apply consistent_createTransaction.
    + now apply consistent_softDeleteMaterial.
Qed.

(** ** The HTTP surface stays within the reachable stores *)

Lemma handle_reachable (e : Endpoint) (req : Request) (db : DB) :
  reachable db -> reachable (snd (handle e req db)).
Proof.
  intro Hr. unfold handle.
  destruct (tenantAuthMiddleware req db) as [r|ctx]; [assumption|].
  destruct e; simpl.
  - destruct (roleCheckMiddleware ADMIN ctx); [assumption|].
    apply (reachable_perform (op_createMaterial ctx req) Hr).
  - unfold getMaterialById. destruct (prisma.material_findFirst _ _ db); assumption.
  - destruct (roleCheckMiddleware ADMIN ctx); [assumption|].
    apply (reachable_perform (op_softDeleteMaterial ctx req) Hr).
  - apply (reachable_perform (op_createTransaction ctx req) Hr).
Qed.

Lemma run_operations_reachable (ops : list Operation) (db : DB) :
  reachable db -> reachable (run_operations ops db).
Proof.
  revert db. induction ops as [|op ops IH]; intros db Hr; simpl; [assumption|].
  apply IH. now apply reachable_perform.
Qed.

(** ** Identity resolution *)

Lemma tenantAuthMiddleware_inr (req : Request) (db : DB) (ctx : Context) :
  tenantAuthMiddleware req db = inr ctx ->
  existsb (fun t => Tenant.id t =? Tenant.id (tenant ctx)) (tenants db) = true.
Proof.
  unfold tenantAuthMiddleware.
  destruct (header_tenant_id req) as [tenantId|]; [|discriminate].
  destruct (header_user_id req) as [userId|]; [|discriminate].
  destruct (prisma.tenant_findUnique tenantId db) as [t|] eqn:Et; [|discriminate].
  destruct (prisma.user_findFirst userId tenantId db) as [u|]; [|discriminate].
  intro H. injection H as <-. simpl.
  apply find_some in Et. destruct Et as [Hin _].
  apply existsb_exists. exists t. split; [assumption|apply Nat.eqb_refl].
Qed.

Lemma movement_request_valid (req : Request) (type : TransactionType) (quantity : Q) :
  movement_request req type quantity -> (0 < quantity)%Q ->
  createTransactionSchema (body req) = Some (type, quantity).
Proof.
  intros [Ht Hq] Hpos. unfold createTransactionSchema. rewrite Ht, Hq. simpl.
  apply Qltb_true in Hpos. rewrite Hpos. destruct type; reflexivity.
Qed.

Lemma find_map_stable {A : Type} (f : A -> A) (p : A -> bool) (l : list A) :
  (forall x, p (f x) = p x) ->
  find p (map f l) = option_map f (find p l).
Proof.
  intro Hp. induction l as [|a l IH]; simpl; [reflexivity|].
  rewrite Hp. destruct (p a); [reflexivity|assumption].
Qed.

Lemma material_findFirst_update_stock (i tid : Id) (newStock : Q) (db : DB)
      (m : Material.t) (txs : list Transaction.t) :
  prisma.material_findFirst i tid db = Some m ->
  prisma.material_findFirst i tid
    (mkDB (tenants db) (users db)
          (prisma.update_rows i (prisma.data_currentStock newStock) (materials db)) txs)
  = Some (prisma.assign (prisma.data_currentStock newStock) m).
Proof.
  intro Hf. pose proof (material_findFirst_Some _ _ _ Hf) as [_ [Hid _]].
  unfold prisma.material_findFirst in *. simpl.
  unfold prisma.update_rows. rewrite find_map_stable.
  - rewrite Hf. simpl. rewrite Hid, Nat.eqb_refl. reflexivity.
  - intro x. cbv beta. destruct (Material.id x =? i) eqn:E.
    + unfold Material.live. simpl. rewrite E. reflexivity.
    + rewrite E. reflexivity.
Qed.

(** A movement that passes every check of [createTransaction]. *)
Lemma createTransaction_success (ctx : Context) (req : Request) (db : DB)
      (type : TransactionType) (quantity : Q) (material : Material.t) :
  tenantAuthMiddleware req db = inr ctx ->
  movement_request req type quantity ->
  (0 < quantity)%Q ->
  prisma.material_findFirst (params_id req) (Tenant.id (tenant ctx)) db = Some material ->
  (type = OUT -> quantity <= Material.currentStock material)%Q ->
  let pre := Material.currentStock material in
  let mv := mkMovement (Tenant.id (tenant ctx)) (params_id req) type quantity pre
                       (post_stock type pre quantity) in
  createTransaction ctx req db
  = (mkResponse 201 (MovementJson (params_id req) (post_stock type pre quantity)
                                  (movement_row mv db)),
     movement_store mv db).
Proof.
  intros Hauth Hreq Hpos Hf Hout pre mv.
  pose proof (movement_request_valid Hreq Hpos) as Hs.
  pose proof (material_findFirst_Some _ _ _ Hf) as [Hin [Hid _]].
  assert (Hread : createTransaction_read ctx req db = inr mv).
  { unfold createTransaction_read. rewrite Hs, Hf. destruct type; [reflexivity|].
    specialize (Hout eq_refl). apply Qltb_false in Hout. rewrite Hout. reflexivity. }
  unfold createTransaction. rewrite Hread.
  apply (createTransaction_write_commit mv db).
  - simpl. now apply (tenantAuthMiddleware_inr req).
  - simpl. rewrite <- Hid. now apply in_map.
Qed.

(** * The claims

    The ledger invariants I1 and I2 depend on how sums round; they are stated
    for binary64 stocks in [Ledger64], at the end of the file. *)

(** C2.  A movement on an existing, live material of the requesting tenant,
    with a positive quantity and, for OUT, enough stock, sets the stock to
    [pre + quantity] (IN) or [pre - quantity] (OUT), inserts exactly one
    transaction row [{type, quantity, preTransactionStock: pre}] in the same
    commit, and answers with the material's id and new stock and with the
    created transaction. *)
Theorem createTransaction_applies_movement
        (ctx : Context) (req : Request) (db : DB)
        (type : TransactionType) (quantity : Q) (material : Material.t) :
  tenantAuthMiddleware req db = inr ctx ->
  movement_request req type quantity ->
  (0 < quantity)%Q ->
  prisma.material_findFirst (params_id req) (Tenant.id (tenant ctx)) db = Some material ->
  (type = OUT -> quantity <= Material.currentStock material)%Q ->
  let pre := Material.currentStock material in
  let post := match type with IN => (pre + quantity)%Q | OUT => (pre - quantity)%Q end in
  let tx := Transaction.mk (freshId (map Transaction.id (transactions db)))
                           (Tenant.id (tenant ctx)) (params_id req)
                           type quantity pre in
  let db' := snd (createTransaction ctx req db) in
  handle POST_materials_id_transactions req db = createTransaction ctx req db
  /\ fst (createTransaction ctx req db)
     = mkResponse 201 (MovementJson (params_id req) post tx)
  /\ transactions db' = transactions db ++ [tx]
  /\ materials db'
     = prisma.update_rows (params_id req) (prisma.data_currentStock post) (materials db)
  /\ prisma.material_findFirst (params_id req) (Tenant.id (tenant ctx)) db'
     = Some (Material.mk (Material.id material) (Material.tenantId material)
                         (Material.name material) (Material.unit material)
                         post (Material.deletedAt material))
  /\ tenants db' = tenants db /\ users db' = users db.
Proof.
  intros Hauth Hreq Hpos Hf Hout pre post tx db'.
  pose proof (@createTransaction_success _ _ _ _ _ _ Hauth Hreq Hpos Hf Hout) as Hok.
  cbv zeta in Hok. unfold movement_store, movement_row, post_stock in Hok.
  simpl in Hok. subst db' tx post pre.
  split.
  { unfold handle. rewrite Hauth. reflexivity. }
  rewrite Hok. simpl. repeat split.
  apply (@material_findFirst_update_stock _ _ _ db _ _ Hf).
Qed.

Lemma createTransaction_applies_movement_witness :
  fst (createTransaction as_bob (request 2 1 (movement_body OUT 30)) acme_steel)
  = mkResponse 201 (MovementJson 1 (100 - 30) (Transaction.mk 2 1 1 OUT 30 100)).
Proof.
  refine (proj1 (proj2 (@createTransaction_applies_movement
                          as_bob (request 2 1 (movement_body OUT 30)) acme_steel
                          OUT 30 steel _ _ _ _ _))).
  - reflexivity.
  - split; reflexivity.
  - reflexivity.
  - reflexivity.
  - intros _. vm_compute. discriminate.
Defined.

(** C3.  An OUT movement that asks for more than the stock [pre] of the
    material is answered with an insufficient-stock error that carries [pre],
    the unit of the material and the requested quantity; the store, hence the
    stock and the transaction log, is left as it was. *)
Theorem createTransaction_insufficient_stock
        (ctx : Context) (req : Request) (db : DB)
        (quantity : Q) (material : Material.t) :
  movement_request req OUT quantity ->
  (0 < quantity)%Q ->
  prisma.material_findFirst (params_id req) (Tenant.id (tenant ctx)) db = Some material ->
  (Material.currentStock material < quantity)%Q ->
  createTransaction ctx req db
  = (mkResponse 400 (ErrorJson "Insufficient Stock"
                               (InsufficientStockMessage
                                  (Material.currentStock material)
                                  (Material.unit material) quantity)),
     db).
Proof.
  intros Hreq Hpos Hf Hlt.
  unfold createTransaction, createTransaction_read.
  rewrite (movement_request_valid Hreq Hpos), Hf.
  apply Qltb_true in Hlt. rewrite Hlt. reflexivity.
Qed.

Lemma createTransaction_insufficient_stock_witness :
  createTransaction as_bob (request 2 1 (movement_body OUT 1000)) acme_steel
  = (mkResponse 400 (ErrorJson "Insufficient Stock"
                               (InsufficientStockMessage 100 "kg" 1000)),
     acme_steel).
Proof.
  apply (@createTransaction_insufficient_stock
           as_bob (request 2 1 (movement_body OUT 1000)) acme_steel 1000 steel).
  - split; reflexivity.
  - reflexivity.
  - reflexivity.
  - reflexivity.
Defined.



(** C10.  A material that [createMaterial] creates starts with stock 0 and
    with an empty transaction history, so it satisfies the ledger invariant
    from the start. *)
Theorem createMaterial_starts_empty
        (ctx : Context) (req : Request) (db : DB) :
  reachable db ->
  status (fst (createMaterial ctx req db)) = 201 ->
  exists m : Material.t,
    json (fst (createMaterial ctx req db)) = MaterialJson m
    /\ materials (snd (createMaterial ctx req db)) = materials db ++ [m]
    /\ Material.currentStock m = 0%Q
    /\ history (snd (createMaterial ctx req db)) (Material.id m) = []
    /\ (Material.currentStock m
        == ledgerSum (history (snd (createMaterial ctx req db)) (Material.id m)))%Q.
Proof.
  intros Hr Hst. pose proof (reachable_referential Hr) as Href.
  unfold createMaterial in *.
  destruct (createMaterialSchema (body req)) as [[name unit]|]; [|discriminate].
  destruct (_ && _); [discriminate|].
  unfold prisma.material_create in *.
  destruct (negb _); [discriminate|].
  destruct (existsb _ (materials db)); [discriminate|].
  simpl. eexists. split; [reflexivity|]. split; [reflexivity|].
  split; [reflexivity|]. simpl.
  pose proof (fresh_material_history Href) as Hh.
  unfold history, prisma.transactions_of in *. simpl. rewrite Hh.
  split; reflexivity.
Qed.

Lemma createMaterial_starts_empty_witness :
  let out := createMaterial as_alice (request 1 0 (material_body "copper" "kg"))
                            acme_steel in
  exists m : Material.t,
    json (fst out) = MaterialJson m
    /\ materials (snd out) = materials acme_steel ++ [m]
    /\ Material.currentStock m = 0%Q
    /\ history (snd out) (Material.id m) = []
    /\ (Material.currentStock m == ledgerSum (history (snd out) (Material.id m)))%Q.
Proof.
  apply (@createMaterial_starts_empty
           as_alice (request 1 0 (material_body "copper" "kg")) acme_steel).
  - change acme_steel
      with (snd (perform (op_createTransaction as_bob
                            (request 2 1 (movement_body IN 100)))
                   (snd (perform (op_createMaterial as_alice
                                    (request 1 0 (material_body "steel" "kg")))
                           acme_empty)))).
    apply reachable_perform. apply reachable_perform. apply reachable_empty.
  - reflexivity.
Defined.

(** ** Soft delete *)

Lemma material_findFirst_deleted (i tid : Id) (date : Timestamp) (db : DB) :
  prisma.material_findFirst i tid (deleted_store i date db) = None.
Proof.
  apply material_findFirst_None. intros m' Hin Hid. simpl in Hin.
  apply update_rows_In in Hin. destruct Hin as [m [_ [[_ ->]|[Hne ->]]]].
  - right. simpl. discriminate.
  - contradiction.
Qed.

(** C8.  A soft delete of an existing, live material of the tenant assigns
    [deletedAt] and nothing else: every row keeps its id, tenant, name, unit
    and stock, rows with another id are untouched, and the transaction table
    is the same.  A second soft delete of that material is answered with
    "Not Found". *)
Theorem softDeleteMaterial_sets_deletedAt_only
        (ctx : Context) (req : Request) (db : DB) (material : Material.t) :
  prisma.material_findFirst (params_id req) (Tenant.id (tenant ctx)) db = Some material ->
  let db' := snd (softDeleteMaterial ctx req db) in
  status (fst (softDeleteMaterial ctx req db)) = 200
  /\ transactions db' = transactions db
  /\ materials db'
     = map (fun m => if Material.id m =? params_id req
                     then Material.mk (Material.id m) (Material.tenantId m)
                                      (Material.name m) (Material.unit m)
                                      (Material.currentStock m) (Some (now req))
                     else m)
           (materials db)
  /\ map Material.currentStock (materials db') = map Material.currentStock (materials db)
  /\ (forall i, history db' i = history db i)
  /\ (forall req2 : Request,
         params_id req2 = params_id req ->
         softDeleteMaterial ctx req2 db'
         = (mkResponse 404 (ErrorJson "Not Found" NotFoundOrDeletedMessage), db')).
Proof.
  intros Hf db'.
  pose proof (material_findFirst_Some _ _ _ Hf) as [Hin [Hid _]].
  assert (Hfind : exists m0, find (fun m => Material.id m =? params_id req)
                                  (materials db) = Some m0).
  { destruct (find _ (materials db)) as [m0|] eqn:E; [eauto|].
    pose proof (find_none _ _ E material Hin) as Hn. simpl in Hn.
    rewrite Hid, Nat.eqb_refl in Hn. discriminate. }
  destruct Hfind as [m0 Hm0].
  assert (Hrun : softDeleteMaterial ctx req db
                 = (mkResponse 200 (SoftDeletedJson (Material.name m0) (Material.id m0)
                                                    (Some (now req))),
                    deleted_store (params_id req) (now req) db)).
  { unfold softDeleteMaterial, prisma.material_update. rewrite Hf, Hm0. reflexivity. }
  subst db'. rewrite Hrun. simpl.
  split; [reflexivity|]. split; [reflexivity|]. split; [reflexivity|].
  split.
  { unfold prisma.update_rows. rewrite map_map. apply map_ext. intro m.
    destruct (Material.id m =? params_id req); reflexivity. }
  split; [reflexivity|].
  intros req2 Hp. unfold softDeleteMaterial. rewrite Hp.
  rewrite material_findFirst_deleted. reflexivity.
Qed.

Lemma softDeleteMaterial_sets_deletedAt_only_witness :
  let db' := snd (softDeleteMaterial as_alice (request 1 1 []) acme_steel) in
  materials db' = [Material.mk 1 1 "steel" "kg" 100 (Some 42)]
  /\ transactions db' = transactions acme_steel
  /\ fst (softDeleteMaterial as_alice (request 1 1 []) db')
     = mkResponse 404 (ErrorJson "Not Found" NotFoundOrDeletedMessage).
Proof.
  pose proof (@softDeleteMaterial_sets_deletedAt_only
                as_alice (request 1 1 []) acme_steel steel eq_refl) as H.
  cbv zeta in H. destruct H as [_ [Htx [Hms [_ [_ Hsecond]]]]].
  split; [rewrite Hms; reflexivity|].
  split; [exact Htx|].
  rewrite (Hsecond (request 1 1 []) eq_refl). reflexivity.
Defined.

(** ** Roles *)

(** C7.  On the routes of [createMaterial] and [softDeleteMaterial] a user
    whose role is not ADMIN is answered with an authorization error and the
    store is untouched; the route of [createTransaction] has no role check,
    so the request reaches the controller, whose answer does not depend on
    the user. *)
Theorem role_check_on_admin_routes_only (req : Request) (db : DB) (ctx : Context) :
  tenantAuthMiddleware req db = inr ctx ->
  User.role (user ctx) <> ADMIN ->
  let forbidden := mkResponse 403 (ErrorJson "Authorization Required"
                                             (ForbiddenMessage ADMIN)) in
  handle POST_materials req db = (forbidden, db)
  /\ handle DELETE_materials_id req db = (forbidden, db)
  /\ fst (router POST_materials_id_transactions) = []
  /\ handle POST_materials_id_transactions req db = createTransaction ctx req db
  /\ (forall u : User.t,
         createTransaction (mkContext (tenant ctx) u) req db
         = createTransaction ctx req db).
Proof.
  intros Hauth Hrole forbidden.
  assert (Hcheck : roleCheckMiddleware ADMIN ctx = Some forbidden).
  { unfold roleCheckMiddleware. destruct (User.role (user ctx)); [contradiction|].
    reflexivity. }
  unfold handle. rewrite Hauth. simpl. rewrite Hcheck.
  repeat split.
Qed.

Lemma role_check_on_admin_routes_only_witness :
  handle POST_materials (request 2 0 (material_body "copper" "kg")) acme_steel
  = (mkResponse 403 (ErrorJson "Authorization Required" (ForbiddenMessage ADMIN)),
     acme_steel)
  /\ status (fst (handle POST_materials_id_transactions
                         (request 2 1 (movement_body IN 5)) acme_steel)) = 201.
Proof.
  split.
  - apply (@role_check_on_admin_routes_only
             (request 2 0 (material_body "copper" "kg")) acme_steel as_bob).
    + reflexivity.
    + discriminate.
  - reflexivity.
Defined.

(** ** Unavailable targets *)

(** C5.  When the target material does not exist, belongs to another tenant
    or is soft-deleted, the lookup, the soft delete and every movement (type
    IN or OUT, quantity above 0) fail with 404 "Not Found" and leave the store
    as it is.  Each handler answers with one fixed response, whichever of the
    three causes applies, so the causes cannot be told apart. *)
Theorem not_available_is_not_found (ctx : Context) (req : Request) (db : DB) :
  not_available (params_id req) (Tenant.id (tenant ctx)) db ->
  getMaterialById ctx req db
  = (mkResponse 404 (ErrorJson "Not Found" NotFoundOrForeignMessage), db)
  /\ softDeleteMaterial ctx req db
     = (mkResponse 404 (ErrorJson "Not Found" NotFoundOrDeletedMessage), db)
  /\ forall type quantity,
       movement_request req type quantity -> (0 < quantity)%Q ->
       createTransaction ctx req db
       = (mkResponse 404 (ErrorJson "Not Found" NotFoundOrForeignMessage), db).
Proof.
  intro Hna. apply material_findFirst_None in Hna.
  unfold getMaterialById, softDeleteMaterial. rewrite Hna.
  split; [reflexivity|]. split; [reflexivity|].
  intros type quantity Hreq Hpos.
  unfold createTransaction, createTransaction_read.
  rewrite (movement_request_valid Hreq Hpos), Hna. reflexivity.
Qed.

(** Material 7 does not exist, material 3 belongs to globex and material 2
    is soft-deleted: bob of acme gets the same answer for the three. *)
Lemma not_available_is_not_found_witness :
  let answer := (mkResponse 404 (ErrorJson "Not Found" NotFoundOrForeignMessage),
                 two_tenants) in
  createTransaction as_bob (request 2 7 (movement_body OUT 5)) two_tenants = answer
  /\ createTransaction as_bob (request 2 3 (movement_body OUT 5)) two_tenants = answer
  /\ createTransaction as_bob (request 2 2 (movement_body OUT 5)) two_tenants = answer.
Proof.
  assert (Hna : forall id, In id [7; 3; 2] -> not_available id 1 two_tenants).
  { intros id Hid m Hm Hmid. vm_compute in Hm.
    destruct Hm as [<-|[<-|[<-|[]]]]; simpl in Hmid; subst id;
      simpl in Hid; simpl.
    - repeat destruct Hid as [Hid|Hid]; discriminate || contradiction.
    - right. discriminate.
    - left. discriminate. }
  intro answer.
  split; [|split].
  - refine (proj2 (proj2 (@not_available_is_not_found
                            as_bob (request 2 7 (movement_body OUT 5))
                            two_tenants _)) OUT 5%Q _ _).
    + apply Hna. simpl. auto.
    + split; reflexivity.
    + reflexivity.
  - refine (proj2 (proj2 (@not_available_is_not_found
                            as_bob (request 2 3 (movement_body OUT 5))
                            two_tenants _)) OUT 5%Q _ _).
    + apply Hna. simpl. auto.
    + split; reflexivity.
    + reflexivity.
  - refine (proj2 (proj2 (@not_available_is_not_found
                            as_bob (request 2 2 (movement_body OUT 5))
                            two_tenants _)) OUT 5%Q _ _).
    + apply Hna. simpl. auto.
    + split; reflexivity.
    + reflexivity.
Defined.

(** A movement whose body fails validation is answered with "Validation
    Error" before the material is looked up: the movement is not attempted. *)
Lemma createTransaction_validates_first (ctx : Context) (req : Request) (db : DB) :
  createTransactionSchema (body req) = None ->
  createTransaction ctx req db
  = (mkResponse 400 (ErrorJson "Validation Error" ValidationDetails), db).
Proof.
  intro H. unfold createTransaction, createTransaction_read. rewrite H. reflexivity.
Qed.

(** ** Plan limit *)

Lemma existsb_false_forall {A : Type} (p : A -> bool) (l : list A) :
  (forall x, In x l -> p x = false) -> existsb p l = false.
Proof.
  intro H. induction l as [|a l IH]; simpl; [reflexivity|].
  rewrite (H a (or_introl eq_refl)). simpl. apply IH.
  intros x Hx. apply H. now right.
Qed.

(** C6, as amended.  For a request that has passed identity resolution and
    validation, as in [plan_limit_claim]: a FREE tenant with at least 5 live
    materials is answered with 403 "Plan Limit Exceeded" and nothing is
    created.  A FREE tenant with fewer than 5 live materials, and every PRO
    tenant, is never answered with that error: the material is created when
    no material of the tenant, live or soft-deleted, has the requested name,
    and otherwise the request is answered with 409 "Conflict" and nothing is
    created. *)
Theorem createMaterial_plan_gate
        (ctx : Context) (req : Request) (db : DB) (name unit : string) :
  tenantAuthMiddleware req db = inr ctx ->
  createMaterialSchema (body req) = Some (name, unit) ->
  let tenantId := Tenant.id (tenant ctx) in
  let count := prisma.material_count tenantId db in
  let taken := exists m, In m (materials db) /\ Material.tenantId m = tenantId
                         /\ Material.name m = name in
  (Tenant.plan (tenant ctx) = FREE -> MAX_FREE_MATERIALS <= count ->
   createMaterial ctx req db
   = (mkResponse 403 (ErrorJson "Plan Limit Exceeded"
                                (PlanLimitMessage MAX_FREE_MATERIALS)), db))
  /\ (Tenant.plan (tenant ctx) = PRO \/ count < MAX_FREE_MATERIALS ->
      error_kind (fst (createMaterial ctx req db)) <> Some "Plan Limit Exceeded"
      /\ (~ taken ->
          let row := Material.mk (freshId (map Material.id (materials db)))
                                 tenantId name unit 0 None in
          createMaterial ctx req db
          = (mkResponse 201 (MaterialJson row),
             mkDB (tenants db) (users db) (materials db ++ [row]) (transactions db)))
      /\ (taken ->
          createMaterial ctx req db
          = (mkResponse 409 (ErrorJson "Conflict" (ConflictMessage name)), db))).
Proof.
  intros Hauth Hs tenantId count taken. apply tenantAuthMiddleware_inr in Hauth.
  unfold createMaterial. rewrite Hs. fold tenantId. fold count. split.
  - intros -> Hle. apply Nat.leb_le in Hle. rewrite Hle. reflexivity.
  - intro Hbelow.
    assert (Hgate : TenantPlan_eqb (Tenant.plan (tenant ctx)) FREE
                    && (MAX_FREE_MATERIALS <=? count) = false).
    { destruct Hbelow as [-> | Hlt]; [reflexivity|].
      apply Nat.leb_gt in Hlt. rewrite Hlt. apply andb_false_r. }
    rewrite Hgate. unfold prisma.material_create. fold tenantId in Hauth.
    rewrite Hauth. simpl. split; [|split].
    + destruct (existsb _ (materials db)); simpl; discriminate.
    + intro Hfree. rewrite existsb_false_forall; [reflexivity|].
      intros m Hin. simpl.
      destruct (Material.tenantId m =? tenantId) eqn:Et; [|reflexivity].
      apply Nat.eqb_eq in Et. simpl. apply String.eqb_neq.
      intro Hname. apply Hfree. exists m. auto.
    + intros [m [Hin [Ht Hn]]].
      assert (Hex : existsb (fun m => (Material.tenantId m =? tenantId)
                                      && String.eqb (Material.name m) name)
                            (materials db) = true).
      { apply existsb_exists. exists m. split; [exact Hin|].
        apply andb_true_intro. split; [now apply Nat.eqb_eq|now apply String.eqb_eq]. }
      rewrite Hex. reflexivity.
Qed.

Lemma createMaterial_plan_gate_witness :
  createMaterial as_alice (request 1 0 (material_body "m6" "kg")) acme_after_delete
  = (mkResponse 201 (MaterialJson (Material.mk 6 1 "m6" "kg" 0 None)),
     mkDB (tenants acme_after_delete) (users acme_after_delete)
          (materials acme_after_delete ++ [Material.mk 6 1 "m6" "kg" 0 None])
          (transactions acme_after_delete))
  /\ createMaterial as_alice (request 1 0 (material_body "m1" "kg")) acme_after_delete
     = (mkResponse 409 (ErrorJson "Conflict" (ConflictMessage "m1")),
        acme_after_delete).
Proof.
  split.
  - refine (proj1 (proj2 (proj2 (@createMaterial_plan_gate
                                   as_alice (request 1 0 (material_body "m6" "kg"))
                                   acme_after_delete "m6" "kg" _ _) _)) _).
    + reflexivity.
    + reflexivity.
    + right. vm_compute. lia.
    + intros [m [Hin [_ Hname]]]. vm_compute in Hin.
      repeat (destruct Hin as [<-|Hin]; [vm_compute in Hname; discriminate|]).
      destruct Hin.
  - refine (proj2 (proj2 (proj2 (@createMaterial_plan_gate
                                   as_alice (request 1 0 (material_body "m1" "kg"))
                                   acme_after_delete "m1" "kg" _ _) _)) _).
    + reflexivity.
    + reflexivity.
    + right. vm_compute. lia.
    + exists (Material.mk 1 1 "m1" "kg" 0 (Some 42)).
      split; [vm_compute; left; reflexivity|split; reflexivity].
Defined.

(** C6, as stated, fails below the ceiling: after five creations and the soft
    delete of the first material the tenant has 4 live materials, yet a valid
    creation under the name of the deleted material is answered with
    "Conflict" and creates nothing. *)
Lemma plan_limit_claim_fails_on_reused_name :
  ~ plan_limit_claim as_alice (request 1 0 (material_body "m1" "kg"))
                     acme_after_delete.
Proof.
  intro H.
  assert (Hvalid : createMaterialSchema (body (request 1 0 (material_body "m1" "kg")))
                   <> None) by (vm_compute; discriminate).
  destruct (H eq_refl Hvalid) as [Hfree _].
  destruct (Hfree eq_refl) as [_ Hbelow].
  assert (Hcount : prisma.material_count (Tenant.id (tenant as_alice)) acme_after_delete
                   < MAX_FREE_MATERIALS) by (vm_compute; lia).
  destruct (Hbelow Hcount) as [Hstatus _]. vm_compute in Hstatus. discriminate.
Qed.

(** ** Overlapping movements *)

(** X23.  Two movements on the same material whose reads are both served
    before their writes: each passes its check against the same stock [pre], both
    rows record [pre], and the stock that remains is the one computed by the
    request that writes last; the first movement is lost. *)
Lemma overlapped_schedule_keeps_last_write
      (ctx : Context) (req1 req2 : Request) (db : DB) (material : Material.t)
      (type1 type2 : TransactionType) (quantity1 quantity2 : Q) :
  tenantAuthMiddleware req1 db = inr ctx ->
  params_id req2 = params_id req1 ->
  movement_request req1 type1 quantity1 -> (0 < quantity1)%Q ->
  movement_request req2 type2 quantity2 -> (0 < quantity2)%Q ->
  prisma.material_findFirst (params_id req1) (Tenant.id (tenant ctx)) db
  = Some material ->
  (type1 = OUT -> quantity1 <= Material.currentStock material)%Q ->
  (type2 = OUT -> quantity2 <= Material.currentStock material)%Q ->
  let pre := Material.currentStock material in
  let final := snd (run_schedule [0; 1; 0; 1]
                                 ([Arrived ctx req1; Arrived ctx req2], db)) in
  stock_of (params_id req1) (Tenant.id (tenant ctx)) final
  = Some (post_stock type2 pre quantity2)
  /\ map Transaction.preTransactionStock
         (skipn (List.length (transactions db)) (transactions final))
     = [pre; pre].
Proof.
  intros Hauth Hp Hreq1 Hpos1 Hreq2 Hpos2 Hf Hout1 Hout2 pre final.
  pose proof (movement_request_valid Hreq1 Hpos1) as Hs1.
  pose proof (movement_request_valid Hreq2 Hpos2) as Hs2.
  pose proof (material_findFirst_Some _ _ _ Hf) as [Hin [Hid _]].
  pose proof (tenantAuthMiddleware_inr _ _ Hauth) as Ht.
  set (tid := Tenant.id (tenant ctx)) in *.
  set (i := params_id req1) in *.
  set (mv1 := mkMovement tid i type1 quantity1 pre (post_stock type1 pre quantity1)).
  set (mv2 := mkMovement tid i type2 quantity2 pre (post_stock type2 pre quantity2)).
  assert (Hread1 : createTransaction_read ctx req1 db = inr mv1).
  { unfold createTransaction_read. fold tid i. rewrite Hs1, Hf.
    destruct type1; [reflexivity|].
    specialize (Hout1 eq_refl). apply Qltb_false in Hout1. rewrite Hout1. reflexivity. }
  assert (Hread2 : createTransaction_read ctx req2 db = inr mv2).
  { unfold createTransaction_read. rewrite Hp. fold tid i. rewrite Hs2, Hf.
    destruct type2; [reflexivity|].
    specialize (Hout2 eq_refl). apply Qltb_false in Hout2. rewrite Hout2. reflexivity. }
  assert (Hi : In i (map Material.id (materials db))).
  { rewrite <- Hid. now apply in_map. }
  assert (Hwrite1 : createTransaction_write mv1 db
                    = (mkResponse 201 (MovementJson i (mv_newStock mv1)
                                                    (movement_row mv1 db)),
                       movement_store mv1 db)).
  { apply (createTransaction_write_commit mv1 db); assumption. }
  assert (Hwrite2 : createTransaction_write mv2 (movement_store mv1 db)
                    = (mkResponse 201 (MovementJson i (mv_newStock mv2)
                                         (movement_row mv2 (movement_store mv1 db))),
                       movement_store mv2 (movement_store mv1 db))).
  { apply (createTransaction_write_commit mv2 (movement_store mv1 db)).
    - exact Ht.
    - simpl. rewrite update_rows_ids. exact Hi. }
  assert (Hfinal : final = movement_store mv2 (movement_store mv1 db)).
  { subst final. unfold run_schedule. simpl. unfold serve. simpl.
    rewrite Hread1. simpl. rewrite Hread2. simpl.
    rewrite Hwrite1. simpl. rewrite Hwrite2. reflexivity. }
  rewrite Hfinal. split.
  - unfold stock_of, movement_store. simpl.
    pose proof (@material_findFirst_update_stock
                  _ _ (post_stock type1 pre quantity1) db _ (transactions db) Hf) as H1.
    pose proof (@material_findFirst_update_stock
                  _ _ (post_stock type2 pre quantity2) _ _
                  ((transactions db ++ [movement_row mv1 db])
                     ++ [movement_row mv2 (movement_store mv1 db)]) H1) as H2.
    transitivity (option_map Material.currentStock
                    (Some (prisma.assign
                             (prisma.data_currentStock (post_stock type2 pre quantity2))
                             (prisma.assign
                                (prisma.data_currentStock
                                   (post_stock type1 pre quantity1)) material))));
      [|reflexivity].
    f_equal. exact H2.
  - simpl. rewrite <- app_assoc.
    rewrite skipn_app, skipn_all, Nat.sub_diag. reflexivity.
Qed.

(** C4 (lost update).  The row is read outside of the batch that writes it.
    With 100 kg in stock, an IN of 30 and an OUT of 30 that are served in
    either order one after the other leave 100 kg.  When both reads are
    served before both writes, both requests are answered 201, both
    transactions record [preTransactionStock] 100, and the stock ends at 70
    while the ledger still sums to 100. *)
Theorem overlapping_movements_lose_an_update :
  let in_then_out := run_schedule [0; 0; 1; 1] (opposing_movements, acme_steel) in
  let out_then_in := run_schedule [1; 1; 0; 0] (opposing_movements, acme_steel) in
  let overlapped := run_schedule [0; 1; 0; 1] (opposing_movements, acme_steel) in
  stock_of 1 1 (snd in_then_out) = Some 100%Q
  /\ stock_of 1 1 (snd out_then_in) = Some 100%Q
  /\ stock_of 1 1 (snd overlapped) = Some 70%Q
  /\ map (fun t => match t with Replied r => status r | _ => 0 end) (fst overlapped)
     = [201; 201]
  /\ map Transaction.preTransactionStock (skipn 1 (history (snd overlapped) 1))
     = [100%Q; 100%Q]
  /\ Qeq (ledgerSum (history (snd overlapped) 1)) 100%Q
  /\ ~ ledger_consistent (snd overlapped).
Proof.
  repeat split; try reflexivity.
  intro H.
  destruct (H (Material.mk 1 1 "steel" "kg" 70 None)) as [Hsum _].
  - vm_compute. left. reflexivity.
  - vm_compute in Hsum. discriminate.
Qed.

(** * The rest of the API: properties *)

(** ** Identity resolution *)

(** X1.  A request that passes [tenantAuthMiddleware] is served in the name of
    the tenant and the user of its headers: both rows are in the store, and
    the user belongs to that tenant. *)
Theorem tenantAuthMiddleware_resolves_headers
        (req : Request) (db : DB) (ctx : Context) :
  tenantAuthMiddleware req db = inr ctx ->
  header_tenant_id req = Some (Tenant.id (tenant ctx))
  /\ header_user_id req = Some (User.id (user ctx))
  /\ In (tenant ctx) (tenants db)
  /\ In (user ctx) (users db)
  /\ User.tenantId (user ctx) = Tenant.id (tenant ctx).
Proof.
  unfold tenantAuthMiddleware.
  destruct (header_tenant_id req) as [tenantId|]; [|discriminate].
  destruct (header_user_id req) as [userId|]; [|discriminate].
  destruct (prisma.tenant_findUnique tenantId db) as [t|] eqn:Et; [|discriminate].
  destruct (prisma.user_findFirst userId tenantId db) as [u|] eqn:Eu; [|discriminate].
  intro H. injection H as <-. simpl.
  apply find_some in Et. destruct Et as [Hint Ht]. apply Nat.eqb_eq in Ht.
  apply find_some in Eu. destruct Eu as [Hinu Hu]. apply andb_true_iff in Hu.
  destruct Hu as [Hu1 Hu2]. apply Nat.eqb_eq in Hu1, Hu2.
  subst. auto.
Qed.

Lemma tenantAuthMiddleware_resolves_headers_witness :
  header_tenant_id (request 2 1 []) = Some (Tenant.id (tenant as_bob))
  /\ header_user_id (request 2 1 []) = Some (User.id (user as_bob))
  /\ In (tenant as_bob) (tenants two_tenants)
  /\ In (user as_bob) (users two_tenants)
  /\ User.tenantId (user as_bob) = Tenant.id (tenant as_bob).
Proof.
  apply (@tenantAuthMiddleware_resolves_headers (request 2 1 []) two_tenants as_bob).
  reflexivity.
Defined.

Lemma user_findFirst_None (uid tid : Id) (db : DB) :
  (forall u, In u (users db) -> User.id u = uid -> User.tenantId u <> tid) ->
  prisma.user_findFirst uid tid db = None.
Proof.
  intro H. unfold prisma.user_findFirst.
  destruct (find _ (users db)) as [u|] eqn:E; [|reflexivity].
  apply find_some in E. destruct E as [Hin Hb]. apply andb_true_iff in Hb.
  destruct Hb as [H1 H2]. apply Nat.eqb_eq in H1, H2.
  now elim (H u Hin H1).
Qed.

(** X2.  A user id that belongs to no user of the tenant named in the headers,
    for instance the id of a user of another tenant, is refused with 403
    "User Access Denied" on every tenant-scoped route, and the store is left
    as it was. *)
Theorem user_of_another_tenant_is_denied
        (env : Environment) (req : Request) (db : DB) (tid uid : Id) (t : Tenant.t) :
  header_tenant_id req = Some tid ->
  header_user_id req = Some uid ->
  prisma.tenant_findUnique tid db = Some t ->
  (forall u, In u (users db) -> User.id u = uid -> User.tenantId u <> tid) ->
  let denied := mkResponse 403 (ErrorJson "User Access Denied" UserDeniedMessage) in
  (forall e, handle e req db = (denied, db))
  /\ (forall query, api env (api_list query req) db = (Plain denied, db))
  /\ api env (api_analytics req) db = (Plain denied, db).
Proof.
  intros Ht Hu Hfind Hforeign denied.
  assert (Hauth : tenantAuthMiddleware req db = inl denied).
  { unfold tenantAuthMiddleware. rewrite Ht, Hu, Hfind.
    rewrite (@user_findFirst_None uid tid db Hforeign). reflexivity. }
  repeat split.
  - intro e. unfold handle. rewrite Hauth. reflexivity.
  - intro query. simpl. unfold scoped. rewrite Hauth. reflexivity.
  - simpl. unfold scoped. rewrite Hauth. reflexivity.
Qed.

Lemma user_of_another_tenant_is_denied_witness :
  handle POST_materials_id_transactions
         (mkRequest (Some 1) (Some 3) 1 (movement_body OUT 100) 42) two_tenants
  = (mkResponse 403 (ErrorJson "User Access Denied" UserDeniedMessage), two_tenants).
Proof.
  refine (proj1 (@user_of_another_tenant_is_denied
                   sample_env
                   (mkRequest (Some 1) (Some 3) 1 (movement_body OUT 100) 42)
                   two_tenants 1 3 acme _ _ _ _) _).
  - reflexivity.
  - reflexivity.
  - reflexivity.
  - intros u Hin Hid. vm_compute in Hin.
    repeat (destruct Hin as [<-|Hin]; [vm_compute in Hid; vm_compute; discriminate|]).
    destruct Hin.
Defined.

(** ** Catalogue listing *)

Lemma selected_sound (col : Collation) (tid : Id) (name unit : Filter)
      (m : Material.t) :
  selected col tid name unit m = true ->
  Material.tenantId m = tid /\ Material.deletedAt m = None.
Proof.
  unfold selected. rewrite !andb_true_iff. intros [[[Ht Hl] _] _].
  apply Nat.eqb_eq in Ht. unfold Material.live in Hl.
  destruct (Material.deletedAt m); [discriminate|]. auto.
Qed.

Lemma listed_material_is_own_and_live
      (col : Collation) (query : MaterialQuery) (ctx : Context) (req : Request)
      (db : DB) (l : list Material.t) (m : Material.t) :
  fst (listMaterials col query ctx req db) = MaterialsReply l -> In m l ->
  In m (materials db)
  /\ Material.tenantId m = Tenant.id (tenant ctx)
  /\ Material.deletedAt m = None.
Proof.
  unfold listMaterials, material_findMany.
  destruct (where_member (query_name query)) eqn:En;
    destruct (where_member (query_unit query)) eqn:Eu; simpl;
    intros Hl Hin; try discriminate;
    injection Hl as <-; apply in_rev, filter_In in Hin;
    destruct Hin as [Hin Hsel]; apply selected_sound in Hsel; tauto.
Qed.

Lemma listMaterials_reads_only
      (col : Collation) (query : MaterialQuery) (ctx : Context) (req : Request)
      (db : DB) :
  snd (listMaterials col query ctx req db) = db.
Proof.
  unfold listMaterials. destruct (material_findMany _ _ _ _ db); reflexivity.
Qed.

(** X3.  Whatever the filters, [listMaterials] leaves the store as it is, and
    every material it returns is a row of the store that belongs to the
    requesting tenant and is not soft-deleted. *)
Theorem listMaterials_shows_own_live_materials
        (col : Collation) (query : MaterialQuery) (ctx : Context) (req : Request)
        (db : DB) :
  snd (listMaterials col query ctx req db) = db
  /\ forall l m,
       fst (listMaterials col query ctx req db) = MaterialsReply l -> In m l ->
       In m (materials db)
       /\ Material.tenantId m = Tenant.id (tenant ctx)
       /\ Material.deletedAt m = None.
Proof.
  split; [apply listMaterials_reads_only|].
  intros l m. apply listed_material_is_own_and_live.
Qed.

Lemma filter_filter {A : Type} (p q : A -> bool) (l : list A) :
  filter p (filter q l) = filter (fun x => q x && p x) l.
Proof.
  induction l as [|a l IH]; simpl; [reflexivity|].
  destruct (q a); simpl; [destruct (p a)|]; rewrite ? IH; reflexivity.
Qed.

(** X4.  With no filter the listing holds the live materials of the tenant,
    newest first: it has as many entries as the count that the plan check and
    the analytics summary use, and a material is listed exactly when it is a
    live row of the tenant. *)
Theorem listMaterials_unfiltered_is_complete
        (col : Collation) (ctx : Context) (req : Request) (db : DB) :
  exists l,
    listMaterials col no_filter ctx req db = (MaterialsReply l, db)
    /\ List.length l = prisma.material_count (Tenant.id (tenant ctx)) db
    /\ forall m, In m l <->
                 In m (materials db)
                 /\ Material.tenantId m = Tenant.id (tenant ctx)
                 /\ Material.deletedAt m = None.
Proof.
  eexists. split; [reflexivity|]. split.
  - rewrite length_rev. unfold prisma.material_count. f_equal.
    apply filter_ext. intro m. unfold selected. simpl.
    now rewrite !andb_true_r.
  - intro m. rewrite <- in_rev, filter_In. unfold selected. simpl.
    rewrite !andb_true_r, andb_true_iff, Nat.eqb_eq. unfold Material.live.
    destruct (Material.deletedAt m); intuition congruence.
Qed.

(** X5.  A filter only removes entries: with string filters the listing is
    the unfiltered listing, in the same order, restricted to the materials
    whose name contains the [name] filter and whose unit equals the [unit]
    filter under the collation.  An empty filter string filters nothing; a
    filter that is not a string is answered with 500. *)
Theorem listMaterials_filters_narrow
        (col : Collation) (query : MaterialQuery) (ctx : Context) (req : Request)
        (db : DB) (all : list Material.t) :
  fst (listMaterials col no_filter ctx req db) = MaterialsReply all ->
  (query_name query <> QOther /\ query_unit query <> QOther ->
   fst (listMaterials col query ctx req db)
   = MaterialsReply
       (filter (fun m =>
                  passes (contains_insensitive col) (where_member (query_name query))
                         (Material.name m)
                  && passes (equals_insensitive col) (where_member (query_unit query))
                            (Material.unit m))
               all))
  /\ (query_name query = QString EmptyString -> query_unit query = QString EmptyString ->
      fst (listMaterials col query ctx req db) = MaterialsReply all)
  /\ (query_name query = QOther \/ query_unit query = QOther ->
      fst (listMaterials col query ctx req db) = Plain internal_error).
Proof.
  intro Hall. simpl in Hall. injection Hall as <-.
  split; [|split].
  - intros [Hn Hu]. unfold listMaterials, material_findMany.
    destruct (query_name query) as [|n|] eqn:En; [| |congruence];
      destruct (query_unit query) as [|u|] eqn:Eu; try congruence;
      try destruct n; try destruct u; simpl;
      rewrite filter_rev, filter_filter; do 2 f_equal;
      apply filter_ext; intro m; unfold selected; simpl;
      rewrite ? andb_true_r, ? andb_assoc; reflexivity.
  - unfold listMaterials, material_findMany. intros -> ->. reflexivity.
  - unfold listMaterials, material_findMany.
    intros [-> | ->]; simpl; [reflexivity|].
    destruct (where_member (query_name query)); reflexivity.
Qed.

Lemma listMaterials_filters_narrow_witness :
  fst (listMaterials ascii_collation (mkQuery (QString "STE") (QString "KG"))
                     as_bob (request 2 0 []) two_tenants)
  = MaterialsReply [steel].
Proof.
  refine (proj1 (@listMaterials_filters_narrow
                   ascii_collation (mkQuery (QString "STE") (QString "KG"))
                   as_bob (request 2 0 []) two_tenants [steel] _) _).
  - reflexivity.
  - split; discriminate.
Defined.

(** ** Lookup by id *)

Lemma transactions_of_sound (i : Id) (db : DB) (t : Transaction.t) :
  In t (prisma.transactions_of i db) ->
  In t (transactions db) /\ Transaction.materialId t = i.
Proof.
  unfold prisma.transactions_of. rewrite filter_In, Nat.eqb_eq. tauto.
Qed.

Lemma In_firstn {A : Type} (n : nat) (l : list A) (x : A) :
  In x (firstn n l) -> In x l.
Proof.
  revert l. induction n as [|n IH]; intros [|a l]; simpl; try tauto.
  intros [->|H]; [now left|right; now apply IH].
Qed.

(** X6.  A successful lookup leaves the store as it is and returns the live
    material of the tenant together with the last ten rows of its history,
    newest first (the whole history when it has at most ten rows); every row
    returned names that material. *)
Theorem getMaterialById_returns_recent_history
        (ctx : Context) (req : Request) (db : DB) (m : Material.t) :
  prisma.material_findFirst (params_id req) (Tenant.id (tenant ctx)) db = Some m ->
  let h := history db (params_id req) in
  exists txs,
    getMaterialById ctx req db
    = (mkResponse 200 (MaterialWithTransactionsJson m txs), db)
    /\ txs = rev (skipn (List.length h - 10) h)
    /\ List.length txs = Nat.min 10 (List.length h)
    /\ (List.length h <= 10 -> txs = rev h)
    /\ (forall t, In t txs ->
                  In t (transactions db) /\ Transaction.materialId t = Material.id m).
Proof.
  intros Hf h. pose proof (material_findFirst_Some _ _ _ Hf) as [_ [Hid _]].
  exists (prisma.recent_transactions (params_id req) db).
  unfold getMaterialById. rewrite Hf, Hid.
  unfold prisma.recent_transactions. fold (history db (params_id req)). fold h.
  split; [reflexivity|]. split; [apply firstn_rev|].
  split; [now rewrite length_firstn, length_rev|].
  split.
  - intro Hle. rewrite firstn_rev.
    replace (List.length h - 10) with 0 by lia. reflexivity.
  - intros t Hin. apply In_firstn, in_rev in Hin.
    now apply transactions_of_sound in Hin.
Qed.

Lemma getMaterialById_returns_recent_history_witness :
  getMaterialById as_bob (request 2 1 []) two_tenants
  = (mkResponse 200 (MaterialWithTransactionsJson steel [Transaction.mk 1 1 1 IN 100 0]),
     two_tenants).
Proof.
  destruct (@getMaterialById_returns_recent_history
              as_bob (request 2 1 []) two_tenants steel eq_refl)
    as [txs [Hrun [Htxs _]]].
  rewrite Hrun, Htxs. reflexivity.
Defined.

Lemma find_snoc {A : Type} (p : A -> bool) (l : list A) (a : A) :
  find p (l ++ [a])
  = match find p l with Some x => Some x | None => if p a then Some a else None end.
Proof.
  induction l as [|x l IH]; simpl; [reflexivity|].
  destruct (p x); [reflexivity|assumption].
Qed.

Lemma material_findFirst_snoc_fresh (tid : Id) (db : DB) (row : Material.t)
      (us : list User.t) (ts : list Tenant.t) (txs : list Transaction.t) :
  Material.id row = freshId (map Material.id (materials db)) ->
  Material.tenantId row = tid ->
  Material.deletedAt row = None ->
  prisma.material_findFirst (Material.id row) tid
                            (mkDB ts us (materials db ++ [row]) txs)
  = Some row.
Proof.
  intros Hid Ht Hd. unfold prisma.material_findFirst. simpl.
  rewrite find_snoc.
  destruct (find _ (materials db)) as [m|] eqn:E.
  - exfalso. apply find_some in E. destruct E as [Hin Hb].
    rewrite !andb_true_iff in Hb. destruct Hb as [[Hi _] _]. apply Nat.eqb_eq in Hi.
    apply (freshId_not_in (map Material.id (materials db))).
    rewrite <- Hid, <- Hi. now apply in_map.
  - simpl. rewrite Ht, !Nat.eqb_refl. unfold Material.live. rewrite Hd. reflexivity.
Qed.

Lemma createMaterial_created (ctx : Context) (req : Request) (db : DB) :
  status (fst (createMaterial ctx req db)) = 201 ->
  exists name unit,
    let row := Material.mk (freshId (map Material.id (materials db)))
                           (Tenant.id (tenant ctx)) name unit 0 None in
    createMaterialSchema (body req) = Some (name, unit)
    /\ createMaterial ctx req db
       = (mkResponse 201 (MaterialJson row),
          mkDB (tenants db) (users db) (materials db ++ [row]) (transactions db)).
Proof.
  unfold createMaterial.
  destruct (createMaterialSchema (body req)) as [[name unit]|]; [|discriminate].
  destruct (_ && _); [discriminate|].
  unfold prisma.material_create.
  destruct (negb _); [discriminate|].
  destruct (existsb _ (materials db)); [discriminate|].
  intros _. exists name, unit. split; reflexivity.
Qed.

(** X7.  A material that [createMaterial] has just created is found by a
    lookup under the id of the answer, with stock 0 and no transaction, and
    it is the first entry of the tenant's listing. *)
Theorem created_material_is_visible
        (col : Collation) (ctx : Context) (req req' : Request) (db : DB)
        (m : Material.t) :
  referential db ->
  fst (createMaterial ctx req db) = mkResponse 201 (MaterialJson m) ->
  params_id req' = Material.id m ->
  let db' := snd (createMaterial ctx req db) in
  getMaterialById ctx req' db'
  = (mkResponse 200 (MaterialWithTransactionsJson m []), db')
  /\ Material.currentStock m = 0%Q
  /\ exists older,
       fst (listMaterials col no_filter ctx req db) = MaterialsReply older
       /\ fst (listMaterials col no_filter ctx req' db') = MaterialsReply (m :: older).
Proof.
  intros Href Hresp Hp db'. subst db'.
  assert (Hst : status (fst (createMaterial ctx req db)) = 201) by now rewrite Hresp.
  destruct (createMaterial_created ctx req db Hst) as [name [unit [_ Hrun]]].
  cbv zeta in Hrun. rewrite Hrun in Hresp |- *. simpl in Hresp.
  injection Hresp as <-. simpl in Hp. simpl.
  split; [|split].
  - unfold getMaterialById. rewrite Hp.
    pose proof (@material_findFirst_snoc_fresh
                  (Tenant.id (tenant ctx)) db
                  (Material.mk (freshId (map Material.id (materials db)))
                               (Tenant.id (tenant ctx)) name unit 0 None)
                  (users db) (tenants db) (transactions db)
                  eq_refl eq_refl eq_refl) as Hfind.
    simpl in Hfind. rewrite Hfind.
    unfold prisma.recent_transactions. simpl.
    pose proof (fresh_material_history Href) as Hh.
    unfold history, prisma.transactions_of in *. simpl. rewrite Hh. reflexivity.
  - reflexivity.
  - eexists. split; [reflexivity|].
    unfold listMaterials, material_findMany. simpl.
    rewrite filter_app, rev_app_distr. simpl.
    unfold selected at 1. simpl. rewrite Nat.eqb_refl. reflexivity.
Qed.

Lemma created_material_is_visible_witness :
  let created := Material.mk 2 1 "copper" "kg" 0 None in
  getMaterialById as_alice (request 1 2 [])
                  (snd (createMaterial as_alice
                          (request 1 0 (material_body "copper" "kg")) acme_steel))
  = (mkResponse 200 (MaterialWithTransactionsJson created []),
     snd (createMaterial as_alice (request 1 0 (material_body "copper" "kg")) acme_steel)).
Proof.
  intro created.
  refine (proj1 (@created_material_is_visible
                   ascii_collation as_alice
                   (request 1 0 (material_body "copper" "kg")) (request 1 2 [])
                   acme_steel created _ _ _)).
  - intros t [<-|[]]. simpl. left. reflexivity.
  - reflexivity.
  - reflexivity.
Defined.

(** ** Soft delete and movements, seen by the other handlers *)

(** X8.  Once a material is soft-deleted, a lookup answers 404, a movement on
    it is refused without any write (404 when its body is valid), and no
    listing shows it, whatever the filters; its transaction history stays in
    the store. *)
Theorem soft_deleted_material_is_out_of_reach
        (col : Collation) (query : MaterialQuery)
        (ctx : Context) (req req' : Request) (db : DB) (material : Material.t) :
  prisma.material_findFirst (params_id req) (Tenant.id (tenant ctx)) db = Some material ->
  params_id req' = params_id req ->
  let db' := snd (softDeleteMaterial ctx req db) in
  getMaterialById ctx req' db'
  = (mkResponse 404 (ErrorJson "Not Found" NotFoundOrForeignMessage), db')
  /\ snd (createTransaction ctx req' db') = db'
  /\ (createTransactionSchema (body req') <> None ->
      fst (createTransaction ctx req' db')
      = mkResponse 404 (ErrorJson "Not Found" NotFoundOrForeignMessage))
  /\ (forall l m, fst (listMaterials col query ctx req' db') = MaterialsReply l ->
                  In m l -> Material.id m <> params_id req)
  /\ history db' (params_id req) = history db (params_id req).
Proof.
  intros Hf Hp db'.
  assert (Hdb' : db' = deleted_store (params_id req) (now req) db).
  { subst db'. unfold softDeleteMaterial. rewrite Hf.
    pose proof (material_findFirst_Some _ _ _ Hf) as [Hin [Hid _]].
    unfold prisma.material_update.
    destruct (find _ (materials db)) as [m0|] eqn:E; [reflexivity|].
    pose proof (find_none _ _ E material Hin) as Hn. simpl in Hn.
    rewrite Hid, Nat.eqb_refl in Hn. discriminate. }
  assert (Hnone : prisma.material_findFirst (params_id req') (Tenant.id (tenant ctx)) db'
                  = None).
  { rewrite Hdb', Hp. apply material_findFirst_deleted. }
  split; [|split; [|split; [|split]]].
  - unfold getMaterialById. rewrite Hnone. reflexivity.
  - unfold createTransaction, createTransaction_read. rewrite Hnone.
    destruct (createTransactionSchema (body req')) as [[ty q]|]; reflexivity.
  - intro Hvalid. unfold createTransaction, createTransaction_read. rewrite Hnone.
    destruct (createTransactionSchema (body req')) as [[ty q]|];
      [reflexivity|congruence].
  - intros l m Hl Hin Hid.
    destruct (@listed_material_is_own_and_live col query ctx req' db' l m Hl Hin)
      as [Hm [_ Hlive]].
    rewrite Hdb' in Hm. simpl in Hm. apply update_rows_In in Hm.
    destruct Hm as [m0 [_ [[_ ->]|[Hne ->]]]].
    + simpl in Hlive. discriminate.
    + contradiction.
  - rewrite Hdb'. reflexivity.
Qed.

Lemma soft_deleted_material_is_out_of_reach_witness :
  let db' := snd (softDeleteMaterial as_alice (request 1 1 []) acme_steel) in
  getMaterialById as_alice (request 1 1 []) db'
  = (mkResponse 404 (ErrorJson "Not Found" NotFoundOrForeignMessage), db')
  /\ fst (createTransaction as_bob (request 2 1 (movement_body IN 5)) db')
     = mkResponse 404 (ErrorJson "Not Found" NotFoundOrForeignMessage).
Proof.
  intro db'. split.
  - apply (@soft_deleted_material_is_out_of_reach
             ascii_collation no_filter as_alice (request 1 1 []) (request 1 1 [])
             acme_steel steel eq_refl eq_refl).
  - refine (proj1 (proj2 (proj2 (@soft_deleted_material_is_out_of_reach
                                   ascii_collation no_filter as_alice (request 1 1 [])
                                   (request 2 1 (movement_body IN 5))
                                   acme_steel steel eq_refl eq_refl))) _).
    discriminate.
Defined.

(** X9.  After a successful movement a lookup of the material returns the new
    stock, and the movement is the first row of the returned history. *)
Theorem movement_is_visible_in_lookup
        (ctx : Context) (req req' : Request) (db : DB)
        (type : TransactionType) (quantity : Q) (material : Material.t) :
  tenantAuthMiddleware req db = inr ctx ->
  movement_request req type quantity ->
  (0 < quantity)%Q ->
  prisma.material_findFirst (params_id req) (Tenant.id (tenant ctx)) db = Some material ->
  (type = OUT -> quantity <= Material.currentStock material)%Q ->
  params_id req' = params_id req ->
  let db' := snd (createTransaction ctx req db) in
  exists m' tx older,
    getMaterialById ctx req' db'
    = (mkResponse 200 (MaterialWithTransactionsJson m' (tx :: older)), db')
    /\ fst (createTransaction ctx req db)
       = mkResponse 201 (MovementJson (Material.id m') (Material.currentStock m') tx)
    /\ Material.currentStock m'
       = post_stock type (Material.currentStock material) quantity
    /\ Transaction.type tx = type
    /\ Transaction.quantity tx = quantity
    /\ older = firstn 9 (rev (history db (params_id req))).
Proof.
  intros Hauth Hreq Hpos Hf Hout Hp db'.
  pose proof (@createTransaction_success _ _ _ _ _ _ Hauth Hreq Hpos Hf Hout) as Hok.
  cbv zeta in Hok. subst db'. rewrite Hok. simpl.
  pose proof (material_findFirst_Some _ _ _ Hf) as [_ [Hid _]].
  set (post := post_stock type (Material.currentStock material) quantity) in *.
  set (mv := mkMovement _ _ _ _ _ _) in *.
  exists (prisma.assign (prisma.data_currentStock post) material),
         (movement_row mv db),
         (firstn 9 (rev (history db (params_id req)))).
  split; [|split; [|repeat split]].
  - unfold getMaterialById. rewrite Hp.
    pose proof (@material_findFirst_update_stock
                  _ _ post db _ (transactions db ++ [movement_row mv db]) Hf) as Hfind.
    unfold movement_store. simpl. simpl in Hfind. rewrite Hfind.
    unfold prisma.recent_transactions, prisma.transactions_of. simpl.
    rewrite Hid, filter_app. simpl. rewrite Nat.eqb_refl.
    rewrite rev_app_distr. reflexivity.
  - simpl. rewrite Hid. reflexivity.
Qed.

Lemma movement_is_visible_in_lookup_witness :
  let db' := snd (createTransaction as_bob (request 2 1 (movement_body OUT 30))
                                    acme_steel) in
  exists m' tx older,
    getMaterialById as_bob (request 2 1 []) db'
    = (mkResponse 200 (MaterialWithTransactionsJson m' (tx :: older)), db')
    /\ fst (createTransaction as_bob (request 2 1 (movement_body OUT 30)) acme_steel)
       = mkResponse 201 (MovementJson (Material.id m') (Material.currentStock m') tx)
    /\ Material.currentStock m' = post_stock OUT 100 30
    /\ Transaction.type tx = OUT
    /\ Transaction.quantity tx = 30%Q
    /\ older = firstn 9 (rev (history acme_steel 1)).
Proof.
  apply (@movement_is_visible_in_lookup
           as_bob (request 2 1 (movement_body OUT 30)) (request 2 1 []) acme_steel
           OUT 30 steel).
  - reflexivity.
  - split; reflexivity.
  - reflexivity.
  - reflexivity.
  - intros _. vm_compute. discriminate.
  - reflexivity.
Defined.

(** ** Soundness of the stores that operations produce *)

Lemma update_rows_keys (i : Id) (d : prisma.MaterialData) (rows : list Material.t) :
  map (fun m => (Material.tenantId m, Material.name m)) (prisma.update_rows i d rows)
  = map (fun m => (Material.tenantId m, Material.name m)) rows.
Proof.
  unfold prisma.update_rows. rewrite map_map. apply map_ext. intro m.
  destruct (Material.id m =? i); [destruct d|]; reflexivity.
Qed.

Lemma update_rows_absent (i : Id) (d : prisma.MaterialData) (rows : list Material.t) :
  ~ In i (map Material.id rows) -> prisma.update_rows i d rows = rows.
Proof.
  intro Hn. unfold prisma.update_rows. induction rows as [|x rows IH]; [reflexivity|].
  simpl in *. destruct (Material.id x =? i) eqn:E.
  - apply Nat.eqb_eq in E. tauto.
  - f_equal. apply IH. tauto.
Qed.

Lemma same_id_same_row (rows : list Material.t) (a b : Material.t) :
  NoDup (map Material.id rows) -> In a rows -> In b rows ->
  Material.id a = Material.id b -> a = b.
Proof.
  induction rows as [|x rows IH]; simpl; [tauto|].
  intros Hnd Ha Hb Heq. apply NoDup_cons_iff in Hnd. destruct Hnd as [Hx Hnd].
  destruct Ha as [<-|Ha], Hb as [<-|Hb]; auto.
  - exfalso. apply Hx. rewrite Heq. now apply in_map.
  - exfalso. apply Hx. rewrite <- Heq. now apply in_map.
Qed.

Lemma stock_sum_cons (tid : Id) (x : Material.t) (rows : list Material.t) :
  stock_sum tid (x :: rows)
  = if Material.tenantId x =? tid
    then (Material.currentStock x + stock_sum tid rows)%Q
    else stock_sum tid rows.
Proof.
  unfold stock_sum. simpl. destruct (Material.tenantId x =? tid); reflexivity.
Qed.

Lemma stock_sum_app (tid : Id) (l1 l2 : list Material.t) :
  (stock_sum tid (l1 ++ l2) == stock_sum tid l1 + stock_sum tid l2)%Q.
Proof.
  induction l1 as [|x l1 IH]; simpl.
  - unfold stock_sum at 2. simpl. ring.
  - rewrite !stock_sum_cons. destruct (Material.tenantId x =? tid).
    + rewrite IH. ring.
    + exact IH.
Qed.

Lemma stock_sum_restock (tid i : Id) (newStock : Q) (rows : list Material.t)
      (material : Material.t) :
  NoDup (map Material.id rows) -> In material rows -> Material.id material = i ->
  (stock_sum tid (prisma.update_rows i (prisma.data_currentStock newStock) rows)
   == stock_sum tid rows
      + (if Material.tenantId material =? tid
         then newStock - Material.currentStock material else 0))%Q.
Proof.
  intros Hnd Hin Hid. induction rows as [|x rows IH]; [destruct Hin|].
  simpl in Hnd. apply NoDup_cons_iff in Hnd. destruct Hnd as [Hx Hnd].
  destruct Hin as [->|Hin].
  - change (prisma.update_rows i (prisma.data_currentStock newStock) (material :: rows))
      with ((if Material.id material =? i
             then prisma.assign (prisma.data_currentStock newStock) material
             else material)
              :: prisma.update_rows i (prisma.data_currentStock newStock) rows).
    rewrite update_rows_absent by (rewrite <- Hid; exact Hx).
    rewrite Hid, Nat.eqb_refl, !stock_sum_cons. simpl.
    destruct (Material.tenantId material =? tid); ring.
  - assert (Hne : Material.id x <> i).
    { intro He. apply Hx. rewrite He, <- Hid. now apply in_map. }
    change (prisma.update_rows i (prisma.data_currentStock newStock) (x :: rows))
      with ((if Material.id x =? i
             then prisma.assign (prisma.data_currentStock newStock) x else x)
              :: prisma.update_rows i (prisma.data_currentStock newStock) rows).
    apply Nat.eqb_neq in Hne. rewrite Hne, !stock_sum_cons.
    specialize (IH Hnd Hin).
    destruct (Material.tenantId x =? tid); rewrite IH; ring.
Qed.

Lemma stock_sum_deleted (tid i : Id) (date : Timestamp) (rows : list Material.t) :
  stock_sum tid (prisma.update_rows i (prisma.data_deletedAt date) rows)
  = stock_sum tid rows.
Proof.
  induction rows as [|x rows IH]; [reflexivity|].
  change (prisma.update_rows i (prisma.data_deletedAt date) (x :: rows))
    with ((if Material.id x =? i
           then prisma.assign (prisma.data_deletedAt date) x else x)
            :: prisma.update_rows i (prisma.data_deletedAt date) rows).
  rewrite !stock_sum_cons, IH. destruct (Material.id x =? i); reflexivity.
Qed.

Lemma replays_app (acc : Q) (l : list Transaction.t) (t : Transaction.t) :
  replays acc l ->
  (Transaction.preTransactionStock t == acc + ledgerSum l)%Q ->
  (0 <= Transaction.preTransactionStock t)%Q ->
  replays acc (l ++ [t]).
Proof.
  revert acc. induction l as [|x l IH]; intros acc Hl Ht Hpos; simpl in *.
  - split; [|split; [exact Hpos|exact I]]. rewrite Ht. ring.
  - destruct Hl as [Hx [Hxpos Hl]]. split; [exact Hx|]. split; [exact Hxpos|].
    apply IH; [exact Hl| |exact Hpos]. rewrite Ht. ring.
Qed.

Lemma createMaterial_effect (ctx : Context) (req : Request) (db : DB) :
  snd (createMaterial ctx req db) = db
  \/ exists name unit,
       let row := Material.mk (freshId (map Material.id (materials db)))
                              (Tenant.id (tenant ctx)) name unit 0 None in
       existsb (fun t => Tenant.id t =? Tenant.id (tenant ctx)) (tenants db) = true
       /\ existsb (fun m => (Material.tenantId m =? Tenant.id (tenant ctx))
                            && String.eqb (Material.name m) name) (materials db) = false
       /\ (Tenant.plan (tenant ctx) = FREE ->
           prisma.material_count (Tenant.id (tenant ctx)) db < MAX_FREE_MATERIALS)
       /\ snd (createMaterial ctx req db)
          = mkDB (tenants db) (users db) (materials db ++ [row]) (transactions db).
Proof.
  unfold createMaterial.
  destruct (createMaterialSchema (body req)) as [[name unit]|]; [|now left].
  destruct (_ && _) eqn:Egate; [now left|].
  unfold prisma.material_create.
  destruct (existsb _ (tenants db)) eqn:Et; [|now left]. simpl.
  destruct (existsb _ (materials db)) eqn:En; [now left|].
  right. exists name, unit. cbv zeta.
  split; [assumption || reflexivity|]. split; [assumption || reflexivity|].
  split; [|reflexivity].
  intro Hfree. rewrite Hfree in Egate. simpl in Egate. now apply Nat.leb_gt.
Qed.

Lemma softDeleteMaterial_effect (ctx : Context) (req : Request) (db : DB) :
  snd (softDeleteMaterial ctx req db) = db
  \/ exists material,
       prisma.material_findFirst (params_id req) (Tenant.id (tenant ctx)) db
       = Some material
       /\ snd (softDeleteMaterial ctx req db)
          = deleted_store (params_id req) (now req) db.
Proof.
  unfold softDeleteMaterial.
  destruct (prisma.material_findFirst _ _ db) as [material|]; [|now left].
  unfold prisma.material_update.
  destruct (find _ (materials db)); [|now left].
  right. exists material. split; reflexivity.
Qed.

Lemma update_rows_keeps_rows (i : Id) (d : prisma.MaterialData)
      (rows : list Material.t) (m : Material.t) :
  In m rows ->
  exists m', In m' (prisma.update_rows i d rows)
             /\ Material.id m' = Material.id m
             /\ Material.tenantId m' = Material.tenantId m.
Proof.
  intro Hin. exists (if Material.id m =? i then prisma.assign d m else m).
  split.
  - unfold prisma.update_rows.
    apply (in_map (fun x => if Material.id x =? i then prisma.assign d x else x)).
    exact Hin.
  - destruct (Material.id m =? i); [destruct d|]; simpl; auto.
Qed.

Lemma transactions_sound_update (i : Id) (d : prisma.MaterialData) (db : DB) :
  transactions_sound db ->
  forall t, In t (transactions db) ->
            (0 < Transaction.quantity t)%Q
            /\ exists m, In m (prisma.update_rows i d (materials db))
                         /\ Material.id m = Transaction.materialId t
                         /\ Material.tenantId m = Transaction.tenantId t.
Proof.
  intros Hs t Hin. destruct (Hs t Hin) as [Hq [m [Hm [Hid Ht]]]].
  split; [exact Hq|].
  destruct (update_rows_keeps_rows i d _ _ Hm) as [m' [Hm' [Hid' Ht']]].
  exists m'. repeat split; congruence.
Qed.

Lemma empty_store_is_sound (ts : list Tenant.t) (us : list User.t) :
  ledger_sound (mkDB ts us [] []).
Proof.
  constructor; simpl.
  - intros t [].
  - intros m [].
  - constructor.
  - constructor.
  - constructor.
  - intros t [].
  - intro i. exact I.
  - intro tid. reflexivity.
Qed.

Lemma ledger_sound_createMaterial (ctx : Context) (req : Request) (db : DB) :
  ledger_sound db -> ledger_sound (snd (createMaterial ctx req db)).
Proof.
  intro Hs.
  pose proof (referential_createMaterial ctx req (sound_referential Hs)) as Href.
  pose proof (consistent_createMaterial ctx req (sound_referential Hs)
                                        (sound_consistent Hs)) as Hcons.
  destruct (createMaterial_effect ctx req db)
    as [Hsame|[name [unit [_ [Hname [_ Hrun]]]]]].
  { rewrite Hsame. exact Hs. }
  cbv zeta in Hrun. rewrite Hrun in *.
  constructor; simpl; try assumption.
  - unfold unique_material_ids. simpl. rewrite map_app. simpl.
    apply NoDup_app.
    + apply (sound_material_ids Hs).
    + constructor; [intros []|constructor].
    + intros a Ha [<-|[]]. now apply (freshId_not_in (map Material.id (materials db))).
  - unfold unique_material_names. simpl. rewrite map_app. simpl.
    apply NoDup_app.
    + apply (sound_material_names Hs).
    + constructor; [intros []|constructor].
    + intros a Ha [<-|[]]. apply in_map_iff in Ha. destruct Ha as [m [Hkey Hm]].
      injection Hkey as Ht Hn.
      pose proof (existsb_exists
                    (fun m0 => (Material.tenantId m0 =? Tenant.id (tenant ctx))
                               && String.eqb (Material.name m0) name)
                    (materials db)) as [_ Hex].
      rewrite Hex in Hname; [discriminate|].
      exists m. split; [exact Hm|].
      rewrite Ht, Hn, Nat.eqb_refl, String.eqb_refl. reflexivity.
  - apply (sound_transaction_ids Hs).
  - intros t Hin. destruct (sound_transactions Hs t Hin) as [Hq [m [Hm Hrest]]].
    split; [exact Hq|]. exists m. split; [|exact Hrest].
    simpl. apply in_or_app. now left.
  - exact (sound_audited Hs).
  - intro tid. unfold total_stock. simpl. rewrite stock_sum_app.
    rewrite stock_sum_cons. unfold tenant_ledger. simpl.
    pose proof (sound_totals Hs tid) as Htot. unfold total_stock, tenant_ledger in Htot.
    rewrite <- Htot. simpl.
    destruct (Tenant.id (tenant ctx) =? tid); unfold stock_sum; simpl; ring.
Qed.

Lemma ledger_sound_softDeleteMaterial (ctx : Context) (req : Request) (db : DB) :
  ledger_sound db -> ledger_sound (snd (softDeleteMaterial ctx req db)).
Proof.
  intro Hs.
  pose proof (referential_softDeleteMaterial ctx req (sound_referential Hs)) as Href.
  pose proof (consistent_softDeleteMaterial ctx req (sound_consistent Hs)) as Hcons.
  destruct (softDeleteMaterial_cases ctx req db) as [Hsame|Hrun].
  { rewrite Hsame. exact Hs. }
  rewrite Hrun in *.
  constructor; simpl; try assumption.
  - unfold unique_material_ids. simpl. rewrite update_rows_ids.
    apply (sound_material_ids Hs).
  - unfold unique_material_names. simpl. rewrite update_rows_keys.
    apply (sound_material_names Hs).
  - apply (sound_transaction_ids Hs).
  - intros t Hin. simpl in *. apply transactions_sound_update; [|exact Hin].
    apply (sound_transactions Hs).
  - exact (sound_audited Hs).
  - intro tid. unfold total_stock. simpl. rewrite stock_sum_deleted.
    apply (sound_totals Hs tid).
Qed.

Lemma ledger_sound_createTransaction (ctx : Context) (req : Request) (db : DB) :
  ledger_sound db -> ledger_sound (snd (createTransaction ctx req db)).
Proof.
  intro Hs.
  pose proof (referential_createTransaction ctx req (sound_referential Hs)) as Href.
  pose proof (consistent_createTransaction ctx req (sound_consistent Hs)) as Hcons.
  destruct (createTransaction_cases ctx req db) as [Hsame|[mv [Hread Hrun]]].
  { rewrite Hsame. exact Hs. }
  rewrite Hrun in *.
  apply createTransaction_read_inr in Hread.
  destruct Hread as [type [quantity [material [Hschema [Hf [Hout ->]]]]]].
  apply createTransactionSchema_positive in Hschema.
  pose proof (material_findFirst_Some _ _ _ Hf) as [Hin [Hid [Htid _]]].
  destruct (sound_consistent Hs material Hin) as [Hsum Hnonneg]. rewrite Hid in Hsum.
  constructor; simpl; try assumption.
  - unfold unique_material_ids. simpl. rewrite update_rows_ids.
    apply (sound_material_ids Hs).
  - unfold unique_material_names. simpl. rewrite update_rows_keys.
    apply (sound_material_names Hs).
  - rewrite map_app. simpl. apply NoDup_app.
    + apply (sound_transaction_ids Hs).
    + constructor; [intros []|constructor].
    + intros a Ha [<-|[]].
      now apply (freshId_not_in (map Transaction.id (transactions db))).
  - intros t Ht. simpl in Ht. apply in_app_or in Ht. destruct Ht as [Ht|[<-|[]]].
    + apply transactions_sound_update; [|exact Ht]. apply (sound_transactions Hs).
    + simpl. split; [exact Hschema|].
      destruct (update_rows_keeps_rows
                  (params_id req)
                  (prisma.data_currentStock
                     (post_stock type (Material.currentStock material) quantity))
                  _ _ Hin) as [m' [Hm' [Hid' Ht']]].
      exists m'. repeat split; congruence.
  - intro i. rewrite history_movement_store. simpl.
    destruct (params_id req =? i) eqn:E.
    + apply Nat.eqb_eq in E. subst i. apply replays_app.
      * apply (sound_audited Hs).
      * simpl. rewrite Hsum. ring.
      * exact Hnonneg.
    + rewrite app_nil_r. apply (sound_audited Hs).
  - intro tid. unfold total_stock, tenant_ledger. simpl.
    rewrite (@stock_sum_restock
               tid (params_id req)
               (post_stock type (Material.currentStock material) quantity)
               (materials db) material (sound_material_ids Hs) Hin Hid).
    rewrite filter_app, ledgerSum_app. simpl.
    pose proof (sound_totals Hs tid) as Htot. unfold total_stock, tenant_ledger in Htot.
    rewrite Htot, Htid.
    destruct (Tenant.id (tenant ctx) =? tid); simpl.
    + unfold signed. simpl. destruct type; simpl; ring.
    + ring.
Qed.

Lemma ledger_sound_perform (op : Operation) (db : DB) :
  ledger_sound db -> ledger_sound (snd (perform op db)).
Proof.
  destruct op; simpl.
  - apply ledger_sound_createMaterial.
  - apply ledger_sound_createTransaction.
  - apply ledger_sound_softDeleteMaterial.
Qed.

Lemma reachable_ledger_sound (db : DB) : reachable db -> ledger_sound db.
Proof.
  induction 1 as [ts us|db op _ IH].
  - apply empty_store_is_sound.
  - now apply ledger_sound_perform.
Qed.

(** ** What holds in every store that operations produce *)

(** X10.  Keys stay unique: no two materials share an id, no two materials of
    one tenant share a name (soft-deleted rows included), and no two
    transactions share an id. *)
Theorem reachable_keys_are_unique (db : DB) :
  reachable db ->
  NoDup (map Material.id (materials db))
  /\ NoDup (map (fun m => (Material.tenantId m, Material.name m)) (materials db))
  /\ NoDup (map Transaction.id (transactions db)).
Proof.
  intro Hr. pose proof (reachable_ledger_sound Hr) as Hs.
  split; [apply (sound_material_ids Hs)|].
  split; [apply (sound_material_names Hs)|apply (sound_transaction_ids Hs)].
Qed.

Lemma acme_steel_reachable : reachable acme_steel.
Proof.
  change acme_steel
    with (snd (perform (op_createTransaction as_bob
                          (request 2 1 (movement_body IN 100)))
                 (snd (perform (op_createMaterial as_alice
                                  (request 1 0 (material_body "steel" "kg")))
                         acme_empty)))).
  apply reachable_perform. apply reachable_perform. apply reachable_empty.
Defined.

Lemma reachable_keys_are_unique_witness :
  NoDup (map Material.id (materials acme_steel))
  /\ NoDup (map (fun m => (Material.tenantId m, Material.name m)) (materials acme_steel))
  /\ NoDup (map Transaction.id (transactions acme_steel)).
Proof.
  apply (@reachable_keys_are_unique acme_steel). exact acme_steel_reachable.
Defined.

(** X11.  Every transaction moves a positive quantity and names a material
    that exists and belongs to the tenant recorded in the transaction. *)
Theorem reachable_transactions_are_sound (db : DB) (t : Transaction.t) :
  reachable db -> In t (transactions db) ->
  (0 < Transaction.quantity t)%Q
  /\ exists m, In m (materials db)
               /\ Material.id m = Transaction.materialId t
               /\ Material.tenantId m = Transaction.tenantId t.
Proof.
  intros Hr Hin. exact (sound_transactions (reachable_ledger_sound Hr) t Hin).
Qed.

Lemma reachable_transactions_are_sound_witness :
  (0 < 100)%Q
  /\ exists m, In m (materials acme_steel)
               /\ Material.id m = 1 /\ Material.tenantId m = 1.
Proof.
  apply (@reachable_transactions_are_sound acme_steel (Transaction.mk 1 1 1 IN 100 0)).
  - exact acme_steel_reachable.
  - left. reflexivity.
Defined.

(** X13.  An operation of one tenant leaves the materials of every other
    tenant as they are, adds only transactions of its own tenant, and does
    not touch the tenant and user tables. *)
Theorem other_tenants_are_untouched (op : Operation) (db : DB) :
  reachable db ->
  let db' := snd (perform op db) in
  (forall m, Material.tenantId m <> operation_tenant op ->
             (In m (materials db') <-> In m (materials db)))
  /\ (forall t, In t (transactions db') ->
                In t (transactions db) \/ Transaction.tenantId t = operation_tenant op)
  /\ tenants db' = tenants db
  /\ users db' = users db.
Proof.
  intros Hr db'. pose proof (sound_material_ids (reachable_ledger_sound Hr)) as Hnd.
  assert (Hupd : forall i d material,
             In material (materials db) -> Material.id material = i ->
             Material.tenantId material = operation_tenant op ->
             forall m, Material.tenantId m <> operation_tenant op ->
                       (In m (prisma.update_rows i d (materials db))
                        <-> In m (materials db))).
  { intros i d material Hin Hid Htid m Hm. split.
    - intro H. apply update_rows_In in H. destruct H as [m0 [Hm0 [[Hi ->]|[_ ->]]]];
        [|exact Hm0].
      exfalso. apply Hm.
      assert (m0 = material)
        by (apply (@same_id_same_row (materials db) m0 material Hnd); congruence).
      subst m0. destruct d; simpl; exact Htid.
    - intro H. unfold prisma.update_rows. apply in_map_iff. exists m. split; [|exact H].
      destruct (Material.id m =? i) eqn:E; [|reflexivity].
      exfalso. apply Nat.eqb_eq in E. apply Hm.
      assert (m = material)
        by (apply (@same_id_same_row (materials db) m material Hnd); congruence).
      subst m. exact Htid. }
  assert (Hsame : (forall m, Material.tenantId m <> operation_tenant op ->
                             (In m (materials db) <-> In m (materials db)))
                  /\ (forall t, In t (transactions db) ->
                                In t (transactions db)
                                \/ Transaction.tenantId t = operation_tenant op)
                  /\ tenants db = tenants db /\ users db = users db).
  { split; [tauto|]. split; [tauto|]. split; reflexivity. }
  subst db'. destruct op as [ctx req|ctx req|ctx req]; simpl in *.
  - destruct (createMaterial_effect ctx req db)
      as [->|[name [unit [_ [_ [_ ->]]]]]]; [exact Hsame|]. simpl.
    split; [|split; [tauto|split; reflexivity]].
    intros m Hm. split.
    + intro H. apply in_app_or in H. destruct H as [H|[<-|[]]]; [exact H|].
      simpl in Hm. congruence.
    + intro H. apply in_or_app. now left.
  - destruct (createTransaction_cases ctx req db) as [->|[mv [Hread ->]]];
      [exact Hsame|].
    apply createTransaction_read_inr in Hread.
    destruct Hread as [type [quantity [material [_ [Hf [_ ->]]]]]].
    pose proof (material_findFirst_Some _ _ _ Hf) as [Hin [Hid [Htid _]]].
    simpl. split; [|split; [|split; reflexivity]].
    + intros m Hm. apply (Hupd _ _ material Hin Hid Htid m Hm).
    + intros t Ht. apply in_app_or in Ht. destruct Ht as [Ht|[<-|[]]]; auto.
  - destruct (softDeleteMaterial_effect ctx req db) as [->|[material [Hf ->]]];
      [exact Hsame|].
    pose proof (material_findFirst_Some _ _ _ Hf) as [Hin [Hid [Htid _]]].
    simpl. split; [|split; [tauto|split; reflexivity]].
    intros m Hm. apply (Hupd _ _ material Hin Hid Htid m Hm).
Qed.

Lemma other_tenants_are_untouched_witness :
  let db' := snd (perform (op_softDeleteMaterial as_alice (request 1 1 []))
                          acme_steel) in
  (forall m, Material.tenantId m <> 1 ->
             (In m (materials db') <-> In m (materials acme_steel)))
  /\ (forall t, In t (transactions db') ->
                In t (transactions acme_steel) \/ Transaction.tenantId t = 1)
  /\ tenants db' = tenants acme_steel
  /\ users db' = users acme_steel.
Proof.
  apply (@other_tenants_are_untouched
           (op_softDeleteMaterial as_alice (request 1 1 [])) acme_steel).
  exact acme_steel_reachable.
Defined.

(** ** Analytics summary *)

Lemma two_tenants_reachable : reachable two_tenants.
Proof.
  pose (as_carol := mkContext globex carol).
  pose (start := mkDB [acme; globex] [alice; bob; carol] [] []).
  change two_tenants
    with (run_operations
            [op_createMaterial as_alice (request 1 0 (material_body "steel" "kg"));
             op_createMaterial as_alice (request 1 0 (material_body "Scrap Iron" "kg"));
             op_createMaterial as_carol (request 3 0 (material_body "copper" "t"));
             op_createTransaction as_bob (request 2 1 (movement_body IN 100));
             op_softDeleteMaterial as_alice (mkRequest (Some 1) (Some 1) 2 [] 7);
             op_createTransaction as_carol (request 3 3 (movement_body IN 8));
             op_createTransaction as_carol (request 3 3 (movement_body OUT 3))]
            start).
  apply run_operations_reachable. apply reachable_empty.
Defined.

(** ** Tenant provisioning *)

Lemma createTenant_effect (z : string -> bool) (b : TenantBody) (db : DB) :
  (snd (createTenant z b db) = db
   /\ forall tid uid name plan, fst (createTenant z b db) <> TenantReply tid uid name plan)
  \/ exists name plan email userName,
       let newTenant := Tenant.mk (freshId (map Tenant.id (tenants db))) name plan in
       let adminUser := User.mk (freshId (map User.id (users db))) (Tenant.id newTenant)
                                email userName ADMIN in
       tenantSchema (fields b) = Some (name, plan)
       /\ userSchema z (admin b) = Some (email, userName)
       /\ createTenant z b db
          = (TenantReply (Tenant.id newTenant) (User.id adminUser) name plan,
             mkDB (tenants db ++ [newTenant]) (users db ++ [adminUser])
                  (materials db) (transactions db)).
Proof.
  unfold createTenant.
  destruct (tenantSchema (fields b)) as [[name plan]|];
    [|left; split; [reflexivity|discriminate]].
  destruct (userSchema z (admin b)) as [[email userName]|];
    [|left; split; [reflexivity|discriminate]].
  unfold tenant_create.
  destruct (existsb _ (tenants db)); [left; split; [reflexivity|discriminate]|].
  destruct (existsb _ (users db)); [left; split; [reflexivity|discriminate]|].
  right. exists name, plan, email, userName. repeat split.
Qed.

Lemma tenant_findUnique_snoc_fresh (db : DB) (t : Tenant.t) (us : list User.t)
      (ms : list Material.t) (txs : list Transaction.t) :
  Tenant.id t = freshId (map Tenant.id (tenants db)) ->
  prisma.tenant_findUnique (Tenant.id t) (mkDB (tenants db ++ [t]) us ms txs) = Some t.
Proof.
  intro Hid. unfold prisma.tenant_findUnique. simpl. rewrite find_snoc.
  destruct (find _ (tenants db)) as [t0|] eqn:E.
  - exfalso. apply find_some in E. destruct E as [Hin Hb]. apply Nat.eqb_eq in Hb.
    apply (freshId_not_in (map Tenant.id (tenants db))).
    rewrite <- Hid, <- Hb. now apply in_map.
  - now rewrite Nat.eqb_refl.
Qed.

Lemma user_findFirst_snoc_fresh (db : DB) (u : User.t) (ts : list Tenant.t)
      (ms : list Material.t) (txs : list Transaction.t) :
  User.id u = freshId (map User.id (users db)) ->
  prisma.user_findFirst (User.id u) (User.tenantId u) (mkDB ts (users db ++ [u]) ms txs)
  = Some u.
Proof.
  intro Hid. unfold prisma.user_findFirst. simpl. rewrite find_snoc.
  destruct (find _ (users db)) as [u0|] eqn:E.
  - exfalso. apply find_some in E. destruct E as [Hin Hb].
    apply andb_true_iff in Hb. destruct Hb as [Hb _]. apply Nat.eqb_eq in Hb.
    apply (freshId_not_in (map User.id (users db))).
    rewrite <- Hid, <- Hb. now apply in_map.
  - now rewrite !Nat.eqb_refl.
Qed.

(** X15.  The ids that a successful [createTenant] returns authenticate: a
    request that carries them as headers passes [tenantAuthMiddleware] in the
    name of the new tenant, with the name and plan of the answer, and of a
    user whose role is ADMIN, so it also passes the ADMIN role check.  A
    tenant created without a [plan] member is on the FREE plan. *)
Theorem created_tenant_can_authenticate
        (z : string -> bool) (b : TenantBody) (db : DB) (req : Request)
        (tid uid : Id) (name : string) (plan : TenantPlan) :
  fst (createTenant z b db) = TenantReply tid uid name plan ->
  header_tenant_id req = Some tid ->
  header_user_id req = Some uid ->
  (field "plan" (fields b) = JUndefined -> plan = FREE)
  /\ exists ctx,
       tenantAuthMiddleware req (snd (createTenant z b db)) = inr ctx
       /\ Tenant.id (tenant ctx) = tid
       /\ Tenant.name (tenant ctx) = name
       /\ Tenant.plan (tenant ctx) = plan
       /\ User.id (user ctx) = uid
       /\ User.role (user ctx) = ADMIN
       /\ roleCheckMiddleware ADMIN ctx = None.
Proof.
  intros Hreply Ht Hu.
  destruct (createTenant_effect z b db)
    as [[_ Hno]|[name' [plan' [email [userName [Hts [_ Hrun]]]]]]].
  { now elim (Hno tid uid name plan). }
  cbv zeta in Hrun. rewrite Hrun in Hreply |- *. simpl in Hreply.
  injection Hreply as <- <- <- <-. simpl. split.
  - intro Hplan. unfold tenantSchema in Hts. rewrite Hplan in Hts.
    destruct (z_string_min 3 (field "name" (fields b))); [|discriminate].
    simpl in Hts. now injection Hts as _ <-.
  - eexists. split.
    + unfold tenantAuthMiddleware. rewrite Ht, Hu.
      pose proof (@tenant_findUnique_snoc_fresh
                    db (Tenant.mk (freshId (map Tenant.id (tenants db))) name' plan')
                    (users db
                     ++ [User.mk (freshId (map User.id (users db)))
                                 (freshId (map Tenant.id (tenants db)))
                                 email userName ADMIN])
                    (materials db) (transactions db) eq_refl) as Hfind.
      simpl in Hfind. rewrite Hfind.
      pose proof (@user_findFirst_snoc_fresh
                    db (User.mk (freshId (map User.id (users db)))
                                (freshId (map Tenant.id (tenants db)))
                                email userName ADMIN)
                    (tenants db
                     ++ [Tenant.mk (freshId (map Tenant.id (tenants db))) name' plan'])
                    (materials db) (transactions db) eq_refl) as Hfindu.
      simpl in Hfindu. rewrite Hfindu. reflexivity.
    + simpl. repeat split.
Qed.

Lemma created_tenant_can_authenticate_witness :
  exists ctx,
    tenantAuthMiddleware (request 1 0 [])
                         (snd (createTenant (z_email sample_env) acme_admin_body
                                            empty_store))
    = inr ctx
    /\ Tenant.id (tenant ctx) = 1
    /\ Tenant.name (tenant ctx) = "acme"
    /\ Tenant.plan (tenant ctx) = FREE
    /\ User.id (user ctx) = 1
    /\ User.role (user ctx) = ADMIN
    /\ roleCheckMiddleware ADMIN ctx = None.
Proof.
  apply (@created_tenant_can_authenticate
           (z_email sample_env) acme_admin_body empty_store (request 1 0 [])
           1 1 "acme" FREE); reflexivity.
Defined.

(** X16.  [createTenant] refuses a body that fails validation with 400, a
    tenant name that is taken with 409 and the tenant-name message, and,
    when the name is free, an admin e-mail address that any user of any
    tenant already has with 409 and the e-mail message.  A refused request
    leaves the store as it was. *)
Theorem createTenant_refusals
        (z : string -> bool) (b : TenantBody) (db : DB) :
  (tenantSchema (fields b) = None \/ userSchema z (admin b) = None ->
   createTenant z b db
   = (Plain (mkResponse 400 (ErrorJson "Validation Error" ValidationDetails)), db))
  /\ (forall name plan email userName,
         tenantSchema (fields b) = Some (name, plan) ->
         userSchema z (admin b) = Some (email, userName) ->
         (forall t, In t (tenants db) -> Tenant.name t = name ->
                    createTenant z b db
                    = (ErrorReply 409 "Conflict"
                         "The tenant name already exists. Please choose a different name.",
                       db))
         /\ ((forall t, In t (tenants db) -> Tenant.name t <> name) ->
             forall u, In u (users db) -> User.email u = email ->
                       createTenant z b db
                       = (ErrorReply 409 "Conflict"
                            "The admin email address provided is already in use globally. Please use a unique email.",
                          db))).
Proof.
  split.
  - unfold createTenant. intros [-> | Hu]; [reflexivity|].
    destruct (tenantSchema (fields b)) as [[name plan]|]; [|reflexivity].
    rewrite Hu. reflexivity.
  - intros name plan email userName Hts Hus. unfold createTenant. rewrite Hts, Hus.
    unfold tenant_create. split.
    + intros t Hin Hname.
      assert (He : existsb (fun t0 => String.eqb (Tenant.name t0) name) (tenants db)
                   = true).
      { apply existsb_exists. exists t. split; [exact Hin|].
        rewrite Hname. apply String.eqb_refl. }
      rewrite He. reflexivity.
    + intros Hfree u Hin Hemail.
      rewrite existsb_false_forall.
      * assert (He : existsb (fun u0 => String.eqb (User.email u0) email) (users db)
                     = true).
        { apply existsb_exists. exists u. split; [exact Hin|].
          rewrite Hemail. apply String.eqb_refl. }
        rewrite He. reflexivity.
      * intros t Ht. apply String.eqb_neq. now apply Hfree.
Qed.

(** ** The whole API *)

Lemma handle_effect (e : Endpoint) (req : Request) (db : DB) :
  snd (handle e req db) = db
  \/ exists ctx,
       tenantAuthMiddleware req db = inr ctx
       /\ (snd (handle e req db) = snd (createMaterial ctx req db)
           \/ snd (handle e req db) = snd (createTransaction ctx req db)
           \/ snd (handle e req db) = snd (softDeleteMaterial ctx req db)).
Proof.
  unfold handle.
  destruct (tenantAuthMiddleware req db) as [r|ctx] eqn:Hauth; [now left|].
  destruct e; simpl.
  - destruct (roleCheckMiddleware ADMIN ctx); [now left|]. right. exists ctx. auto.
  - left. unfold getMaterialById.
    destruct (prisma.material_findFirst _ _ db); reflexivity.
  - destruct (roleCheckMiddleware ADMIN ctx); [now left|]. right. exists ctx. auto.
  - right. exists ctx. auto.
Qed.

Lemma scoped_reads_only (controller : Context -> Request -> DB -> Reply * DB)
      (req : Request) (db : DB) :
  (forall ctx, snd (controller ctx req db) = db) ->
  snd (scoped controller req db) = db.
Proof.
  intro H. unfold scoped. destruct (tenantAuthMiddleware req db); [reflexivity|apply H].
Qed.

Lemma getAnalyticsSummary_reads_only (ctx : Context) (req : Request) (db : DB) :
  snd (getAnalyticsSummary ctx req db) = db.
Proof.
  unfold getAnalyticsSummary. destruct (negb _); reflexivity.
Qed.

(** What a request can do to the store. *)
Lemma api_effect (env : Environment) (r : ApiRequest) (db : DB) :
  snd (api env r db) = db
  \/ (exists op, snd (api env r db) = snd (perform op db))
  \/ (exists t u, snd (api env r db)
                  = mkDB (tenants db ++ [t]) (users db ++ [u])
                         (materials db) (transactions db)).
Proof.
  destruct r as [b|e req|query req|req]; simpl.
  - destruct (createTenant_effect (z_email env) b db)
      as [[H _]|[name [plan [email [userName [_ [_ H]]]]]]]; [now left|].
    right. right. cbv zeta in H. rewrite H. simpl. eauto.
  - destruct (handle_effect e req db) as [H|[ctx [_ [H|[H|H]]]]]; [now left| | |];
      right; left.
    + now exists (op_createMaterial ctx req).
    + now exists (op_createTransaction ctx req).
    + now exists (op_softDeleteMaterial ctx req).
  - left. apply scoped_reads_only. intro ctx. apply listMaterials_reads_only.
  - left. apply scoped_reads_only. intro ctx. apply getAnalyticsSummary_reads_only.
Qed.

Lemma ledger_sound_same_ledger (db db' : DB) :
  materials db' = materials db -> transactions db' = transactions db ->
  ledger_sound db -> ledger_sound db'.
Proof.
  destruct db as [ts us ms txs], db' as [ts' us' ms' txs']. simpl.
  intros -> -> [H1 H2 H3 H4 H5 H6 H7 H8]. constructor; assumption.
Qed.

Lemma ledger_sound_api (env : Environment) (r : ApiRequest) (db : DB) :
  ledger_sound db -> ledger_sound (snd (api env r db)).
Proof.
  intro Hs. destruct (api_effect env r db) as [->|[[op ->]|[t [u ->]]]].
  - exact Hs.
  - now apply ledger_sound_perform.
  - apply (@ledger_sound_same_ledger
             db (mkDB (tenants db ++ [t]) (users db ++ [u]) (materials db)
                      (transactions db))
             eq_refl eq_refl Hs).
Qed.

Lemma api_reachable_ledger_sound (env : Environment) (db : DB) :
  api_reachable env db -> ledger_sound db.
Proof.
  induction 1 as [|db r _ IH].
  - apply empty_store_is_sound.
  - now apply ledger_sound_api.
Qed.

(** X17.  No request removes or rewrites what is stored: after any request
    the transaction table is the old one followed by at most one new row,
    and the tenant, user and material tables keep their keys in place, with
    new keys only at the end. *)
Theorem api_only_appends (env : Environment) (r : ApiRequest) (db : DB) :
  let db' := snd (api env r db) in
  (exists new, transactions db' = transactions db ++ new /\ List.length new <= 1)
  /\ (exists new, map Material.id (materials db')
                  = map Material.id (materials db) ++ new)
  /\ (exists new, tenants db' = tenants db ++ new)
  /\ (exists new, users db' = users db ++ new).
Proof.
  intro db'. subst db'.
  assert (Hsame : (exists new, transactions db = transactions db ++ new
                               /\ List.length new <= 1)
                  /\ (exists new, map Material.id (materials db)
                                  = map Material.id (materials db) ++ new)
                  /\ (exists new, tenants db = tenants db ++ new)
                  /\ (exists new, users db = users db ++ new)).
  { split; [exists []; split; [now rewrite app_nil_r|simpl; lia]|].
    split; [|split]; exists []; now rewrite app_nil_r. }
  destruct (api_effect env r db) as [->|[[op ->]|[t [u ->]]]]; [exact Hsame| |].
  - destruct op as [ctx req|ctx req|ctx req]; simpl.
    + destruct (createMaterial_effect ctx req db)
        as [->|[name [unit [_ [_ [_ ->]]]]]]; [exact Hsame|]. simpl.
      split; [exists []; split; [now rewrite app_nil_r|simpl; lia]|].
      split; [rewrite map_app; eauto|].
      split; exists []; now rewrite app_nil_r.
    + destruct (createTransaction_cases ctx req db) as [->|[mv [_ ->]]];
        [exact Hsame|]. simpl.
      split; [eexists; split; [reflexivity|simpl; lia]|].
      split; [exists []; now rewrite update_rows_ids, app_nil_r|].
      split; exists []; now rewrite app_nil_r.
    + destruct (softDeleteMaterial_cases ctx req db) as [->| ->]; [exact Hsame|]. simpl.
      split; [exists []; split; [now rewrite app_nil_r|simpl; lia]|].
      split; [exists []; now rewrite update_rows_ids, app_nil_r|].
      split; exists []; now rewrite app_nil_r.
  - simpl. split; [exists []; split; [now rewrite app_nil_r|simpl; lia]|].
    split; [exists []; now rewrite app_nil_r|]. split; eauto.
Qed.

(** ** The live count and the plan limit *)

Lemma count_map_stable (p : Material.t -> bool) (f : Material.t -> Material.t)
      (l : list Material.t) :
  (forall x, p (f x) = p x) ->
  List.length (filter p (map f l)) = List.length (filter p l).
Proof.
  intro H. induction l as [|x l IH]; simpl; [reflexivity|].
  rewrite H. destruct (p x); simpl; now rewrite IH.
Qed.

Lemma count_map_shrinks (p : Material.t -> bool) (f : Material.t -> Material.t)
      (l : list Material.t) :
  (forall x, p (f x) = true -> p x = true) ->
  List.length (filter p (map f l)) <= List.length (filter p l).
Proof.
  intro H. induction l as [|x l IH]; simpl; [lia|].
  destruct (p (f x)) eqn:E.
  - rewrite (H x E). simpl. lia.
  - destruct (p x); simpl; lia.
Qed.

Lemma material_count_restock (tid i : Id) (newStock : Q) (db : DB)
      (txs : list Transaction.t) :
  prisma.material_count tid
    (mkDB (tenants db) (users db)
          (prisma.update_rows i (prisma.data_currentStock newStock) (materials db)) txs)
  = prisma.material_count tid db.
Proof.
  unfold prisma.material_count, prisma.update_rows. simpl.
  apply count_map_stable. intro x. destruct (Material.id x =? i); reflexivity.
Qed.

Lemma material_count_deleted_le (tid i : Id) (date : Timestamp) (db : DB) :
  prisma.material_count tid (deleted_store i date db) <= prisma.material_count tid db.
Proof.
  unfold prisma.material_count, deleted_store, prisma.update_rows. simpl.
  apply count_map_shrinks. intro x.
  destruct (Material.id x =? i); [|tauto].
  unfold Material.live. simpl. rewrite andb_false_r. discriminate.
Qed.

Lemma material_count_created (tid : Id) (db : DB) (row : Material.t) :
  Material.deletedAt row = None ->
  prisma.material_count tid
    (mkDB (tenants db) (users db) (materials db ++ [row]) (transactions db))
  = prisma.material_count tid db + (if Material.tenantId row =? tid then 1 else 0).
Proof.
  intro Hlive. unfold prisma.material_count. simpl.
  rewrite filter_app, length_app. simpl. unfold Material.live. rewrite Hlive.
  destruct (Material.tenantId row =? tid); reflexivity.
Qed.

Lemma material_count_deleted (tid i : Id) (date : Timestamp) (rows : list Material.t)
      (material : Material.t) :
  NoDup (map Material.id rows) -> In material rows ->
  Material.id material = i -> Material.tenantId material = tid ->
  Material.deletedAt material = None ->
  List.length (filter (fun m => (Material.tenantId m =? tid) && Material.live m)
                      (prisma.update_rows i (prisma.data_deletedAt date) rows)) + 1
  = List.length (filter (fun m => (Material.tenantId m =? tid) && Material.live m) rows).
Proof.
  intros Hnd Hin Hid Htid Hlive. induction rows as [|x rows IH]; [destruct Hin|].
  simpl in Hnd. apply NoDup_cons_iff in Hnd. destruct Hnd as [Hx Hnd].
  change (prisma.update_rows i (prisma.data_deletedAt date) (x :: rows))
    with ((if Material.id x =? i
           then prisma.assign (prisma.data_deletedAt date) x else x)
            :: prisma.update_rows i (prisma.data_deletedAt date) rows).
  destruct Hin as [->|Hin].
  - rewrite update_rows_absent by (rewrite <- Hid; exact Hx).
    rewrite Hid, Nat.eqb_refl. simpl. unfold Material.live. simpl.
    rewrite Htid, Nat.eqb_refl, Hlive, andb_false_r. simpl. lia.
  - assert (Hne : Material.id x <> i).
    { intro He. apply Hx. rewrite He, <- Hid. now apply in_map. }
    apply Nat.eqb_neq in Hne. rewrite Hne. simpl.
    specialize (IH Hnd Hin).
    destruct ((Material.tenantId x =? tid) && Material.live x); simpl; lia.
Qed.

(** X18.  The live count follows creations and soft deletes one for one: a
    creation answered 201 raises the count of the tenant by one, and a soft
    delete of a live material lowers it by one, so a FREE tenant at the
    ceiling gets a free slot back. *)
Theorem material_count_tracks_create_and_delete
        (ctx : Context) (req : Request) (db : DB) :
  reachable db ->
  let tenantId := Tenant.id (tenant ctx) in
  (status (fst (createMaterial ctx req db)) = 201 ->
   prisma.material_count tenantId (snd (createMaterial ctx req db))
   = prisma.material_count tenantId db + 1)
  /\ (forall material,
         prisma.material_findFirst (params_id req) tenantId db = Some material ->
         prisma.material_count tenantId (snd (softDeleteMaterial ctx req db)) + 1
         = prisma.material_count tenantId db).
Proof.
  intros Hr tenantId. split.
  - intro Hst. destruct (createMaterial_created ctx req db Hst) as [name [unit [_ Hrun]]].
    cbv zeta in Hrun. rewrite Hrun. simpl.
    rewrite material_count_created by reflexivity. simpl.
    unfold tenantId. now rewrite Nat.eqb_refl.
  - intros material Hf.
    destruct (softDeleteMaterial_effect ctx req db) as [Hsame|[m0 [_ Hrun]]].
    + exfalso. revert Hsame. unfold softDeleteMaterial. fold tenantId. rewrite Hf.
      pose proof (material_findFirst_Some _ _ _ Hf) as [Hin [Hid _]].
      unfold prisma.material_update.
      destruct (find _ (materials db)) as [m1|] eqn:E.
      * simpl. intro Hsame.
        assert (Hd : prisma.material_findFirst (params_id req) tenantId db = None).
        { rewrite <- Hsame at 1. apply material_findFirst_deleted. }
        congruence.
      * pose proof (find_none _ _ E material Hin) as Hn. simpl in Hn.
        rewrite Hid, Nat.eqb_refl in Hn. discriminate.
    + rewrite Hrun.
      pose proof (material_findFirst_Some _ _ _ Hf) as [Hin [Hid [Htid Hlive]]].
      unfold prisma.material_count, deleted_store. simpl.
      apply (@material_count_deleted tenantId (params_id req) (now req)
               (materials db) material
               (sound_material_ids (reachable_ledger_sound Hr)) Hin Hid Htid Hlive).
Qed.

Lemma material_count_tracks_create_and_delete_witness :
  prisma.material_count 1 (snd (softDeleteMaterial as_alice (request 1 1 []) acme_steel))
  + 1
  = prisma.material_count 1 acme_steel.
Proof.
  apply (proj2 (@material_count_tracks_create_and_delete
                  as_alice (request 1 1 []) acme_steel acme_steel_reachable) steel).
  reflexivity.
Defined.

(** ** Soundness of every store the API produces *)

Lemma tenantAuthMiddleware_finds_tenant (req : Request) (db : DB) (ctx : Context) :
  tenantAuthMiddleware req db = inr ctx ->
  prisma.tenant_findUnique (Tenant.id (tenant ctx)) db = Some (tenant ctx).
Proof.
  unfold tenantAuthMiddleware.
  destruct (header_tenant_id req) as [tenantId|]; [|discriminate].
  destruct (header_user_id req) as [userId|]; [|discriminate].
  destruct (prisma.tenant_findUnique tenantId db) as [t|] eqn:Et; [|discriminate].
  destruct (prisma.user_findFirst userId tenantId db) as [u|]; [|discriminate].
  intro H. injection H as <-. simpl.
  pose proof Et as Et'. apply find_some in Et'. destruct Et' as [_ Hid].
  apply Nat.eqb_eq in Hid. now rewrite Hid.
Qed.

Lemma update_rows_tenants (i : Id) (d : prisma.MaterialData) (rows : list Material.t)
      (m : Material.t) :
  In m (prisma.update_rows i d rows) ->
  In (Material.tenantId m) (map Material.tenantId rows).
Proof.
  intro H. apply update_rows_In in H. destruct H as [m0 [Hm0 [[_ ->]|[_ ->]]]].
  - destruct d; simpl; now apply in_map.
  - now apply in_map.
Qed.

Lemma catalogue_sound_perform (op : Operation) (db : DB) :
  catalogue_sound db -> catalogue_sound (snd (perform op db)).
Proof.
  intros [Ht Hu Hut Hmt].
  assert (Hupd : forall i d,
             catalogue_sound (mkDB (tenants db) (users db)
                                   (prisma.update_rows i d (materials db))
                                   (transactions db))).
  { intros i d. constructor; simpl; try assumption.
    intros m Hm. apply update_rows_tenants in Hm. apply in_map_iff in Hm.
    destruct Hm as [m0 [<- Hm0]]. now apply Hmt. }
  destruct op as [ctx req|ctx req|ctx req]; simpl.
  - destruct (createMaterial_effect ctx req db)
      as [->|[name [unit [Hex [_ [_ ->]]]]]]; [now constructor|].
    constructor; simpl; try assumption.
    intros m Hm. apply in_app_or in Hm. destruct Hm as [Hm|[<-|[]]]; [now apply Hmt|].
    simpl. apply existsb_exists in Hex. destruct Hex as [t [Hin Hid]].
    apply Nat.eqb_eq in Hid. rewrite <- Hid. now apply in_map.
  - destruct (createTransaction_cases ctx req db) as [->|[mv [_ ->]]];
      [now constructor|].
    destruct (Hupd (mv_materialId mv) (prisma.data_currentStock (mv_newStock mv)))
      as [H1 H2 H3 H4].
    constructor; assumption.
  - destruct (softDeleteMaterial_cases ctx req db) as [->| ->]; [now constructor|].
    apply Hupd.
Qed.

Lemma catalogue_sound_api (env : Environment) (r : ApiRequest) (db : DB) :
  catalogue_sound db -> catalogue_sound (snd (api env r db)).
Proof.
  intro Hc. destruct r as [b|e req|query req|req].
  - simpl. destruct (createTenant_effect (z_email env) b db)
      as [[-> _]|[name [plan [email [userName [_ [_ H]]]]]]]; [exact Hc|].
    cbv zeta in H. rewrite H. simpl. destruct Hc as [Ht Hu Hut Hmt].
    constructor; simpl.
    + rewrite map_app. simpl. apply NoDup_app; [exact Ht| |].
      * constructor; [intros []|constructor].
      * intros a Ha [<-|[]]. now apply (freshId_not_in (map Tenant.id (tenants db))).
    + rewrite map_app. simpl. apply NoDup_app; [exact Hu| |].
      * constructor; [intros []|constructor].
      * intros a Ha [<-|[]]. now apply (freshId_not_in (map User.id (users db))).
    + intros u Hin. rewrite map_app. apply in_or_app.
      apply in_app_or in Hin. destruct Hin as [Hin|[<-|[]]].
      * left. now apply Hut.
      * right. simpl. now left.
    + intros m Hm. rewrite map_app. apply in_or_app. left. now apply Hmt.
  - simpl. destruct (handle_effect e req db) as [->|[ctx [_ [->|[->| ->]]]]].
    + exact Hc.
    + apply (catalogue_sound_perform (op_createMaterial ctx req) Hc).
    + apply (catalogue_sound_perform (op_createTransaction ctx req) Hc).
    + apply (catalogue_sound_perform (op_softDeleteMaterial ctx req) Hc).
  - simpl. rewrite scoped_reads_only; [exact Hc|].
    intro ctx. apply listMaterials_reads_only.
  - simpl. rewrite scoped_reads_only; [exact Hc|].
    intro ctx. apply getAnalyticsSummary_reads_only.
Qed.

Lemma material_count_no_rows (tid : Id) (db : DB) :
  ~ In tid (map Material.tenantId (materials db)) ->
  prisma.material_count tid db = 0.
Proof.
  intro Hn. unfold prisma.material_count.
  induction (materials db) as [|m l IH]; [reflexivity|].
  simpl in *. destruct (Material.tenantId m =? tid) eqn:E.
  - apply Nat.eqb_eq in E. tauto.
  - simpl. apply IH. tauto.
Qed.

Lemma within_free_limit_api (env : Environment) (r : ApiRequest) (db : DB) :
  catalogue_sound db -> within_free_limit db ->
  within_free_limit (snd (api env r db)).
Proof.
  intros Hc Hw. destruct r as [b|e req|query req|req].
  - simpl. destruct (createTenant_effect (z_email env) b db)
      as [[-> _]|[name [plan [email [userName [_ [_ H]]]]]]]; [exact Hw|].
    cbv zeta in H. rewrite H. clear H.
    remember (freshId (map Tenant.id (tenants db))) as fid eqn:Hfid.
    simpl. intros tid t Hfind Hfree.
    unfold prisma.tenant_findUnique in Hfind. simpl in Hfind.
    rewrite find_snoc in Hfind.
    assert (Hcount : forall ts us,
               prisma.material_count tid (mkDB ts us (materials db) (transactions db))
               = prisma.material_count tid db) by reflexivity.
    rewrite Hcount.
    destruct (find _ (tenants db)) as [t0|] eqn:E.
    + injection Hfind as <-. now apply (Hw tid t0).
    + simpl in Hfind. destruct (fid =? tid) eqn:Ef; [|discriminate Hfind].
      apply Nat.eqb_eq in Ef. rewrite material_count_no_rows; [lia|].
      intro Hin. apply in_map_iff in Hin. destruct Hin as [m [Hm Hin]].
      apply (freshId_not_in (map Tenant.id (tenants db))).
      rewrite <- Hfid, Ef, <- Hm. now apply (materials_have_tenant Hc).
  - simpl. destruct (handle_effect e req db) as [->|[ctx [Hauth [->|[->| ->]]]]].
    + exact Hw.
    + destruct (createMaterial_effect ctx req db)
        as [->|[name [unit [_ [_ [Hgate ->]]]]]]; [exact Hw|].
      intros tid t Hfind Hfree.
      rewrite material_count_created by reflexivity. simpl.
      assert (Hfind' : prisma.tenant_findUnique tid db = Some t) by exact Hfind.
      destruct (Tenant.id (tenant ctx) =? tid) eqn:E.
      * apply Nat.eqb_eq in E. subst tid.
        rewrite (tenantAuthMiddleware_finds_tenant _ _ Hauth) in Hfind'.
        injection Hfind' as <-. specialize (Hgate Hfree). lia.
      * pose proof (Hw tid t Hfind' Hfree). lia.
    + destruct (createTransaction_cases ctx req db) as [->|[mv [_ ->]]]; [exact Hw|].
      intros tid t Hfind Hfree. unfold movement_store.
      rewrite material_count_restock. now apply (Hw tid t).
    + destruct (softDeleteMaterial_cases ctx req db) as [->| ->]; [exact Hw|].
      intros tid t Hfind Hfree.
      pose proof (material_count_deleted_le tid (params_id req) (now req) db).
      assert (prisma.material_count tid db <= MAX_FREE_MATERIALS)
        by now apply (Hw tid t).
      lia.
  - simpl. rewrite scoped_reads_only; [exact Hw|].
    intro ctx. apply listMaterials_reads_only.
  - simpl. rewrite scoped_reads_only; [exact Hw|].
    intro ctx. apply getAnalyticsSummary_reads_only.
Qed.

Lemma api_reachable_catalogue (env : Environment) (db : DB) :
  api_reachable env db -> catalogue_sound db /\ within_free_limit db.
Proof.
  induction 1 as [|db r _ [Hc Hw]].
  - split.
    + constructor; simpl; try constructor; intros ? [].
    + intros tid t Hfind. discriminate.
  - split; [now apply catalogue_sound_api|now apply within_free_limit_api].
Qed.

Lemma run_api_reachable (env : Environment) (rs : list ApiRequest) (db : DB) :
  api_reachable env db -> api_reachable env (run_api env rs db).
Proof.
  revert db. induction rs as [|r rs IH]; intros db Hr; simpl; [assumption|].
  apply IH. now apply api_reachable_next.
Qed.







(** X20.  In every such store the references hold: ids of tenants, users,
    materials and transactions are unique, every user and every material
    belongs to an existing tenant, and every transaction names an existing
    material of its own tenant. *)
Theorem api_keeps_references (env : Environment) (db : DB) :
  api_reachable env db ->
  NoDup (map Tenant.id (tenants db))
  /\ NoDup (map User.id (users db))
  /\ NoDup (map Material.id (materials db))
  /\ NoDup (map Transaction.id (transactions db))
  /\ (forall u, In u (users db) -> In (User.tenantId u) (map Tenant.id (tenants db)))
  /\ (forall m, In m (materials db) ->
                In (Material.tenantId m) (map Tenant.id (tenants db)))
  /\ (forall t, In t (transactions db) ->
                exists m, In m (materials db)
                          /\ Material.id m = Transaction.materialId t
                          /\ Material.tenantId m = Transaction.tenantId t).
Proof.
  intro Hr. pose proof (api_reachable_ledger_sound Hr) as Hs.
  destruct (api_reachable_catalogue Hr) as [[Ht Hu Hut Hmt] _].
  repeat (split; [assumption || apply Hs|]).
  intros t Hin. apply (sound_transactions Hs t Hin).
Qed.

(** X21.  When requests are served one after the other, a tenant on the FREE
    plan never holds more than five live materials. *)
Theorem free_tenant_stays_within_limit (env : Environment) (db : DB) (t : Tenant.t) :
  api_reachable env db ->
  In t (tenants db) -> Tenant.plan t = FREE ->
  prisma.material_count (Tenant.id t) db <= 5.
Proof.
  intros Hr Hin Hfree. destruct (api_reachable_catalogue Hr) as [[Hnd _ _ _] Hw].
  apply (Hw (Tenant.id t) t); [|exact Hfree].
  unfold prisma.tenant_findUnique.
  destruct (find _ (tenants db)) as [t0|] eqn:E.
  - apply find_some in E. destruct E as [Hin0 Hid]. apply Nat.eqb_eq in Hid.
    f_equal. clear Hw Hr Hfree.
    induction (tenants db) as [|x l IH]; [destruct Hin|].
    simpl in Hnd. apply NoDup_cons_iff in Hnd. destruct Hnd as [Hx Hnd].
    destruct Hin as [->|Hin], Hin0 as [->|Hin0]; auto.
    + exfalso. apply Hx. rewrite <- Hid. now apply in_map.
    + exfalso. apply Hx. rewrite Hid. now apply in_map.
  - pose proof (find_none _ _ E t Hin) as Hn. simpl in Hn.
    rewrite Nat.eqb_refl in Hn. discriminate.
Qed.

Lemma api_sample_reachable : api_reachable sample_env api_sample.
Proof.
  apply run_api_reachable. apply api_reachable_start.
Defined.


Lemma api_keeps_references_witness :
  NoDup (map Tenant.id (tenants api_sample))
  /\ NoDup (map User.id (users api_sample))
  /\ NoDup (map Material.id (materials api_sample))
  /\ NoDup (map Transaction.id (transactions api_sample))
  /\ (forall u, In u (users api_sample) ->
                In (User.tenantId u) (map Tenant.id (tenants api_sample)))
  /\ (forall m, In m (materials api_sample) ->
                In (Material.tenantId m) (map Tenant.id (tenants api_sample)))
  /\ (forall t, In t (transactions api_sample) ->
                exists m, In m (materials api_sample)
                          /\ Material.id m = Transaction.materialId t
                          /\ Material.tenantId m = Transaction.tenantId t).
Proof.
  apply (@api_keeps_references sample_env api_sample). exact api_sample_reachable.
Defined.

Lemma free_tenant_stays_within_limit_witness :
  prisma.material_count (Tenant.id acme) api_sample <= 5.
Proof.
  apply (@free_tenant_stays_within_limit sample_env api_sample acme).
  - exact api_sample_reachable.
  - vm_compute. left. reflexivity.
  - reflexivity.
Defined.

(** X22.  A tenant-scoped request that lacks the [Tenant-ID] or the [User-ID]
    header is refused with 401 "Authentication Required", and one whose
    [Tenant-ID] names no tenant with 404 "Tenant Not Found", on every route
    and before any role check or controller runs; the store stays as it is. *)
Theorem requests_without_identity_are_refused
        (env : Environment) (req : Request) (db : DB) :
  let refused r :=
    (forall e, handle e req db = (r, db))
    /\ (forall query, api env (api_list query req) db = (Plain r, db))
    /\ api env (api_analytics req) db = (Plain r, db) in
  (header_tenant_id req = None \/ header_user_id req = None ->
   refused (mkResponse 401 (ErrorJson "Authentication Required" MissingHeadersMessage)))
  /\ (forall tid uid,
         header_tenant_id req = Some tid -> header_user_id req = Some uid ->
         (forall t, In t (tenants db) -> Tenant.id t <> tid) ->
         refused (mkResponse 404 (ErrorJson "Tenant Not Found" TenantNotFoundMessage))).
Proof.
  intro refused.
  assert (Hall : forall r, tenantAuthMiddleware req db = inl r -> refused r).
  { intros r Hauth. unfold refused. repeat split.
    - intro e. unfold handle. now rewrite Hauth.
    - intro query. simpl. unfold scoped. now rewrite Hauth.
    - simpl. unfold scoped. now rewrite Hauth. }
  split.
  - intro Hmissing. apply Hall. unfold tenantAuthMiddleware.
    destruct Hmissing as [-> | ->]; [reflexivity|].
    destruct (header_tenant_id req); reflexivity.
  - intros tid uid Ht Hu Hnone. apply Hall. unfold tenantAuthMiddleware.
    rewrite Ht, Hu.
    assert (Hf : prisma.tenant_findUnique tid db = None).
    { unfold prisma.tenant_findUnique.
      destruct (find _ (tenants db)) as [t|] eqn:E; [|reflexivity].
      apply find_some in E. destruct E as [Hin Hid]. apply Nat.eqb_eq in Hid.
      now elim (Hnone t Hin). }
    now rewrite Hf.
Qed.

Lemma overlapped_schedule_keeps_last_write_witness :
  let final := snd (run_schedule [0; 1; 0; 1]
                      ([Arrived as_bob (request 2 1 (movement_body IN 30));
                        Arrived as_bob (request 2 1 (movement_body OUT 30))],
                       acme_steel)) in
  stock_of 1 1 final = Some (post_stock OUT 100 30)
  /\ map Transaction.preTransactionStock
         (skipn (List.length (transactions acme_steel)) (transactions final))
     = [100%Q; 100%Q].
Proof.
  apply (@overlapped_schedule_keeps_last_write
           as_bob (request 2 1 (movement_body IN 30)) (request 2 1 (movement_body OUT 30))
           acme_steel steel IN OUT 30 30).
  - reflexivity.
  - reflexivity.
  - split; reflexivity.
  - reflexivity.
  - split; reflexivity.
  - reflexivity.
  - reflexivity.
  - discriminate.
  - intros _. vm_compute. discriminate.
Defined.

(** * The ledger in double precision: properties *)

(** ** Binary64 arithmetic *)

Lemma binary_round_aux_not_negative (mx ex : Z) (lx : location) :
  Binary64.sf_not_negative (binary_round_aux prec emax false mx ex lx).
Proof.
  unfold Binary64.sf_not_negative, binary_round_aux.
  destruct (shr_fexp prec emax mx ex lx) as [mrs e].
  destruct (shr_fexp prec emax _ e loc_Exact) as [mrs' e'].
  destruct (shr_m mrs'); [reflexivity| |reflexivity].
  destruct (Z.leb e' (emax - prec)); reflexivity.
Qed.

Lemma binary_normalize_not_negative (m e : Z) :
  (0 <= m)%Z -> Binary64.sf_not_negative (binary_normalize prec emax m e false).
Proof.
  intro Hm. destruct m as [|p|p]; [reflexivity| |lia].
  unfold binary_normalize, binary_round.
  destruct (shl_align p e _) as [mz ez]. apply binary_round_aux_not_negative.
Qed.

Lemma digits2_pos_size (p : positive) : digits2_pos p = Pos.size p.
Proof. induction p; simpl; congruence. Qed.

Lemma iter_xO_doubles (m d : positive) :
  (2 * Zpos m <= Zpos (Pos.iter xO m d))%Z.
Proof.
  induction d as [|d IH] using Pos.peano_ind.
  - simpl. lia.
  - rewrite Pos.iter_succ. lia.
Qed.

(** The mantissa of a valid number has at most [prec] digits, and all of
    them when the exponent is above the least one. *)
Lemma valid_mantissa_below (m : positive) (e : Z) :
  bounded prec emax m e = true -> (Zpos m < 2 ^ prec)%Z.
Proof.
  unfold bounded, canonical_mantissa, fexp. intro H.
  apply andb_prop in H. destruct H as [H _]. apply Z.eqb_eq in H.
  rewrite digits2_pos_size in H.
  assert (Hs : (Zpos (Pos.size m) <= prec)%Z) by lia.
  pose proof (Pos.size_gt m) as Hgt.
  apply Pos2Z.pos_lt_pos in Hgt. rewrite Pos2Z.inj_pow in Hgt.
  apply Z.lt_le_trans with (2 ^ Zpos (Pos.size m))%Z; [exact Hgt|].
  apply Z.pow_le_mono_r; lia.
Qed.

Lemma valid_mantissa_full (m : positive) (e : Z) :
  bounded prec emax m e = true -> (SpecFloat.emin prec emax < e)%Z ->
  (2 ^ prec <= 2 * Zpos m)%Z.
Proof.
  unfold bounded, canonical_mantissa, fexp. intros H He.
  apply andb_prop in H. destruct H as [H _]. apply Z.eqb_eq in H.
  rewrite digits2_pos_size in H.
  assert (Hs : Zpos (Pos.size m) = prec) by lia.
  pose proof (Pos.size_le m) as Hle.
  apply Pos2Z.pos_le_pos in Hle. rewrite Pos2Z.inj_pow in Hle.
  rewrite <- Hs. exact Hle.
Qed.

Lemma valid_exponent (m : positive) (e : Z) :
  bounded prec emax m e = true -> (SpecFloat.emin prec emax <= e)%Z.
Proof.
  unfold bounded, canonical_mantissa, fexp. intro H.
  apply andb_prop in H. destruct H as [H _]. apply Z.eqb_eq in H. lia.
Qed.

Lemma SFadd_not_negative (x q : spec_float) :
  Binary64.sf_not_negative x -> Binary64.sf_positive q ->
  Binary64.sf_not_negative (SF64add x q).
Proof.
  unfold Binary64.sf_not_negative, Binary64.sf_positive, SF64add.
  destruct x as [sx|sx| |sx mx ex], q as [sq|sq| |sq mq eq'];
    try destruct sx; try destruct sq; try discriminate; try reflexivity;
    intros _ _.
  unfold SFadd. apply binary_normalize_not_negative. unfold cond_Zopp.
  apply Z.add_nonneg_nonneg; apply Pos2Z.is_nonneg.
Qed.

Lemma SFsub_not_negative (x q : spec_float) :
  valid_binary x = true -> valid_binary q = true ->
  SFltb x q = false -> Binary64.sf_positive q ->
  Binary64.sf_not_negative (SF64sub x q).
Proof.
  unfold Binary64.sf_not_negative, Binary64.sf_positive, SF64sub.
  destruct x as [sx|sx| |sx mx ex], q as [sq|sq| |sq mq eq'];
    try destruct sx; try destruct sq; try discriminate; try reflexivity.
  intros Hx Hq Hlt _. simpl in Hx, Hq.
  unfold SFsub. apply binary_normalize_not_negative.
  unfold SFltb, SFcompare in Hlt. unfold shl_align, cond_Zopp.
  destruct (Z.compare_spec ex eq') as [He|He|He]; [| discriminate |].
  - subst eq'. rewrite Z.min_id, Z.sub_diag. cbn [fst].
    destruct (Pos.compare_cont Eq mx mq) eqn:Ec; [| discriminate |].
    + apply Pos.compare_eq in Ec. lia.
    + change (Pos.compare_cont Eq mx mq) with (Pos.compare mx mq) in Ec.
      apply Pos.compare_gt_iff in Ec. lia.
  - rewrite Z.min_r by lia. rewrite Z.sub_diag.
    destruct (eq' - ex)%Z as [|d|d] eqn:Ed; [lia|lia|]. cbn [fst].
    pose proof (iter_xO_doubles mx d).
    pose proof (valid_exponent _ _ Hq).
    pose proof (@valid_mantissa_full mx ex Hx ltac:(lia)).
    pose proof (valid_mantissa_below _ _ Hq). lia.
Qed.

(** A stock that is not negative stays so when a positive quantity is added. *)
Lemma add_not_negative (x q : float) :
  Binary64.not_negative x -> (0 <? q)%float = true ->
  Binary64.not_negative (x + q)%float.
Proof.
  unfold Binary64.not_negative. rewrite !ltb_spec, add_spec.
  apply SFadd_not_negative.
Qed.

(** The difference is not negative when the check [x < q] of the handler has
    failed. *)
Lemma sub_not_negative (x q : float) :
  (x <? q)%float = false -> (0 <? q)%float = true ->
  Binary64.not_negative (x - q)%float.
Proof.
  unfold Binary64.not_negative. rewrite !ltb_spec, sub_spec.
  apply SFsub_not_negative; apply Prim2SF_valid.
Qed.

(** ** The handlers in double precision *)

Module Ledger64.
Import Binary64.

Lemma material_findFirst_In (id tenantId : Id) (db : DB) (m : Material.t) :
  prisma.material_findFirst id tenantId db = Some m ->
  In m (materials db) /\ Material.id m = id /\ Material.tenantId m = tenantId
  /\ Material.deletedAt m = None.
Proof.
  unfold prisma.material_findFirst. intro H. apply find_some in H.
  destruct H as [Hin H]. apply andb_prop in H. destruct H as [H Hlive].
  apply andb_prop in H. destruct H as [Hid Htid].
  apply Nat.eqb_eq in Hid. apply Nat.eqb_eq in Htid.
  unfold Material.live in Hlive.
  destruct (Material.deletedAt m); [discriminate|]. auto.
Qed.

Lemma updated_rows_keep_ids (id : Id) (d : prisma.MaterialData) (rows : list Material.t) :
  map Material.id (prisma.update_rows id d rows) = map Material.id rows.
Proof.
  unfold prisma.update_rows. rewrite map_map. apply map_ext.
  intro x. destruct (Material.id x =? id); [|reflexivity]. destruct d; reflexivity.
Qed.

Lemma updated_row_origin (id : Id) (d : prisma.MaterialData) (rows : list Material.t)
      (m : Material.t) :
  In m (prisma.update_rows id d rows) ->
  exists x, In x rows
            /\ ((Material.id x = id /\ m = prisma.assign d x)
                \/ (Material.id x <> id /\ m = x)).
Proof.
  unfold prisma.update_rows. intro H. apply in_map_iff in H.
  destruct H as [x [Hm Hx]]. exists x. split; [exact Hx|].
  destruct (Material.id x =? id) eqn:E.
  - apply Nat.eqb_eq in E. left. auto.
  - apply Nat.eqb_neq in E. right. auto.
Qed.

Lemma effect_of_createMaterial (ctx : Context) (req : Request) (db : DB) :
  Effect db (snd (createMaterial ctx req db)).
Proof.
  unfold createMaterial.
  destruct (createMaterialSchema (body req)) as [[name unit]|]; [|constructor].
  destruct (TenantPlan_eqb _ FREE && _); [constructor|].
  unfold prisma.material_create.
  destruct (negb (existsb _ (tenants db))); [constructor|].
  destruct (existsb _ (materials db)); [constructor|].
  simpl. now constructor.
Qed.

Lemma effect_of_createTransaction (ctx : Context) (req : Request) (db : DB) :
  Effect db (snd (createTransaction ctx req db)).
Proof.
  unfold createTransaction, createTransaction_read.
  destruct (createTransactionSchema (body req)) as [[type quantity]|] eqn:Hs;
    [|constructor].
  assert (Hq : (0 <? quantity)%float = true).
  { unfold createTransactionSchema in Hs.
    destruct (z_TransactionType _); [|discriminate].
    unfold z_number_positive in Hs.
    destruct (field "quantity" (body req)); try discriminate.
    destruct (0 <? x)%float eqn:E; [|discriminate].
    injection Hs as _ <-. exact E. }
  destruct (prisma.material_findFirst _ _ db) as [material|] eqn:Hfind;
    [|constructor].
  apply material_findFirst_In in Hfind. destruct Hfind as [Hin [Hid _]].
  assert (Hwrite : forall newStock,
             (type = OUT ->
              (Material.currentStock material <? quantity)%float = false) ->
             newStock = post_stock type (Material.currentStock material) quantity ->
             Effect db
               (snd (createTransaction_write
                       (mkMovement (Tenant.id (tenant ctx)) (params_id req) type
                                   quantity (Material.currentStock material) newStock)
                       db))).
  { intros newStock Hout ->.
    unfold createTransaction_write, prisma.transaction2, prisma.material_update.
    cbn [mv_materialId mv_newStock mv_tenantId mv_type mv_quantity
         mv_preTransactionStock].
    destruct (find _ (materials db)); [|constructor].
    unfold prisma.transaction_create. cbn [tenants materials users transactions].
    destruct (negb (existsb _ (tenants db))); [constructor|].
    destruct (negb (existsb _ (prisma.update_rows _ _ _))); [constructor|].
    cbn [snd]. rewrite <- Hid.
    apply (@effect_moved db material
             (Transaction.mk (freshId (map Transaction.id (transactions db)))
                             (Tenant.id (tenant ctx)) (Material.id material)
                             type quantity (Material.currentStock material)));
      auto. }
  destruct type.
  - apply Hwrite; [discriminate|reflexivity].
  - destruct (Material.currentStock material <? quantity)%float eqn:E; [constructor|].
    apply Hwrite; [auto|reflexivity].
Qed.

Lemma effect_of_softDeleteMaterial (ctx : Context) (req : Request) (db : DB) :
  Effect db (snd (softDeleteMaterial ctx req db)).
Proof.
  unfold softDeleteMaterial.
  destruct (prisma.material_findFirst _ _ db); [|constructor].
  unfold prisma.material_update.
  destruct (find _ (materials db)); constructor.
Qed.

Lemma effect_of_perform (op : Operation) (db : DB) : Effect db (snd (perform op db)).
Proof.
  destruct op; simpl.
  - apply effect_of_createMaterial.
  - apply effect_of_createTransaction.
  - apply effect_of_softDeleteMaterial.
Qed.

(** ** Replaying a history *)

Lemma replay_after (l : list Transaction.t) (t : Transaction.t) :
  replay (l ++ [t])
  = post_stock (Transaction.type t) (replay l) (Transaction.quantity t).
Proof. unfold replay. rewrite fold_left_app. reflexivity. Qed.

Lemma recorded_split (stock : float) (l1 l2 : list Transaction.t) :
  recorded stock (l1 ++ l2)
  <-> recorded stock l1
      /\ recorded (fold_left (fun s t => post_stock (Transaction.type t) s
                                                    (Transaction.quantity t))
                             l1 stock) l2.
Proof.
  revert stock. induction l1 as [|t l1 IH]; intro stock; simpl.
  - tauto.
  - rewrite IH. tauto.
Qed.

Lemma history_snoc (db : DB) (row : Transaction.t) (ms : list Material.t) (i : Id) :
  history (mkDB (tenants db) (users db) ms (transactions db ++ [row])) i
  = history db i ++ (if Transaction.materialId row =? i then [row] else []).
Proof.
  unfold history, prisma.transactions_of. simpl. rewrite filter_app. reflexivity.
Qed.

Lemma history_same (db : DB) (ms : list Material.t) (i : Id) :
  history (mkDB (tenants db) (users db) ms (transactions db)) i = history db i.
Proof. reflexivity. Qed.

Lemma fresh_material_has_no_history (db : DB) :
  referential db -> history db (freshId (map Material.id (materials db))) = [].
Proof.
  intro Href. unfold history, prisma.transactions_of.
  destruct (filter _ (transactions db)) as [|t l] eqn:E; [reflexivity|].
  assert (Hin : In t (filter (fun t => Transaction.materialId t
                                       =? freshId (map Material.id (materials db)))
                             (transactions db))).
  { rewrite E. now left. }
  apply filter_In in Hin. destruct Hin as [Hin Hid]. apply Nat.eqb_eq in Hid.
  apply Href in Hin. rewrite Hid in Hin. now apply freshId_not_in in Hin.
Qed.

(** ** Preservation *)

Lemma ledger_sound_effect (db db' : DB) :
  Effect db db' -> ledger_sound db -> ledger_sound db'.
Proof.
  intros He [Href Hreplay Hstock Hrec Hsnap].
  destruct He as [|row Hid Hzero|m row Hin Hmid Hpre Hq Hout|id date].
  - now constructor.
  - constructor.
    + intros t Ht. simpl in *. rewrite map_app. apply in_or_app. left. now apply Href.
    + intros m Hm. rewrite history_same. simpl in Hm.
      apply in_app_or in Hm. destruct Hm as [Hm|[<-|[]]]; [now apply Hreplay|].
      rewrite Hid, fresh_material_has_no_history by assumption. exact Hzero.
    + intros m Hm. simpl in Hm.
      apply in_app_or in Hm. destruct Hm as [Hm|[<-|[]]]; [now apply Hstock|].
      rewrite Hzero. reflexivity.
    + intro i. rewrite history_same. apply Hrec.
    + exact Hsnap.
  - assert (Hnew : not_negative
                     (post_stock (Transaction.type row) (Material.currentStock m)
                                 (Transaction.quantity row))).
    { unfold post_stock. destruct (Transaction.type row).
      - apply add_not_negative; [now apply Hstock|exact Hq].
      - apply sub_not_negative; [now apply Hout|exact Hq]. }
    constructor.
    + intros t Ht. cbn [transactions materials] in *. rewrite updated_rows_keep_ids.
      apply in_app_or in Ht. destruct Ht as [Ht|[<-|[]]]; [now apply Href|].
      rewrite Hmid. now apply in_map.
    + intros m' Hm'. rewrite history_snoc. cbn [materials] in Hm'.
      apply updated_row_origin in Hm'.
      destruct Hm' as [x [Hx [[Hxid ->]|[Hxid ->]]]].
      * cbn [prisma.assign Material.id Material.currentStock].
        rewrite Hxid, Hmid, Nat.eqb_refl, replay_after.
        now rewrite <- (Hreplay m Hin).
      * rewrite Hmid. destruct (Material.id m =? Material.id x) eqn:E.
        { apply Nat.eqb_eq in E. congruence. }
        rewrite app_nil_r. now apply Hreplay.
    + intros m' Hm'. cbn [materials] in Hm'. apply updated_row_origin in Hm'.
      destruct Hm' as [x [Hx [[Hxid ->]|[Hxid ->]]]]; [exact Hnew|now apply Hstock].
    + intro i. rewrite history_snoc. apply recorded_split. split; [apply Hrec|].
      destruct (Transaction.materialId row =? i) eqn:E; [|exact I].
      apply Nat.eqb_eq in E. simpl. split; [|exact I].
      rewrite Hpre, (Hreplay m Hin), <- Hmid, E. reflexivity.
    + intros t Ht. cbn [transactions] in Ht.
      apply in_app_or in Ht. destruct Ht as [Ht|[<-|[]]]; [now apply Hsnap|].
      rewrite Hpre. now apply Hstock.
  - constructor.
    + intros t Ht. cbn [transactions materials] in *. rewrite updated_rows_keep_ids.
      now apply Href.
    + intros m Hm. rewrite history_same. cbn [materials] in Hm.
      apply updated_row_origin in Hm.
      destruct Hm as [x [Hx [[Hxid ->]|[Hxid ->]]]]; [|now apply Hreplay].
      cbn [prisma.assign Material.id Material.currentStock]. now apply Hreplay.
    + intros m Hm. cbn [materials] in Hm. apply updated_row_origin in Hm.
      destruct Hm as [x [Hx [[Hxid ->]|[Hxid ->]]]]; [|now apply Hstock].
      cbn [prisma.assign Material.currentStock]. now apply Hstock.
    + intro i. rewrite history_same. apply Hrec.
    + exact Hsnap.
Qed.

Lemma reachable_sound (db : DB) : reachable db -> ledger_sound db.
Proof.
  induction 1 as [ts us|db op _ IH].
  - constructor; try (intros ? []); intro i; exact I.
  - exact (ledger_sound_effect (effect_of_perform op db) IH).
Qed.

Lemma run_operations_reaches (ops : list Operation) (db : DB) :
  reachable db -> reachable (run_operations ops db).
Proof.
  revert db. induction ops as [|op ops IH]; intros db H; [exact H|].
  simpl. apply IH. now constructor.
Defined.

(** ** Exact histories *)

Lemma value_zero : value 0%float = Some 0%Q.
Proof. reflexivity. Qed.

Lemma exact_replay_net_sum (l : list Transaction.t) (stock : float) (s : Q) :
  exact_replay stock l -> value stock = Some s ->
  exists n,
    value (fold_left (fun x t => post_stock (Transaction.type t) x
                                            (Transaction.quantity t)) l stock)
    = Some n
    /\ (n == s + net_sum l)%Q.
Proof.
  revert stock s. induction l as [|t l IH]; intros stock s Hex Hs; simpl.
  - exists s. split; [exact Hs|ring].
  - simpl in Hex. destruct Hex as [Hstep Hrest]. rewrite Hs in Hstep.
    unfold signed_value.
    destruct (value (Transaction.quantity t)) as [q|]; [|contradiction].
    destruct (value (post_stock _ stock _)) as [n|] eqn:Hn; [|contradiction].
    destruct (IH _ n Hrest Hn) as [r [Hr Heq]].
    exists r. split; [exact Hr|].
    rewrite Heq. destruct (Transaction.type t); rewrite Hstep; ring.
Qed.

(** ** The ledger invariants *)

(** C1, as amended (invariants I1 and I2).  In every store that a sequence of
    [createMaterial], [createTransaction] and [softDeleteMaterial] calls
    produces, the [currentStock] of every material is the result of replaying
    its transaction history from 0 in the order of insertion, adding the
    quantity of an IN and subtracting the quantity of an OUT in binary64 as
    the handler does, and it never compares below 0.  Whenever no step of
    that replay rounds, the stock is a finite number and equals the net sum of
    the signed quantities of the history. *)
Theorem stock_replays_the_ledger (db : DB) (m : Material.t) :
  reachable db -> In m (materials db) ->
  let ledger := history db (Material.id m) in
  Material.currentStock m = replay ledger
  /\ not_negative (Material.currentStock m)
  /\ (exact_replay 0%float ledger ->
      exists stock, value (Material.currentStock m) = Some stock
                    /\ (stock == net_sum ledger)%Q).
Proof.
  intros Hr Hin ledger. pose proof (reachable_sound Hr) as Hs.
  pose proof (sound_replay Hs m Hin) as Hreplay. fold ledger in Hreplay.
  split; [exact Hreplay|]. split; [exact (sound_stock Hs m Hin)|].
  intro Hexact.
  destruct (@exact_replay_net_sum ledger 0%float 0%Q Hexact value_zero)
    as [n [Hn Heq]].
  exists n. split.
  - rewrite Hreplay. exact Hn.
  - rewrite Heq. ring.
Qed.

Lemma stock_replays_the_ledger_witness :
  let ledger := history after_plain 1 in
  exists stock, value 70%float = Some stock /\ (stock == net_sum ledger)%Q.
Proof.
  refine (proj2 (proj2 (@stock_replays_the_ledger
                          after_plain (Material.mk 1 1 "steel" "kg" 70%float None)
                          _ _)) _).
  - apply run_operations_reaches. apply reachable_empty.
  - vm_compute. left. reflexivity.
  - vm_compute. repeat split.
Defined.

(** C1, as stated, fails once an addition rounds: after steel is created and
    2^53 kg and then 1 kg are received, the stock is 2^53 while the signed
    quantities of the two rows sum to 2^53 + 1. *)
Lemma ledger_claim_fails_after_rounding : ~ ledger_claim after_rounding.
Proof.
  intro H.
  assert (Hr : reachable after_rounding).
  { apply run_operations_reaches. apply reachable_empty. }
  assert (Hin : In (Material.mk 1 1 "steel" "kg" two_53 None)
                   (materials after_rounding)).
  { vm_compute. left. reflexivity. }
  destruct (H Hr _ Hin) as [Hsum _]. vm_compute in Hsum. discriminate.
Qed.

(** X12.  The snapshots allow an audit: wherever a transaction stands in the
    history of its material, its [preTransactionStock] is the result of
    replaying the transactions before it from 0, in the order of insertion
    and with the binary64 operations of the handler, and it does not compare
    below 0. *)
Theorem snapshots_replay_the_ledger
        (db : DB) (i : Id) (before after : list Transaction.t) (t : Transaction.t) :
  reachable db ->
  history db i = before ++ t :: after ->
  Transaction.preTransactionStock t = replay before
  /\ not_negative (Transaction.preTransactionStock t).
Proof.
  intros Hr Hh. pose proof (reachable_sound Hr) as Hs.
  pose proof (sound_recorded Hs i) as Hrec. rewrite Hh in Hrec.
  apply recorded_split in Hrec. destruct Hrec as [_ [Hpre _]].
  split; [exact Hpre|].
  apply (sound_snapshots Hs).
  assert (Hin : In t (history db i)) by (rewrite Hh; apply in_elt).
  unfold history, prisma.transactions_of in Hin. apply filter_In in Hin. tauto.
Qed.

Lemma snapshots_replay_the_ledger_witness :
  two_53 = replay [Transaction.mk 1 1 1 IN two_53 0%float]
  /\ not_negative two_53.
Proof.
  apply (@snapshots_replay_the_ledger
           after_rounding 1 [Transaction.mk 1 1 1 IN two_53 0%float] []
           (Transaction.mk 2 1 1 IN 1%float two_53)).
  - apply run_operations_reaches. apply reachable_empty.
  - vm_compute. reflexivity.
Defined.

(** ** Analytics summary *)




End Ledger64.
